(** * CostLens SDK: routing-and-resilience core

    A shallow embedding of the TypeScript sources of the CostLens SDK
    (the [QualityDetector] class and the [CostLens] class with its two
    wrappers), followed by the properties of the specification that were
    checked against it.

    Conventions of the embedding.
    - A JavaScript string is a [string]; every character stands for one
      UTF-16 code unit in the range U+0000..U+00FF.
    - A JavaScript number that is a count, a status code, a token count or a
      time stamp is a [Z] (or a [nat] where the code only ever counts up from
      zero). Where the code branches on a number it has computed with
      fractions (the cost limit, the quality gate) the number is a binary64
      [float], computed operation by operation as the runtime does: module
      [Double] and [CostLens.Binary64]. The prices of the table, the cost
      estimate and the scores that are only reported, and the sampling
      parameters, are exact rationals [Q]; module [Double] checks that
      rounding does not change the branch taken on the complexity
      thresholds.
    - Asynchronous methods are run to completion one after the other; the
      collaborators they await (provider client, [fetch], [Date.now],
      [setTimeout], caller supplied hooks) are oracles, and every call to
      the provider, to [fetch], to the clock and to [setTimeout] is recorded
      in the state. Console output is not modelled. *)

From Stdlib Require Import String Ascii List ZArith QArith Qround Qminmax Lia Bool Arith.
From Stdlib Require Import Permutation Sorted Lqa DecimalString Floats Uint63.
Import ListNotations.

Local Close Scope Q_scope.
Local Open Scope string_scope.

(** ** JavaScript strings *)

Module JsString.

(** [s.includes(needle)] *)
Fixpoint includes (s needle : string) : bool :=
  String.prefix needle s ||
  match s with
  | EmptyString => false
  | String _ s' => includes s' needle
  end.

(** [/k1|k2|.../.test(s)] for a regular expression that is an alternation
    of literal words. *)
Definition test_any (keywords : list string) (s : string) : bool :=
  existsb (includes s) keywords.

(** [l.join(sep)] *)
Fixpoint join (sep : string) (l : list string) : string :=
  match l with
  | [] => ""
  | [x] => x
  | x :: rest => x ++ sep ++ join sep rest
  end.

Definition lower_char (c : ascii) : ascii :=
  let n := nat_of_ascii c in
  if (((65 <=? n) && (n <=? 90)) || ((192 <=? n) && (n <=? 222) && negb (n =? 215)))%nat
  then ascii_of_nat (n + 32)
  else c.

(** [s.toLowerCase()] *)
Fixpoint toLowerCase (s : string) : string :=
  match s with
  | EmptyString => EmptyString
  | String c s' => String (lower_char c) (toLowerCase s')
  end.

(** White space and line terminators removed by [trim]. *)
Definition is_space (c : ascii) : bool :=
  let n := nat_of_ascii c in
  ((n =? 9) || (n =? 10) || (n =? 11) || (n =? 12) || (n =? 13) || (n =? 32) ||
   (n =? 160))%nat.

Fixpoint trimStart (s : string) : string :=
  match s with
  | EmptyString => EmptyString
  | String c s' => if is_space c then trimStart s' else s
  end.

Fixpoint trimEnd (s : string) : string :=
  match s with
  | EmptyString => EmptyString
  | String c s' =>
      match trimEnd s' with
      | EmptyString => if is_space c then EmptyString else String c EmptyString
      | r => String c r
      end
  end.

(** [s.trim()] *)
Definition trim (s : string) : string := trimEnd (trimStart s).

(** A string is falsy exactly when it is empty. *)
Definition truthy (s : string) : bool := negb (s =? "").

(** [s.endsWith(suffix)] *)
Definition endsWith (s suffix : string) : bool :=
  (String.length suffix <=? String.length s)%nat &&
  (String.substring (String.length s - String.length suffix) (String.length suffix) s
   =? suffix).

Fixpoint last_char (s : string) : option ascii :=
  match s with
  | EmptyString => None
  | String c EmptyString => Some c
  | String _ s' => last_char s'
  end.

Definition starts_with_char (p : ascii -> bool) (s : string) : bool :=
  match s with
  | EmptyString => false
  | String c _ => p c
  end.

(** The character at offset [n] exists and satisfies [p]. *)
Definition char_at (p : ascii -> bool) (n : nat) (s : string) : bool :=
  match String.get n s with
  | Some c => p c
  | None => false
  end.

(** [s.split(/[...]+/)] for a character class [p]: the pieces between the
    maximal runs of characters of the class, empty first and last pieces
    included. *)
Fixpoint split_on (p : ascii -> bool) (s : string) : list string :=
  match s with
  | EmptyString => [EmptyString]
  | String c s' =>
      let r := split_on p s' in
      if p c then (if starts_with_char p s' then r else EmptyString :: r)
      else match r with
           | h :: t => String c h :: t
           | [] => [String c EmptyString]
           end
  end.

(** The elements of [new Set(l)], in order of first occurrence. *)
Fixpoint unique (l : list string) : list string :=
  match l with
  | [] => []
  | x :: r => x :: filter (fun y => negb (y =? x)) (unique r)
  end.

Definition is_digit (c : ascii) : bool :=
  let n := nat_of_ascii c in ((48 <=? n) && (n <=? 57))%nat.

(** The class [\w]: ASCII letters, digits and the underscore. *)
Definition is_word (c : ascii) : bool :=
  let n := nat_of_ascii c in
  (((48 <=? n) && (n <=? 57)) || ((65 <=? n) && (n <=? 90)) ||
   ((97 <=? n) && (n <=? 122)) || (n =? 95))%nat.

Definition char_is (n : nat) (c : ascii) : bool := (nat_of_ascii c =? n)%nat.

End JsString.

(** ** Numbers *)

Definition Qlt_bool (x y : Q) : bool := negb (Qle_bool y x).

(** A number is falsy exactly when it is zero. *)
Definition Qtruthy (x : Q) : bool := negb (Qeq_bool x 0%Q).
Definition Ztruthy (x : Z) : bool := negb (x =? 0)%Z.

(** ** The data model *)

Record Message := mkMessage { role : string; content : string }.

Definition message_contents (messages : list Message) : list string :=
  map content messages.

(** [messages.map((m) => m.content).join(' ').toLowerCase()] *)
Definition lowered_text (messages : list Message) : string :=
  JsString.toLowerCase (JsString.join " " (message_contents messages)).

(** [types.includes(t)] on an array of strings *)
Definition array_includes (types : list string) (t : string) : bool :=
  existsb (String.eqb t) types.

(** ** QualityDetector (qualityDetector.ts) *)

Module QualityDetector.

Record RoutingDecision := mkDecision {
  decision_shouldRoute : bool;
  decision_targetModel : string;
  decision_confidence : Q;
  decision_reasoning : string
}.

Record Metrics := mkMetrics {
  completeness : Q;
  coherence : Q;
  relevance : Q;
  accuracy : Q
}.

Record Analysis := mkAnalysis {
  qualityScore : Q;
  metrics : Metrics
}.

Definition add_if (b : bool) (d : Q) (score : Q) : Q :=
  if b then (score + d)%Q else score.

Definition measureCompleteness (response prompt : string) : Q :=
  if negb (JsString.truthy response) || (String.length response <? 10)%nat then 0%Q
  else
    let score := (3 # 10)%Q in
    let promptLength := String.length prompt in
    let responseLength := String.length response in
    let lengthRatio :=
      (inject_Z (Z.of_nat responseLength) /
       inject_Z (Z.of_nat (Nat.max promptLength 1)))%Q in
    let score :=
      add_if (Qlt_bool (5 # 10) lengthRatio && Qlt_bool lengthRatio 3) (3 # 10) score in
    let score := add_if (100 <? responseLength)%nat (2 # 10) score in
    let score := add_if (500 <? responseLength)%nat (1 # 10) score in
    let score :=
      if JsString.includes prompt "?" then
        let hasQuestionWords :=
          JsString.test_any ["what"; "how"; "why"; "when"; "where"; "which"; "who"]
            (JsString.toLowerCase prompt) in
        add_if (hasQuestionWords && (50 <? responseLength)%nat) (2 # 10) score
      else score in
    let score :=
      add_if (match JsString.last_char (JsString.trim response) with
              | Some c => JsString.char_is 46 c || JsString.char_is 33 c ||
                          JsString.char_is 63 c
              | None => false
              end) (1 # 10) score in
    let score :=
      add_if (negb (JsString.endsWith response "...") &&
              negb (JsString.includes response "[incomplete]") &&
              negb (JsString.includes response "[truncated]")) (1 # 10) score in
    Qmin 1 score.

(** [/\b(the the|and and|is is)\b/.test(s)]; [prev_word] tells whether the
    character before [s] is a word character. *)
Fixpoint test_doubled_word (prev_word : bool) (s : string) : bool :=
  (negb prev_word &&
   existsb (fun pat => String.prefix pat s &&
                       negb (JsString.char_at JsString.is_word (String.length pat) s))
     ["the the"; "and and"; "is is"]) ||
  match s with
  | EmptyString => false
  | String c s' => test_doubled_word (JsString.is_word c) s'
  end.

Definition sentence_end (c : ascii) : bool :=
  JsString.char_is 46 c || JsString.char_is 33 c || JsString.char_is 63 c.

Definition measureCoherence (response : string) : Q :=
  if negb (JsString.truthy response) then 0%Q
  else
    let score := (5 # 10)%Q in
    let sentences :=
      filter (fun s => (0 <? String.length (JsString.trim s))%nat)
        (JsString.split_on sentence_end response) in
    let score := add_if (2 <=? List.length sentences)%nat (2 # 10) score in
    let words := JsString.split_on JsString.is_space (JsString.toLowerCase response) in
    let uniqueWords := JsString.unique words in
    let repetitionRatio :=
      (inject_Z (Z.of_nat (List.length uniqueWords)) /
       inject_Z (Z.of_nat (List.length words)))%Q in
    let score := add_if (Qlt_bool (7 # 10) repetitionRatio) (2 # 10) score in
    let score := add_if (negb (test_doubled_word false response)) (1 # 10) score in
    Qmin 1 score.

(** [s.match(/\b\w{4,}\b/g) || []]: the maximal runs of word characters of
    length at least four. *)
Definition key_terms (s : string) : list string :=
  filter (fun w => (4 <=? String.length w)%nat)
    (JsString.split_on (fun c => negb (JsString.is_word c)) s).

Definition measureRelevance (response prompt : string) : Q :=
  if negb (JsString.truthy response) || negb (JsString.truthy prompt) then 0%Q
  else
    let promptLower := JsString.toLowerCase prompt in
    let responseLower := JsString.toLowerCase response in
    let score := (3 # 10)%Q in
    let keyTerms := key_terms promptLower in
    let uniqueTerms := JsString.unique keyTerms in
    let matchedTerms := filter (fun term => JsString.includes responseLower term)
                          uniqueTerms in
    let relevanceRatio :=
      (inject_Z (Z.of_nat (List.length matchedTerms)) /
       inject_Z (Z.of_nat (Nat.max (List.length uniqueTerms) 1)))%Q in
    let score := (score + relevanceRatio * (4 # 10))%Q in
    let score :=
      add_if (JsString.includes promptLower "?" &&
              (20 <? String.length responseLower)%nat) (2 # 10) score in
    let score :=
      add_if (negb (JsString.includes responseLower "i cannot") &&
              negb (JsString.includes responseLower "i'm sorry")) (1 # 10) score in
    Qmin 1 score.

(** [/\d{4}|\d+%|\$\d+|\d+\.\d+/.test(s)] *)
Fixpoint test_figures (s : string) : bool :=
  (JsString.char_at JsString.is_digit 0 s && JsString.char_at JsString.is_digit 1 s &&
   JsString.char_at JsString.is_digit 2 s && JsString.char_at JsString.is_digit 3 s) ||
  (JsString.char_at JsString.is_digit 0 s && JsString.char_at (JsString.char_is 37) 1 s) ||
  (JsString.char_at (JsString.char_is 36) 0 s && JsString.char_at JsString.is_digit 1 s) ||
  (JsString.char_at JsString.is_digit 0 s && JsString.char_at (JsString.char_is 46) 1 s &&
   JsString.char_at JsString.is_digit 2 s) ||
  match s with
  | EmptyString => false
  | String _ s' => test_figures s'
  end.

(** The number of regular expressions of the list, each a literal phrase
    with the flag [i], that match [s]. *)
Definition count_phrases (phrases : list string) (s : string) : Z :=
  Z.of_nat (List.length
    (filter (fun phrase => JsString.includes (JsString.toLowerCase s) phrase) phrases)).

Definition measureAccuracy (response : string) : Q :=
  if negb (JsString.truthy response) then 0%Q
  else
    let lower := JsString.toLowerCase response in
    let score := (6 # 10)%Q in
    let uncertaintyCount :=
      count_phrases ["i'm not sure"; "i don't know"; "might be wrong"; "uncertain";
                     "i think"; "i believe"; "probably"; "maybe"; "perhaps"] response in
    let score := (score - inject_Z uncertaintyCount * (1 # 10))%Q in
    let confidenceCount :=
      count_phrases ["definitely"; "certainly"; "clearly"; "obviously"; "without a doubt";
                     "absolutely"; "precisely"] response in
    let score := (score + inject_Z confidenceCount * (5 # 100))%Q in
    let score :=
      add_if (JsString.test_any ["according to"; "research shows"; "studies indicate";
                                 "data shows"; "evidence suggests"] lower)
        (15 # 100) score in
    let score := add_if (test_figures response) (1 # 10) score in
    let score :=
      add_if (JsString.test_any ["typically"; "generally"; "often"; "usually";
                                 "in most cases"; "commonly"] lower) (8 # 100) score in
    let score :=
      add_if (negb (JsString.test_any ["always"; "never"; "all"; "every"; "none"] lower))
        (5 # 100) score in
    let score := add_if (200 <? String.length response)%nat (5 # 100) score in
    let score := add_if (500 <? String.length response)%nat (5 # 100) score in
    Qmin 1 (Qmax 0 score).

Definition analyzeResponse (response originalPrompt : string) : Analysis :=
  let completeness := measureCompleteness response originalPrompt in
  let coherence := measureCoherence response in
  let relevance := measureRelevance response originalPrompt in
  let accuracy := measureAccuracy response in
  let qualityScore := ((completeness + coherence + relevance + accuracy) / 4)%Q in
  mkAnalysis qualityScore (mkMetrics completeness coherence relevance accuracy).

Definition estimateComplexity (messages : list Message) : Q :=
  let text := lowered_text messages in
  let complexity := (2 # 10)%Q in
  let complexity :=
    if (1000 <? String.length text)%nat then (complexity + (3 # 10))%Q else complexity in
  let complexity :=
    if JsString.test_any ["complex"; "advanced"; "detailed"; "comprehensive"] text
    then (complexity + (4 # 10))%Q else complexity in
  let complexity :=
    if JsString.test_any ["analyze"; "evaluate"; "compare"; "critique"] text
    then (complexity + (3 # 10))%Q else complexity in
  let complexity :=
    if JsString.test_any ["simple"; "basic"; "quick"; "easy"] text
    then (complexity - (3 # 10))%Q else complexity in
  Qmax 0 (Qmin 1 complexity).

Definition detectTaskType (messages : list Message) : list string :=
  let text := lowered_text messages in
  (if JsString.test_any ["simple"; "basic"; "quick"; "easy"; "straightforward"] text
   then ["simple"] else []) ++
  (if JsString.test_any ["code"; "programming"; "function"] text then ["coding"] else []) ++
  (if JsString.test_any ["write"; "creative"; "story"] text then ["writing"] else []).

Definition critical_keywords : list string :=
  ["critical"; "important"; "medical"; "legal"; "financial"; "safety"; "production";
   "accurate"; "precise"].

Definition isCritical (messages : list Message) : bool :=
  JsString.test_any critical_keywords (lowered_text messages).

Definition getOptimalSimpleModel (requestedModel : string) (taskTypes : list string)
  : string :=
  if array_includes taskTypes "coding" then "claude-3-haiku"
  else if array_includes taskTypes "writing" then "gpt-3.5-turbo"
  else if array_includes taskTypes "math" then "gpt-3.5-turbo"
  else "gpt-3.5-turbo".

Definition getOptimalMediumModel (requestedModel : string) (taskTypes : list string)
  : string :=
  if array_includes taskTypes "coding" && JsString.includes requestedModel "gpt-4"
  then "claude-3.5-sonnet"
  else if array_includes taskTypes "writing" && JsString.includes requestedModel "gpt-4"
  then "claude-3.5-sonnet"
  else if array_includes taskTypes "analysis" && (requestedModel =? "gpt-4")
  then "gpt-4o"
  else if JsString.includes requestedModel "claude-3-opus"
  then "claude-3.5-sonnet"
  else requestedModel.

(** The third parameter of the source, [qualityThreshold], is never read by
    the body and is left out. *)
Definition shouldRoute (requestedModel : string) (messages : list Message)
  : RoutingDecision :=
  let complexity := estimateComplexity messages in
  let taskType := detectTaskType messages in
  let critical := isCritical messages in
  if Qlt_bool (8 # 10) complexity || critical then
    mkDecision false requestedModel (9 # 10)
      (if critical then "Critical task requires premium model"
       else "High complexity task requires premium model")
  else if Qlt_bool complexity (3 # 10) then
    let targetModel := getOptimalSimpleModel requestedModel taskType in
    mkDecision true targetModel (85 # 100) ("Simple task suitable for " ++ targetModel)
  else if Qlt_bool complexity (6 # 10) then
    let targetModel := getOptimalMediumModel requestedModel taskType in
    mkDecision (negb (targetModel =? requestedModel)) targetModel (8 # 10)
      (if negb (targetModel =? requestedModel)
       then "Medium complexity task can use " ++ targetModel
       else "No suitable alternative found")
  else
    mkDecision false requestedModel (7 # 10) "Complex task requires original model".

End QualityDetector.

(** ** The complexity estimate in double precision

    [QualityDetector.estimateComplexity] as the runtime computes it, on
    binary64 numbers, as a function of the four tests it makes on the text.
    Only used to check that rounding never moves the estimate across one of
    the thresholds of [shouldRoute]. *)

Module Double.

Definition estimateComplexity (long complex_words analyze_words simple_words : bool)
  : float :=
  let complexity := 0x1.999999999999ap-3%float in
  let complexity :=
    if long then (complexity + 0x1.3333333333333p-2)%float else complexity in
  let complexity :=
    if complex_words then (complexity + 0x1.999999999999ap-2)%float else complexity in
  let complexity :=
    if analyze_words then (complexity + 0x1.3333333333333p-2)%float else complexity in
  let complexity :=
    if simple_words then (complexity - 0x1.3333333333333p-2)%float else complexity in
  let capped := if (1 <? complexity)%float then 1%float else complexity in
  if (capped <? 0)%float then 0%float else capped.

(** The same function on exact rationals. *)
Definition estimateComplexity_exact (long complex_words analyze_words simple_words : bool)
  : Q :=
  let complexity := (2 # 10)%Q in
  let complexity := if long then (complexity + (3 # 10))%Q else complexity in
  let complexity := if complex_words then (complexity + (4 # 10))%Q else complexity in
  let complexity := if analyze_words then (complexity + (3 # 10))%Q else complexity in
  let complexity := if simple_words then (complexity - (3 # 10))%Q else complexity in
  Qmax 0 (Qmin 1 complexity).

(** *** Numbers

    An integer as a number (exact below 2^53, and never larger here), and
    the number that a decimal literal [n/d] denotes: the quotient of two
    exactly represented integers, rounded once. *)

Definition of_Z (z : Z) : float :=
  if (z <? 0)%Z then (- PrimFloat.of_uint63 (Uint63.of_Z (- z)))%float
  else PrimFloat.of_uint63 (Uint63.of_Z z).

Definition of_nat (n : nat) : float := of_Z (Z.of_nat n).

Definition of_Q (q : Q) : float := (of_Z (Qnum q) / of_Z (Zpos (Qden q)))%float.

(** A number is falsy when it is 0, -0 or NaN. *)
Definition truthy (x : float) : bool := negb (PrimFloat.is_zero x || PrimFloat.is_nan x).

(** [Math.ceil(x)] of a finite number, as an integer. *)
Definition ceil (x : float) : Z :=
  match Prim2SF x with
  | S754_finite s m e =>
      let n := if s then Z.neg m else Z.pos m in
      if (0 <=? e)%Z then (n * 2 ^ e)%Z else (- ((- n) / 2 ^ (- e)))%Z
  | _ => 0%Z
  end.

(** [Math.min(1, x)] and [Math.max(0, x)] of a number that is not NaN. *)
Definition min_1 (x : float) : float := if (x <? 1)%float then x else 1%float.
Definition max_0 (x : float) : float := if (0 <? x)%float then x else 0%float.

(** *** The response scorer in double precision

    [QualityDetector.analyzeResponse] as the runtime computes it: the same
    tests on the same strings, every sum, product and quotient rounded to
    binary64. The constants are 0.3, 0.2, 0.1, 0.5, 0.4, 0.6, 0.05, 0.15,
    0.08 and 0.7 rounded to binary64. *)

Definition add_if (b : bool) (d : float) (score : float) : float :=
  if b then (score + d)%float else score.

Definition measureCompleteness (response prompt : string) : float :=
  if negb (JsString.truthy response) || (String.length response <? 10)%nat then 0%float
  else
    let score := 0x1.3333333333333p-2%float in
    let promptLength := String.length prompt in
    let responseLength := String.length response in
    let lengthRatio := (of_nat responseLength / of_nat (Nat.max promptLength 1))%float in
    let score :=
      add_if ((0.5 <? lengthRatio)%float && (lengthRatio <? 3)%float)
        0x1.3333333333333p-2 score in
    let score := add_if (100 <? responseLength)%nat 0x1.999999999999ap-3 score in
    let score := add_if (500 <? responseLength)%nat 0x1.999999999999ap-4 score in
    let score :=
      if JsString.includes prompt "?" then
        let hasQuestionWords :=
          JsString.test_any ["what"; "how"; "why"; "when"; "where"; "which"; "who"]
            (JsString.toLowerCase prompt) in
        add_if (hasQuestionWords && (50 <? responseLength)%nat) 0x1.999999999999ap-3 score
      else score in
    let score :=
      add_if (match JsString.last_char (JsString.trim response) with
              | Some c => JsString.char_is 46 c || JsString.char_is 33 c ||
                          JsString.char_is 63 c
              | None => false
              end) 0x1.999999999999ap-4 score in
    let score :=
      add_if (negb (JsString.endsWith response "...") &&
              negb (JsString.includes response "[incomplete]") &&
              negb (JsString.includes response "[truncated]")) 0x1.999999999999ap-4 score in
    min_1 score.

Definition measureCoherence (response : string) : float :=
  if negb (JsString.truthy response) then 0%float
  else
    let score := 0.5%float in
    let sentences :=
      filter (fun s => (0 <? String.length (JsString.trim s))%nat)
        (JsString.split_on QualityDetector.sentence_end response) in
    let score := add_if (2 <=? List.length sentences)%nat 0x1.999999999999ap-3 score in
    let words := JsString.split_on JsString.is_space (JsString.toLowerCase response) in
    let uniqueWords := JsString.unique words in
    let repetitionRatio :=
      (of_nat (List.length uniqueWords) / of_nat (List.length words))%float in
    let score :=
      add_if (0x1.6666666666666p-1 <? repetitionRatio)%float 0x1.999999999999ap-3 score in
    let score :=
      add_if (negb (QualityDetector.test_doubled_word false response))
        0x1.999999999999ap-4 score in
    min_1 score.

Definition measureRelevance (response prompt : string) : float :=
  if negb (JsString.truthy response) || negb (JsString.truthy prompt) then 0%float
  else
    let promptLower := JsString.toLowerCase prompt in
    let responseLower := JsString.toLowerCase response in
    let score := 0x1.3333333333333p-2%float in
    let keyTerms := QualityDetector.key_terms promptLower in
    let uniqueTerms := JsString.unique keyTerms in
    let matchedTerms := filter (fun term => JsString.includes responseLower term)
                          uniqueTerms in
    let relevanceRatio :=
      (of_nat (List.length matchedTerms) /
       of_nat (Nat.max (List.length uniqueTerms) 1))%float in
    let score := (score + relevanceRatio * 0x1.999999999999ap-2)%float in
    let score :=
      add_if (JsString.includes promptLower "?" &&
              (20 <? String.length responseLower)%nat) 0x1.999999999999ap-3 score in
    let score :=
      add_if (negb (JsString.includes responseLower "i cannot") &&
              negb (JsString.includes responseLower "i'm sorry"))
        0x1.999999999999ap-4 score in
    min_1 score.

Definition measureAccuracy (response : string) : float :=
  if negb (JsString.truthy response) then 0%float
  else
    let lower := JsString.toLowerCase response in
    let score := 0x1.3333333333333p-1%float in
    let uncertaintyCount :=
      QualityDetector.count_phrases
        ["i'm not sure"; "i don't know"; "might be wrong"; "uncertain";
         "i think"; "i believe"; "probably"; "maybe"; "perhaps"] response in
    let score := (score - of_Z uncertaintyCount * 0x1.999999999999ap-4)%float in
    let confidenceCount :=
      QualityDetector.count_phrases
        ["definitely"; "certainly"; "clearly"; "obviously"; "without a doubt";
         "absolutely"; "precisely"] response in
    let score := (score + of_Z confidenceCount * 0x1.999999999999ap-5)%float in
    let score :=
      add_if (JsString.test_any ["according to"; "research shows"; "studies indicate";
                                 "data shows"; "evidence suggests"] lower)
        0x1.3333333333333p-3 score in
    let score := add_if (QualityDetector.test_figures response) 0x1.999999999999ap-4 score in
    let score :=
      add_if (JsString.test_any ["typically"; "generally"; "often"; "usually";
                                 "in most cases"; "commonly"] lower)
        0x1.47ae147ae147bp-4 score in
    let score :=
      add_if (negb (JsString.test_any ["always"; "never"; "all"; "every"; "none"] lower))
        0x1.999999999999ap-5 score in
    let score := add_if (200 <? String.length response)%nat 0x1.999999999999ap-5 score in
    let score := add_if (500 <? String.length response)%nat 0x1.999999999999ap-5 score in
    min_1 (max_0 score).

(** [analyzeResponse(response, originalPrompt).qualityScore] *)
Definition qualityScore (response originalPrompt : string) : float :=
  let completeness := measureCompleteness response originalPrompt in
  let coherence := measureCoherence response in
  let relevance := measureRelevance response originalPrompt in
  let accuracy := measureAccuracy response in
  ((completeness + coherence + relevance + accuracy) / 4)%float.

End Double.

(** ** JSON.stringify *)

Module Json.

Definition quote_char : ascii := ascii_of_nat 34.
Definition backslash : ascii := ascii_of_nat 92.

Definition hex_digit (n : nat) : ascii :=
  nth n (list_ascii_of_string "0123456789abcdef") "0"%char.

Definition escape_char (c : ascii) : string :=
  let n := nat_of_ascii c in
  if (n =? 8)%nat then String backslash "b"
  else if (n =? 9)%nat then String backslash "t"
  else if (n =? 10)%nat then String backslash "n"
  else if (n =? 12)%nat then String backslash "f"
  else if (n =? 13)%nat then String backslash "r"
  else if (n <? 32)%nat then
    String backslash ("u00" ++ String (hex_digit (n / 16)) (String (hex_digit (n mod 16)) ""))
  else if (n =? 34)%nat then String backslash (String quote_char "")
  else if (n =? 92)%nat then String backslash (String backslash "")
  else String c "".

Fixpoint escape (s : string) : string :=
  match s with
  | EmptyString => EmptyString
  | String c s' => escape_char c ++ escape s'
  end.

(** [JSON.stringify(s)] for a string [s] *)
Definition of_string (s : string) : string :=
  String quote_char (escape s ++ String quote_char "").

(** One member of an object: ["key":value] *)
Definition member (key value : string) : string :=
  of_string key ++ ":" ++ value.

Definition object (members : list string) : string :=
  "{" ++ JsString.join "," members ++ "}".

Definition array (items : list string) : string :=
  "[" ++ JsString.join "," items ++ "]".

(** A message object, its properties in the order [role], [content]. *)
Definition of_message (m : Message) : string :=
  object [member "role" (of_string (role m)); member "content" (of_string (content m))].

(** [JSON.stringify(messages)] *)
Definition of_messages (messages : list Message) : string :=
  array (map of_message messages).

End Json.

(** ** Values thrown and returned *)

(** What a [throw] or a rejected promise carries. *)
Inductive JsError :=
| JsUndefined
    (* [throw lastError] while [lastError] was never assigned *)
| JsErrorObject (status : option Z) (message : option string)
    (* an error object, e.g. [{status: 400}] or [new Error(message)] *)
| CostLimitExceeded (estimatedCost limit : float).
    (* [new Error(`Estimated cost $... exceeds limit $...`)] *)

Inductive Result (A : Type) :=
| Ok (a : A)
| Throw (e : JsError).

Arguments Ok {A} a.
Arguments Throw {A} e.

(** [error?.status] *)
Definition error_status (e : JsError) : option Z :=
  match e with
  | JsErrorObject status _ => status
  | _ => None
  end.

(** [error.message]; reading it off [undefined] is a TypeError. *)
Definition error_message (e : JsError) : Result (option string) :=
  match e with
  | JsUndefined =>
      Throw (JsErrorObject None
               (Some "Cannot read properties of undefined (reading 'message')"))
  | JsErrorObject _ message => Ok message
  | CostLimitExceeded _ _ => Ok (Some "Estimated cost exceeds limit")
  end.

(** ** The CostLens class (index.ts) *)

Module CostLens.

Record Params := mkParams {
  model : string;
  messages : list Message;
  temperature : option Q;
  max_tokens : option Z
}.

Definition set_model (p : Params) (m : string) : Params :=
  mkParams m (messages p) (temperature p) (max_tokens p).

Definition set_messages (p : Params) (ms : list Message) : Params :=
  mkParams (model p) ms (temperature p) (max_tokens p).

(** A provider response, reduced to what the wrappers read:
    [choices[0]?.message?.content || ''] (for Anthropic the text of
    [content[0]]) and the three usage counters, each [|| 0]. *)
Record Response := mkResponse {
  response_text : string;
  prompt_tokens : Z;
  completion_tokens : Z;
  total_tokens : Z
}.

Record WrapperOptions := mkOptions {
  promptId : option string;
  cacheTTL : option Z;
  fallbackModels : option (list string);
  maxCost : option float;
  userId : option string;
  requestId : option string;
  correlationId : option string
}.

Definition noOptions : WrapperOptions :=
  mkOptions None None None None None None None.

Record TrackRunData := mkTrackRunData {
  track_provider : string;
  track_promptId : option string;
  track_model : string;
  track_requestedModel : option string;
  track_input : string;
  track_output : string;
  track_tokensUsed : Z;
  track_inputTokens : option Z;
  track_outputTokens : option Z;
  track_latency : Z;
  track_success : bool;
  track_savings : option Q;
  track_error : option string;
  track_requestId : option string;
  track_correlationId : option string
}.

Record ErrorContext := mkErrorContext {
  ctx_provider : string;
  ctx_model : string;
  ctx_input : string;
  ctx_latency : Z;
  ctx_attempt : nat;
  ctx_maxRetries : nat;
  ctx_userId : option string;
  ctx_promptId : option string;
  ctx_originalModel : string;
  ctx_fallbackChain : list string
}.

(** A middleware object; a hook that throws is a hook whose result is
    [Throw]. Hooks are caller supplied functions; their calls are not
    recorded in the state. *)
Record Middleware := mkMiddleware {
  before : option (Params -> Result Params);
  after : option (Response -> Result Response);
  onError : option (JsError -> ErrorContext -> Result unit)
}.

(** What [routingPolicy] does when called. *)
Inductive PolicyResult :=
| PolicyReturns (routed : option string)
| PolicyThrows.

(** The configuration after the constructor has filled in its defaults. *)
Record CostLensConfig := mkConfig {
  apiKey : string;
  enableCache : bool;
  maxRetries : nat;
  middleware : list Middleware;
  autoFallback : bool;
  smartRouting : bool;
  autoOptimize : bool;
  costLimit : option float;
  routingPolicy : option (string -> list Message -> PolicyResult);
  qualityValidator : option (string -> string -> Result float)
}.

(** [new CostLens({ apiKey })] *)
Definition defaultConfig (key : string) : CostLensConfig :=
  mkConfig key true 3 [] true true false None None None.

Record CacheEntry := mkEntry {
  result : Response;
  timestamp : Z;
  ttl : Z;
  lastAccessed : Z
}.

(** *** Model router *)

Inductive Complexity := simple | medium | complex.

Definition complexity_eqb (a b : Complexity) : bool :=
  match a, b with
  | simple, simple | medium, medium | complex, complex => true
  | _, _ => false
  end.

Definition estimateComplexity (messages : list Message) : Complexity :=
  let totalLength :=
    fold_left (fun sum m => (sum + String.length (content m))%nat) messages 0%nat in
  let hasSystemPrompt := existsb (fun m => role m =? "system") messages in
  let messageCount := List.length messages in
  if (totalLength <? 100)%nat && negb hasSystemPrompt && (messageCount <=? 2)%nat
  then simple
  else if (totalLength <? 500)%nat && (messageCount <=? 5)%nat then medium
  else complex.

Definition detectTaskType (messages : list Message) : list string :=
  let text := lowered_text messages in
  (if JsString.test_any ["code"; "programming"; "function"; "debug"; "algorithm"] text
   then ["coding"] else []) ++
  (if JsString.test_any ["write"; "creative"; "story"; "article"; "content"] text
   then ["writing"] else []) ++
  (if JsString.test_any ["analyze"; "research"; "evaluate"; "compare"] text
   then ["analysis"] else []) ++
  (if JsString.test_any ["translate"; "language"] text then ["translation"] else []) ++
  (if JsString.test_any ["math"; "calculate"; "solve"; "equation"] text
   then ["math"] else []) ++
  (if JsString.test_any ["simple"; "basic"; "quick"; "easy"] text then ["simple"] else []).

(** The provider specific rules of [selectOptimalModel]; [None] when no
    rule returns. *)
Definition provider_rules (requestedModel : string) (complexity : Complexity)
    (taskType : list string) : option string :=
  let openai :=
    if JsString.includes requestedModel "gpt" then
      if complexity_eqb complexity simple && JsString.includes requestedModel "gpt-4"
      then Some "gpt-3.5-turbo"
      else if complexity_eqb complexity medium && (requestedModel =? "gpt-4")
      then Some "gpt-4o"
      else if array_includes taskType "coding" && JsString.includes requestedModel "gpt-4"
      then Some "claude-3.5-sonnet"
      else None
    else None in
  match openai with
  | Some m => Some m
  | None =>
      if JsString.includes requestedModel "claude" then
        if complexity_eqb complexity simple &&
           JsString.includes requestedModel "claude-3-opus"
        then Some "claude-3-haiku"
        else if complexity_eqb complexity medium &&
                JsString.includes requestedModel "claude-3-opus"
        then Some "claude-3.5-sonnet"
        else if complexity_eqb complexity simple &&
                JsString.includes requestedModel "claude-3-sonnet"
        then Some "claude-3-haiku"
        else None
      else None
  end.

Definition selectOptimalModel (cfg : CostLensConfig) (requestedModel : string)
    (messages : list Message) : string :=
  if negb (smartRouting cfg) then requestedModel
  else
    let routed :=
      match routingPolicy cfg with
      | Some policy =>
          match policy requestedModel messages with
          | PolicyReturns (Some r) => if JsString.truthy r then Some r else None
          | PolicyReturns None => None
          | PolicyThrows => None
          end
      | None => None
      end in
    match routed with
    | Some r => r
    | None =>
        if JsString.includes requestedModel "vision" then requestedModel
        else
          let complexity := estimateComplexity messages in
          let taskType := detectTaskType messages in
          match provider_rules requestedModel complexity taskType with
          | Some m => m
          | None =>
              let routingDecision := QualityDetector.shouldRoute requestedModel messages in
              if QualityDetector.decision_shouldRoute routingDecision &&
                 Qlt_bool (8 # 10) (QualityDetector.decision_confidence routingDecision)
              then QualityDetector.decision_targetModel routingDecision
              else requestedModel
          end
    end.

(** The first value of a table, in declaration order, whose key is a
    substring of [model]: [for (const [key, value] of Object.entries(table))
    if (model.includes(key)) return value]. *)
Fixpoint first_match {V : Type} (table : list (string * V)) (model : string) : option V :=
  match table with
  | [] => None
  | (key, value) :: rest =>
      if JsString.includes model key then Some value else first_match rest model
  end.

Definition fallbacks_table : list (string * list string) :=
  [ ("gpt-4o", ["gpt-4-turbo"; "claude-3.5-sonnet"; "gpt-3.5-turbo"]);
    ("claude-3.5-sonnet", ["gpt-4o"; "claude-3-sonnet"; "gpt-3.5-turbo"]);
    ("gemini-1.5-flash", ["gemini-1.5-pro"; "gpt-3.5-turbo"; "claude-3-haiku"]);
    ("gpt-4", ["gpt-4o"; "gpt-4-turbo"; "gpt-3.5-turbo"]);
    ("gpt-4-turbo", ["gpt-4o"; "gpt-4"; "gpt-3.5-turbo"]);
    ("gpt-3.5-turbo", ["gpt-4o"; "gemini-1.5-flash"; "claude-3-haiku"]);
    ("claude-3-opus", ["claude-3.5-sonnet"; "claude-3-sonnet"; "gpt-4o"]);
    ("claude-3-sonnet", ["claude-3.5-sonnet"; "claude-3-haiku"; "gpt-3.5-turbo"]);
    ("claude-3-haiku", ["gpt-3.5-turbo"; "gemini-1.5-flash"; "claude-3-sonnet"]);
    ("gemini-1.5-pro", ["gemini-1.5-flash"; "gpt-4o"; "gpt-3.5-turbo"]);
    ("deepseek-v3",
     ["deepseek-chat"; "deepseek-reasoner"; "gemini-1.5-flash"; "gpt-3.5-turbo"]);
    ("deepseek-r1",
     ["deepseek-chat"; "deepseek-reasoner"; "gemini-1.5-flash"; "gpt-3.5-turbo"]);
    ("deepseek-chat",
     ["deepseek-reasoner"; "deepseek-v3"; "gemini-1.5-flash"; "gpt-3.5-turbo"]);
    ("deepseek-reasoner",
     ["deepseek-chat"; "deepseek-v3"; "gemini-1.5-flash"; "gpt-3.5-turbo"]) ].

Definition getDefaultFallbacks (model : string) : list string :=
  match first_match fallbacks_table model with
  | Some chain => chain
  | None => []
  end.

(** *** Cost estimator *)

Record Pricing := mkPricing { input : Q; output : Q }.

Definition pricing_table : list (string * Pricing) :=
  [ ("gpt-4o", mkPricing (25 # 10) 10);
    ("gpt-4", mkPricing 30 60);
    ("gpt-4-turbo", mkPricing 10 30);
    ("gpt-3.5-turbo", mkPricing (5 # 10) (15 # 10));
    ("claude-3.5-sonnet", mkPricing 3 3);
    ("claude-3-opus", mkPricing 15 75);
    ("claude-3-sonnet", mkPricing 3 15);
    ("claude-3-haiku", mkPricing (25 # 100) (125 # 100));
    ("gemini-1.5-flash", mkPricing 1 1);
    ("gemini-1.5-pro", mkPricing (125 # 100) 5);
    ("deepseek-v3", mkPricing (28 # 100) (42 # 100));
    ("deepseek-r1", mkPricing (28 # 100) (42 # 100));
    ("deepseek-chat", mkPricing (28 # 100) (42 # 100));
    ("deepseek-reasoner", mkPricing (28 # 100) (42 # 100)) ].

Definition getModelPricing (model : string) : Pricing :=
  match first_match pricing_table model with
  | Some value => value
  | None => mkPricing 1 1
  end.

Inductive TokenType := input_tokens | output_tokens.

Definition estimateTokens (messages : list Message) (type : TokenType) : Z :=
  let content := JsString.join " " (message_contents messages) in
  let tokens := 0%Z in
  let tokens := (tokens + Qceiling (inject_Z (Z.of_nat (String.length content)) / 4))%Z in
  let tokens := (tokens + Z.of_nat (List.length messages) * 4)%Z in
  let tokens :=
    match type with
    | output_tokens => Qceiling (inject_Z tokens * (3 # 10))
    | input_tokens => tokens
    end in
  Z.max tokens 1.

Definition estimateCost (model : string) (messages : list Message) : Q :=
  let inputTokens := estimateTokens messages input_tokens in
  let outputTokens := estimateTokens messages output_tokens in
  let pricing := getModelPricing model in
  let inputCost := ((inject_Z inputTokens / 1000000) * input pricing)%Q in
  let outputCost := ((inject_Z outputTokens / 1000000) * output pricing)%Q in
  (inputCost + outputCost)%Q.

(** The estimate as the runtime computes it, on binary64 numbers: the
    value that [create] compares with the cost limit. The token counts are
    integers; the quotients by 4 and by 1000000, the products by 0.3 and by
    the prices and the final sum are rounded. *)

Module Binary64.

Definition estimateTokens (messages : list Message) (type : TokenType) : Z :=
  let content := JsString.join " " (message_contents messages) in
  let tokens := 0%Z in
  let tokens := (tokens + Double.ceil (Double.of_nat (String.length content) / 4))%Z in
  let tokens := (tokens + Z.of_nat (List.length messages) * 4)%Z in
  let tokens :=
    match type with
    | output_tokens => Double.ceil (Double.of_Z tokens * 0x1.3333333333333p-2)
    | input_tokens => tokens
    end in
  Z.max tokens 1.

Definition estimateCost (model : string) (messages : list Message) : float :=
  let inputTokens := estimateTokens messages input_tokens in
  let outputTokens := estimateTokens messages output_tokens in
  let pricing := getModelPricing model in
  let inputCost :=
    ((Double.of_Z inputTokens / 1000000) * Double.of_Q (input pricing))%float in
  let outputCost :=
    ((Double.of_Z outputTokens / 1000000) * Double.of_Q (output pricing))%float in
  (inputCost + outputCost)%float.

End Binary64.

Record Savings := mkSavings {
  currentCost : Q;
  optimizedCost : Q;
  savings : Q;
  savingsPercentage : Q;
  recommendedModel : string
}.

Definition calculateSavings (cfg : CostLensConfig) (requestedModel : string)
    (messages : list Message) : Savings :=
  let currentCost := estimateCost requestedModel messages in
  let recommendedModel := selectOptimalModel cfg requestedModel messages in
  let optimizedCost := estimateCost recommendedModel messages in
  let savings := (currentCost - optimizedCost)%Q in
  let savingsPercentage :=
    if Qlt_bool 0 currentCost then ((savings / currentCost) * 100)%Q else 0%Q in
  mkSavings currentCost optimizedCost savings savingsPercentage recommendedModel.

(** *** Collaborators and state *)

(** The requests the class sends with [fetch], by endpoint. *)
Inductive FetchReq :=
| ReqRoutingCheck
    (* GET /api/quality/routing *)
| ReqCacheGet (provider model : string) (messages : list Message)
    (* POST /api/cache/get *)
| ReqCacheSet (provider model : string) (messages : list Message) (response : Response)
              (tokens : Z) (cost : Q) (ttl : Z)
    (* POST /api/cache/set *)
| ReqOptimize (prompt : string)
    (* POST /api/prompts/optimize *)
| ReqTrackRun (data : TrackRunData).
    (* POST /integrations/run, the tracking sink *)

(** How a [fetch] ends: a response with [ok] set and its decoded body, a
    response with [ok] unset and its status, or a rejection (network
    failure, abort after the timeout, undecodable body). *)
Inductive FetchOutcome (A : Type) :=
| FetchOk (body : A)
| FetchNotOk (status : Z)
| FetchError (e : JsError).

Arguments FetchOk {A} body.
Arguments FetchNotOk {A} status.
Arguments FetchError {A} e.

(** The two generations of index.ts under src/. They differ, in the
    methods embedded here, only in [trackRun]: the second returns at once
    when no API key is configured. *)
Inductive Generation := FirstGeneration | SecondGeneration.

(** The mutable fields of a [CostLens] instance, and the record of what
    it has asked of its collaborators so far. *)
Record World := mkWorld {
  cache : list (string * CacheEntry);
    (* [Map<string, CacheEntry>], in insertion order *)
  optimizationCache : list (string * string);
  apiFailureCount : Z;
  lastApiFailure : Z;
  routingDisabledLogged : bool;
  clockReads : nat;
    (* how many times [Date.now()] was read *)
  providerLog : list Params;
    (* the calls made to the provider client, oldest first *)
  fetchLog : list FetchReq;
    (* the requests sent with [fetch], oldest first *)
  sleeps : list Z
    (* the delays awaited with [setTimeout], in milliseconds, oldest first *)
}.

(** A fresh instance. *)
Definition initialWorld : World :=
  mkWorld [] [] 0 0 false 0 [] [] [].

(** The collaborators. Each answer may depend on everything asked
    before. *)
Record Collaborators := mkCollaborators {
  provider_create : list Params -> Params -> Result Response;
  fetch_routing : list FetchReq -> FetchOutcome bool;
  fetch_cache_get : list FetchReq -> string -> list Message -> FetchOutcome (option Response);
  fetch_cache_set : list FetchReq -> FetchOutcome unit;
  fetch_optimize : list FetchReq -> string -> FetchOutcome string;
  fetch_track : list FetchReq -> TrackRunData -> FetchOutcome unit;
  Date_now : nat -> Z;
  Number_toString : Q -> string;
  runsOnNode : bool
}.

Definition with_cache (w : World) (c : list (string * CacheEntry)) : World :=
  mkWorld c (optimizationCache w) (apiFailureCount w) (lastApiFailure w)
    (routingDisabledLogged w) (clockReads w) (providerLog w) (fetchLog w) (sleeps w).

Definition with_optimizationCache (w : World) (c : list (string * string)) : World :=
  mkWorld (cache w) c (apiFailureCount w) (lastApiFailure w)
    (routingDisabledLogged w) (clockReads w) (providerLog w) (fetchLog w) (sleeps w).

Definition with_failures (w : World) (count last : Z) : World :=
  mkWorld (cache w) (optimizationCache w) count last
    (routingDisabledLogged w) (clockReads w) (providerLog w) (fetchLog w) (sleeps w).

Definition with_routingDisabledLogged (w : World) (b : bool) : World :=
  mkWorld (cache w) (optimizationCache w) (apiFailureCount w) (lastApiFailure w)
    b (clockReads w) (providerLog w) (fetchLog w) (sleeps w).

Definition with_clockReads (w : World) (n : nat) : World :=
  mkWorld (cache w) (optimizationCache w) (apiFailureCount w) (lastApiFailure w)
    (routingDisabledLogged w) n (providerLog w) (fetchLog w) (sleeps w).

Definition with_providerLog (w : World) (l : list Params) : World :=
  mkWorld (cache w) (optimizationCache w) (apiFailureCount w) (lastApiFailure w)
    (routingDisabledLogged w) (clockReads w) l (fetchLog w) (sleeps w).

Definition with_fetchLog (w : World) (l : list FetchReq) : World :=
  mkWorld (cache w) (optimizationCache w) (apiFailureCount w) (lastApiFailure w)
    (routingDisabledLogged w) (clockReads w) (providerLog w) l (sleeps w).

Definition with_sleeps (w : World) (l : list Z) : World :=
  mkWorld (cache w) (optimizationCache w) (apiFailureCount w) (lastApiFailure w)
    (routingDisabledLogged w) (clockReads w) (providerLog w) (fetchLog w) l.

(** *** Computations: state passing with exceptions *)

Definition M (A : Type) : Type := World -> Result A * World.

Definition ret {A : Type} (a : A) : M A := fun w => (Ok a, w).

Definition throw {A : Type} (e : JsError) : M A := fun w => (Throw e, w).

Definition bind {A B : Type} (m : M A) (k : A -> M B) : M B :=
  fun w =>
    match m w with
    | (Ok a, w') => k a w'
    | (Throw e, w') => (Throw e, w')
    end.

(** [try { m } catch (e) { handler e }] *)
Definition try_catch {A : Type} (m : M A) (handler : JsError -> M A) : M A :=
  fun w =>
    match m w with
    | (Ok a, w') => (Ok a, w')
    | (Throw e, w') => handler e w'
    end.

Definition lift {A : Type} (r : Result A) : M A := fun w => (r, w).

Definition modify (f : World -> World) : M unit := fun w => (Ok tt, f w).

Definition gets {A : Type} (f : World -> A) : M A := fun w => (Ok (f w), w).

Declare Scope js_scope.
Delimit Scope js_scope with js.
Notation "x <- m ;; k" := (bind m (fun x => k))
  (at level 61, m at next level, right associativity) : js_scope.
Notation "m ;;; k" := (bind m (fun _ => k))
  (at level 61, right associativity) : js_scope.
Local Open Scope js_scope.

Section Instance.

Variable env : Collaborators.
Variable gen : Generation.
Variable cfg : CostLensConfig.

(** [Date.now()] *)
Definition now : M Z :=
  fun w => (Ok (Date_now env (clockReads w)), with_clockReads w (S (clockReads w))).

(** [await new Promise((resolve) => setTimeout(resolve, ms))] *)
Definition sleep (ms : Z) : M unit :=
  modify (fun w => with_sleeps w (sleeps w ++ [ms])).

(** [await client.chat.completions.create(p)], [await client.messages.create(p)] *)
Definition providerCall (p : Params) : M Response :=
  fun w => (provider_create env (providerLog w) p,
            with_providerLog w (providerLog w ++ [p])).

(** [await fetch(...)]: the request is recorded, the answer is the
    collaborator's. *)
Definition fetch {A : Type} (req : FetchReq) (answer : list FetchReq -> FetchOutcome A)
  : M (FetchOutcome A) :=
  fun w => (Ok (answer (fetchLog w)), with_fetchLog w (fetchLog w ++ [req])).

(** *** Cache layer *)

(** [Map.prototype.get], [delete] and [set] on a map kept in insertion
    order: [set] on a present key keeps its position. *)
Definition map_get {V : Type} (key : string) (m : list (string * V)) : option V :=
  match find (fun kv => fst kv =? key) m with
  | Some kv => Some (snd kv)
  | None => None
  end.

Definition map_delete {V : Type} (key : string) (m : list (string * V))
  : list (string * V) :=
  filter (fun kv => negb (fst kv =? key)) m.

Fixpoint map_set {V : Type} (key : string) (v : V) (m : list (string * V))
  : list (string * V) :=
  match m with
  | [] => [(key, v)]
  | (k, v0) :: rest =>
      if k =? key then (key, v) :: rest else (k, v0) :: map_set key v rest
  end.

Definition getCacheKey (provider : string) (params : Params) : string :=
  let temperature :=
    match temperature params with
    | Some t => if Qtruthy t then t else (7 # 10)%Q
    | None => (7 # 10)%Q
    end in
  provider ++ ":" ++
  Json.object
    ([ Json.member "model" (Json.of_string (model params));
       Json.member "messages"
         (Json.array
            (map (fun m => Json.of_message
                             (mkMessage (role m) (JsString.trim (content m))))
               (messages params)));
       Json.member "temperature" (Number_toString env (Qred temperature)) ] ++
     match max_tokens params with
     | Some n => [Json.member "max_tokens" (Number_toString env (inject_Z n))]
     | None => []
     end).

Definition getFromCache (key : string) : M (option Response) :=
  entry <- gets (fun w => map_get key (cache w));;
  match entry with
  | None => ret None
  | Some entry =>
      t <- now;;
      if (t - timestamp entry >? ttl entry)%Z then
        modify (fun w => with_cache w (map_delete key (cache w)));;;
        ret None
      else
        t' <- now;;
        modify (fun w =>
          with_cache w
            (map_set key (mkEntry (result entry) (timestamp entry) (ttl entry) t')
               (cache w)));;;
        ret (Some (result entry))
  end.

(** [entries.sort((a, b) => (a[1].lastAccessed || 0) - (b[1].lastAccessed || 0))]:
    a stable sort by ascending [lastAccessed]. *)
Fixpoint insert_by_lastAccessed (e : string * CacheEntry)
    (sorted : list (string * CacheEntry)) : list (string * CacheEntry) :=
  match sorted with
  | [] => [e]
  | h :: t =>
      if (lastAccessed (snd e) <=? lastAccessed (snd h))%Z then e :: sorted
      else h :: insert_by_lastAccessed e t
  end.

Fixpoint sort_by_lastAccessed (entries : list (string * CacheEntry))
  : list (string * CacheEntry) :=
  match entries with
  | [] => []
  | e :: rest => insert_by_lastAccessed e (sort_by_lastAccessed rest)
  end.

Definition maxCacheSize : nat := 1000.

(** [Math.floor(maxCacheSize * 0.2)] *)
Definition toRemove : nat :=
  Z.to_nat (Qfloor (inject_Z (Z.of_nat maxCacheSize) * (2 # 10))).

Definition evict_oldest (c : list (string * CacheEntry)) : list (string * CacheEntry) :=
  let entries := sort_by_lastAccessed c in
  fold_left (fun c' e => map_delete (fst e) c') (firstn toRemove entries) c.

Definition setCache (key : string) (result : Response) (ttl : option Z) : M unit :=
  let ttl := match ttl with Some t => t | None => 3600000%Z end in
  size <- gets (fun w => List.length (cache w));;
  (if (maxCacheSize <=? size)%nat
   then modify (fun w => with_cache w (evict_oldest (cache w)))
   else ret tt);;;
  t <- now;;
  t' <- now;;
  modify (fun w => with_cache w (map_set key (mkEntry result t ttl t') (cache w))).

(** [clearCache()] *)
Definition clearCache : M unit := modify (fun w => with_cache w []).

(** *** Circuit breaker and tracking *)

Definition circuitBreakerThreshold : Z := 5.
Definition circuitBreakerTimeout : Z := 60000.

Definition isApiDown : M bool :=
  t <- now;;
  gets (fun w => (apiFailureCount w >=? circuitBreakerThreshold)%Z &&
                 (t - lastApiFailure w <? circuitBreakerTimeout)%Z).

Definition recordApiFailure : M unit :=
  modify (fun w => with_failures w (apiFailureCount w + 1) (lastApiFailure w));;;
  t <- now;;
  modify (fun w => with_failures w (apiFailureCount w) t).

Definition resetApiFailures : M unit :=
  modify (fun w => with_failures w 0 (lastApiFailure w)).

(** [!this.config.apiKey], the test that opens [trackRun] in the second
    generation only. *)
Definition instant_mode : bool :=
  match gen with
  | SecondGeneration => negb (JsString.truthy (apiKey cfg))
  | FirstGeneration => false
  end.

(** Nothing escapes [trackRun]: the whole body is inside [try], and the
    handler records a failure. *)
Definition trackRun (data : TrackRunData) : M unit :=
  if instant_mode then ret tt
  else
    down <- isApiDown;;
    if down then ret tt
    else
      response <- fetch (ReqTrackRun data) (fun log => fetch_track env log data);;
      match response with
      | FetchOk _ => resetApiFailures
      | FetchNotOk _ => recordApiFailure
      | FetchError _ => recordApiFailure
      end.

Definition trackError (provider model input : string) (error : JsError) (latency : Z)
  : M unit :=
  message <- lift (error_message error);;
  trackRun (mkTrackRunData provider None model None input "" 0 None None latency false
              None message None None).

(** *** Retry *)

(** [error?.status >= 400 && error?.status < 500] *)
Definition is_client_error (error : JsError) : bool :=
  match error_status error with
  | Some status => (400 <=? status)%Z && (status <? 500)%Z
  | None => false
  end.

(** The loop [for (let i = 0; i < retries; i++)], entered at index [i]
    with [todo = retries - i] iterations left. *)
Fixpoint retry_loop {A : Type} (fn : M A) (retries i todo : nat) (lastError : JsError)
  : M A :=
  match todo with
  | O => throw lastError
  | S todo' =>
      try_catch fn (fun error =>
        if is_client_error error then throw error
        else if (i =? retries - 1)%nat then throw error
        else
          sleep (2 ^ Z.of_nat i * 1000)%Z;;;
          retry_loop fn retries (S i) todo' error)
  end.

(** [this.config.maxRetries || 3] *)
Definition default_retries : nat :=
  if (maxRetries cfg =? 0)%nat then 3%nat else maxRetries cfg.

Definition retryWithBackoff {A : Type} (fn : M A) (retries : nat) : M A :=
  retry_loop fn retries 0 retries JsUndefined.

(** *** Middleware *)

(** [runMiddleware(type, data)]: every hook of the given type is called
    on [data] itself; the last hook that returns decides the result. *)
Fixpoint run_hooks {A : Type} (hooks : list (option (A -> Result A))) (data result : A)
  : A :=
  match hooks with
  | [] => result
  | None :: rest => run_hooks rest data result
  | Some hook :: rest =>
      match hook data with
      | Ok r => run_hooks rest data r
      | Throw _ => run_hooks rest data result
      end
  end.

Definition runMiddleware_before (params : Params) : Params :=
  run_hooks (map before (middleware cfg)) params params.

Definition runMiddleware_after (r : Response) : Response :=
  run_hooks (map after (middleware cfg)) r r.

(** [runMiddleware('onError', error, errorContext)]; the callers drop
    the result. *)
Definition runMiddleware_onError (error : JsError) (errorContext : ErrorContext)
  : unit :=
  run_hooks
    (map (fun mw => match onError mw with
                    | Some hook => Some (fun _ : unit => hook error errorContext)
                    | None => None
                    end) (middleware cfg)) tt tt.

(** *** Side channels used by the wrappers *)

Definition optimizePromptContent (content : string) : M string :=
  cached <- gets (fun w => map_get content (optimizationCache w));;
  match cached with
  | Some optimized => ret optimized
  | None =>
      response <- fetch (ReqOptimize content)
                    (fun log => fetch_optimize env log content);;
      match response with
      | FetchOk optimized =>
          modify (fun w =>
            with_optimizationCache w (map_set content optimized (optimizationCache w)));;;
          ret optimized
      | _ => ret content
      end
  end.

Fixpoint optimizeMessages (ms : list Message) : M (list Message) :=
  match ms with
  | [] => ret []
  | m :: rest =>
      c <- (if JsString.truthy (content m) then optimizePromptContent (content m)
            else ret (content m));;
      rest' <- optimizeMessages rest;;
      ret (mkMessage (role m) c :: rest')
  end.

Definition checkRoutingEnabled : M bool :=
  response <- fetch ReqRoutingCheck (fetch_routing env);;
  ret match response with
      | FetchOk enabled => enabled
      | FetchNotOk status => negb ((status =? 401)%Z || (status =? 403)%Z)
      | FetchError _ => true
      end.

(** *** The steps shared by both wrappers *)

(** [options?.maxCost || self.config.costLimit], when that is truthy. *)
Definition cost_limit (options : WrapperOptions) : option float :=
  let configured :=
    match costLimit cfg with
    | Some c => if Double.truthy c then Some c else None
    | None => None
    end in
  match maxCost options with
  | Some c => if Double.truthy c then Some c else configured
  | None => configured
  end.

(** [if (estimatedCost > limit) throw ...], on the numbers the runtime
    has. *)
Definition costCheck (params : Params) (options : WrapperOptions) : M unit :=
  match cost_limit options with
  | Some limit =>
      let estimatedCost := Binary64.estimateCost (model params) (messages params) in
      if (limit <? estimatedCost)%float
      then throw (CostLimitExceeded estimatedCost limit)
      else ret tt
  | None => ret tt
  end.

(** [options?.cacheTTL] is truthy *)
Definition cacheTTL_truthy (options : WrapperOptions) : bool :=
  match cacheTTL options with
  | Some t => Ztruthy t
  | None => false
  end.

(** [options?.fallbackModels ||
     (self.config.autoFallback ? self.getDefaultFallbacks(params.model) : [])] *)
Definition fallback_chain (params : Params) (options : WrapperOptions) : list string :=
  match fallbackModels options with
  | Some chain => chain
  | None => if autoFallback cfg then getDefaultFallbacks (model params) else []
  end.

(** *** wrapOpenAI(client).chat.completions.create *)

(** The variables [result], [usedModel] and [lastError] of [create]. *)
Record CallState := mkCallState {
  call_result : option Response;
  call_usedModel : string;
  call_lastError : JsError
}.

(** The loop over the fallback models, each tried once. *)
Fixpoint fallback_loop (params : Params) (models : list string) (st : CallState)
  : M CallState :=
  match models with
  | [] => ret st
  | fallbackModel :: rest =>
      try_catch
        (result <- providerCall (set_model params fallbackModel);;
         ret (mkCallState (Some result) fallbackModel (call_lastError st)))
        (fun fallbackError =>
           fallback_loop params rest
             (mkCallState (call_result st) (call_usedModel st) fallbackError))
  end.

(** [!error?.status || error.status >= 500] *)
Definition shouldTryFallback (error : JsError) : bool :=
  match error_status error with
  | Some status => negb (Ztruthy status) || (500 <=? status)%Z
  | None => true
  end.

(** The primary model with retries, then the fallback models. *)
Definition openai_call (params : Params) (fallbackModels : list string) : M CallState :=
  try_catch
    (result <- retryWithBackoff (providerCall params) default_retries;;
     ret (mkCallState (Some result) (model params) JsUndefined))
    (fun error =>
       let st := mkCallState None (model params) error in
       if autoFallback cfg && (0 <? List.length fallbackModels)%nat &&
          shouldTryFallback error
       then
         let maxFallbacks := Nat.min (List.length fallbackModels) default_retries in
         fallback_loop params (firstn maxFallbacks fallbackModels) st
       else ret st).

(** The score of a routed response: the caller's validator when there is
    one (it may throw), the default scorer otherwise. *)
Definition quality_score (responseText messagesJson : string) : Result float :=
  match qualityValidator cfg with
  | Some validator => validator responseText messagesJson
  | None => Ok (Double.qualityScore responseText messagesJson)
  end.

(** Automatic quality validation: [Some r] when [create] returns [r]
    from inside the quality gate. *)
Definition quality_gate (originalModel usedModel : string) (params : Params)
    (processedResult : Response) : M (option Response) :=
  if negb (originalModel =? usedModel) then
    let responseText := response_text processedResult in
    let messagesJson := Json.of_messages (messages params) in
    score <- lift (quality_score responseText messagesJson);;
    if (score <? 0x1.6666666666666p-1)%float then
      fallbackResult <- providerCall (set_model params originalModel);;
      ret (Some (runMiddleware_after fallbackResult))
    else ret None
  else ret None.

Definition openai_save (usedModel : string) (params : Params) (options : WrapperOptions)
    (processedResult : Response) : M unit :=
  if enableCache cfg || cacheTTL_truthy options then
    let localKey :=
      getCacheKey "openai" (mkParams usedModel (messages params) None None) in
    let ttlMs := match cacheTTL options with Some t => t | None => 3600000%Z end in
    setCache localKey processedResult (Some ttlMs);;;
    if enableCache cfg && runsOnNode env then
      _ <- fetch (ReqCacheSet "openai" usedModel (messages params) processedResult
                    (total_tokens processedResult)
                    (estimateCost usedModel (messages params))
                    (match cacheTTL options with
                     | Some t => if Ztruthy t then t else 3600%Z
                     | None => 3600%Z
                     end))
             (fetch_cache_set env);;
      ret tt
    else ret tt
  else ret tt.

Definition openai_track (originalModel usedModel : string) (params : Params)
    (options : WrapperOptions) (processedResult : Response) (start : Z) : M unit :=
  let inputTokens := prompt_tokens processedResult in
  let outputTokens := completion_tokens processedResult in
  let savings :=
    if negb (originalModel =? usedModel) then
      let requestedCost := estimateCost originalModel (messages params) in
      let actualCost := estimateCost usedModel (messages params) in
      (requestedCost - actualCost)%Q
    else 0%Q in
  t <- now;;
  trackRun (mkTrackRunData "openai" (promptId options) usedModel (Some originalModel)
              (Json.of_messages (messages params)) (response_text processedResult)
              (total_tokens processedResult) (Some inputTokens) (Some outputTokens)
              (t - start)%Z true (Some savings) None
              (requestId options) (correlationId options)).

(** The branch without a result: error middleware, error tracking,
    rethrow. *)
Definition openai_fail (params : Params) (options : WrapperOptions) (start : Z)
    (lastError : JsError) : M Response :=
  t <- now;;
  let errorContext :=
    mkErrorContext "openai" (model params) (Json.of_messages (messages params))
      (t - start)%Z 1 1 (userId options) (promptId options) (model params) [] in
  _ <- ret (runMiddleware_onError lastError errorContext);;
  t' <- now;;
  trackError "openai" (model params) (Json.of_messages (messages params)) lastError
    (t' - start)%Z;;;
  throw lastError.

(** Everything in [create] from the before-middleware on. *)
Definition openai_dispatch (originalModel : string) (params : Params)
    (options : WrapperOptions) : M Response :=
  let params := runMiddleware_before params in
  start <- now;;
  let fallbackModels := fallback_chain params options in
  st <- openai_call params fallbackModels;;
  match call_result st with
  | Some result =>
      let usedModel := call_usedModel st in
      let processedResult := runMiddleware_after result in
      gate <- quality_gate originalModel usedModel params processedResult;;
      match gate with
      | Some fallbackResult => ret fallbackResult
      | None =>
          openai_save usedModel params options processedResult;;;
          openai_track originalModel usedModel params options processedResult start;;;
          ret processedResult
      end
  | None => openai_fail params options start (call_lastError st)
  end.

(** What the steps before the provider call decide. *)
Inductive Admission :=
| Served (cached : Response)
| Proceed (params : Params).

(** Prompt optimization, routing, cost check and the two cache
    look-ups. *)
Definition openai_admit (params : Params) (options : WrapperOptions) : M Admission :=
  params <- (if autoOptimize cfg
             then ms <- optimizeMessages (messages params);;
                  ret (set_messages params ms)
             else ret params);;
  let originalModel := model params in
  params <- (if smartRouting cfg then
               routingEnabled <- checkRoutingEnabled;;
               if routingEnabled
               then ret (set_model params
                           (selectOptimalModel cfg (model params) (messages params)))
               else
                 modify (fun w => if routingDisabledLogged w then w
                                  else with_routingDisabledLogged w true);;;
                 ret params
             else ret params);;
  costCheck params options;;;
  localCached <- (if enableCache cfg || cacheTTL_truthy options
                  then getFromCache
                         (getCacheKey "openai"
                            (mkParams (model params) (messages params) None None))
                  else ret None);;
  match localCached with
  | Some cached => ret (Served cached)
  | None =>
      remote <- (if enableCache cfg && runsOnNode env then
                   response <- fetch (ReqCacheGet "openai" (model params)
                                        (messages params))
                                 (fun log => fetch_cache_get env log (model params)
                                               (messages params));;
                   ret match response with
                       | FetchOk (Some cached) => Some cached
                       | _ => None
                       end
                 else ret None);;
      match remote with
      | Some cached => ret (Served cached)
      | None => ret (Proceed params)
      end
  end.

Definition openai_create (params : Params) (options : WrapperOptions) : M Response :=
  let originalModel := model params in
  admission <- openai_admit params options;;
  match admission with
  | Served cached => ret cached
  | Proceed params => openai_dispatch originalModel params options
  end.

(** *** wrapAnthropic(client).messages.create *)

Definition anthropic_succeed (currentModel : string) (params : Params)
    (options : WrapperOptions) (start : Z) (result : Response) : M Response :=
  let processedResult := runMiddleware_after result in
  (if enableCache cfg && cacheTTL_truthy options
   then setCache (getCacheKey "anthropic" params) processedResult (cacheTTL options)
   else ret tt);;;
  t <- now;;
  trackRun (mkTrackRunData "anthropic" (promptId options) currentModel None
              (Json.of_messages (messages params)) (response_text processedResult)
              (prompt_tokens processedResult + completion_tokens processedResult)%Z
              None None (t - start)%Z true None None
              (requestId options) (correlationId options));;;
  ret processedResult.

Definition anthropic_fail (originalModel currentModel : string) (params : Params)
    (options : WrapperOptions) (start : Z) (modelsToTry : list string) (i : nat)
    (error : JsError) : M Response :=
  t <- now;;
  let errorContext :=
    mkErrorContext "anthropic" currentModel (Json.of_messages (messages params))
      (t - start)%Z (i + 1) (List.length modelsToTry) (userId options)
      (promptId options) originalModel modelsToTry in
  _ <- ret (runMiddleware_onError error errorContext);;
  t' <- now;;
  trackError "anthropic" currentModel (Json.of_messages (messages params)) error
    (t' - start)%Z;;;
  throw error.

(** The loop [for (let i = 0; i < modelsToTry.length; i++)], entered at
    index [i] with the models [todo] still to try. In the source the
    [try] block also holds the steps after the provider call; none of
    them throws here, so only the provider call is guarded. *)
Fixpoint anthropic_loop (originalModel : string) (params : Params)
    (options : WrapperOptions) (start : Z) (modelsToTry : list string)
    (i : nat) (todo : list string) (lastError : JsError) : M Response :=
  match todo with
  | [] => throw lastError
  | currentModel :: rest =>
      attempt <- try_catch
                   (result <- retryWithBackoff
                                (providerCall (set_model params currentModel))
                                default_retries;;
                    ret (inl result))
                   (fun error => ret (inr error));;
      match attempt with
      | inl result => anthropic_succeed currentModel params options start result
      | inr error =>
          if (i =? List.length modelsToTry - 1)%nat
          then anthropic_fail originalModel currentModel params options start
                 modelsToTry i error
          else anthropic_loop originalModel params options start modelsToTry
                 (S i) rest error
      end
  end.

Definition anthropic_create (params : Params) (options : WrapperOptions) : M Response :=
  let originalModel := model params in
  let params :=
    if smartRouting cfg
    then set_model params (selectOptimalModel cfg (model params) (messages params))
    else params in
  costCheck params options;;;
  cached <- (if enableCache cfg then getFromCache (getCacheKey "anthropic" params)
             else ret None);;
  match cached with
  | Some cached => ret cached
  | None =>
      let params := runMiddleware_before params in
      start <- now;;
      let fallbackModels := fallback_chain params options in
      let modelsToTry := model params :: fallbackModels in
      anthropic_loop originalModel params options start modelsToTry 0 modelsToTry
        JsUndefined
  end.

End Instance.

End CostLens.
Import CostLens.

(** ** Model consistency (index.ts, second generation)

    [validateModelConsistency] looks the requested model up in an object
    literal. Such an object also answers to the names it inherits from
    [Object.prototype]; what it answers there is a function or an object,
    so it is truthy, [|| []] does not replace it, and it has no method
    [includes]. *)

Definition modelHierarchy : list (string * list string) :=
  [ ("gpt-4", ["gpt-4o"; "gpt-4-turbo"; "gpt-3.5-turbo"]);
    ("gpt-4o", ["gpt-4-turbo"; "gpt-3.5-turbo"]);
    ("gpt-4-turbo", ["gpt-3.5-turbo"]);
    ("claude-3-opus", ["claude-3.5-sonnet"; "claude-3-sonnet"; "claude-3-haiku"]);
    ("claude-3.5-sonnet", ["claude-3-sonnet"; "claude-3-haiku"]);
    ("claude-3-sonnet", ["claude-3-haiku"]) ].

Definition inherited_properties : list string :=
  ["constructor"; "__defineGetter__"; "__defineSetter__"; "hasOwnProperty";
   "__lookupGetter__"; "__lookupSetter__"; "isPrototypeOf"; "propertyIsEnumerable";
   "toString"; "valueOf"; "__proto__"; "toLocaleString"].

Definition validateModelConsistency (requestedModel actualModel : string) : Result bool :=
  let allowedDowngrades :=
    match map_get requestedModel modelHierarchy with
    | Some downgrades => Some downgrades
    | None =>
        if array_includes inherited_properties requestedModel then None else Some []
    end in
  if requestedModel =? actualModel then Ok true
  else
    match allowedDowngrades with
    | Some downgrades => Ok (array_includes downgrades actualModel)
    | None =>
        Throw (JsErrorObject None (Some "allowedDowngrades.includes is not a function"))
    end.

(** ** The cost formula in the words of the specification

    Section 4.1 of the specification, read literally: the total character
    count is the sum of the content lengths, the input tokens are not
    floored, the output tokens are floored at 1. Only used to compare with
    [CostLens.estimateCost]. *)

Module Spec.

Definition totalCharacterCount (messages : list Message) : Z :=
  Z.of_nat (fold_right (fun m n => (String.length (content m) + n)%nat) 0%nat messages).

Definition inputTokens (messages : list Message) : Z :=
  (Qceiling (inject_Z (totalCharacterCount messages) / 4) +
   4 * Z.of_nat (List.length messages))%Z.

Definition outputTokens (messages : list Message) : Z :=
  Z.max (Qceiling (inject_Z (inputTokens messages) * (3 # 10))) 1.

Definition estimateCost (model : string) (messages : list Message) : Q :=
  (inject_Z (inputTokens messages) / 1000000 * input (getModelPricing model) +
   inject_Z (outputTokens messages) / 1000000 * output (getModelPricing model))%Q.

End Spec.

(** ** Sample collaborators

    Concrete collaborators on which the properties below are exercised. *)

Module Sample.

Definition response (text : string) : Response := mkResponse text 10 5 15.

(** The digits of [r / den] after the decimal point, at most [fuel] of
    them, for [0 <= r < den]. *)
Fixpoint fraction_digits (fuel : nat) (r den : Z) : string :=
  match fuel with
  | O => ""
  | S fuel' =>
      if (r =? 0)%Z then ""
      else String (Ascii.ascii_of_nat (48 + Z.to_nat (r * 10 / den)))
             (fraction_digits fuel' ((r * 10) mod den) den)
  end.

(** Prints a number in decimal, as the runtime prints the double nearest to
    a decimal of at most fifteen digits between 0.000001 and 1e21 in
    magnitude: 1 as "1", 0.2 as "0.2", -1.25 as "-1.25". The examples use
    no other number. A decimal written over the denominator [den] has fewer
    digits after the point than [den] has bits. *)
Definition number_to_string (q : Q) : string :=
  let den := Zpos (Qden q) in
  let magnitude := Z.abs (Qnum q) in
  let whole := NilEmpty.string_of_int (Z.to_int (magnitude / den)) in
  let digits := fraction_digits (Pos.size_nat (Qden q)) (magnitude mod den) den in
  ((if (Qnum q <? 0)%Z then "-" else "") ++
   whole ++ (if (digits =? "")%string then "" else "." ++ digits))%string.

(** Routing enabled, remote cache empty, prompt optimization the identity,
    the clock one second further at every reading, on Node. *)
Definition collaborators
    (provider : list Params -> Params -> Result Response)
    (track : list FetchReq -> TrackRunData -> FetchOutcome unit) : Collaborators :=
  mkCollaborators provider (fun _ => FetchOk true) (fun _ _ _ => FetchOk None)
    (fun _ => FetchOk tt) (fun _ prompt => FetchOk prompt) track
    (fun n => (Z.of_nat n * 1000)%Z) number_to_string true.

Definition provider_echo : list Params -> Params -> Result Response :=
  fun _ p => Ok (response ("answer of " ++ model p)).

Definition track_ok : list FetchReq -> TrackRunData -> FetchOutcome unit :=
  fun _ _ => FetchOk tt.

Definition track_fails (status : Z) : list FetchReq -> TrackRunData -> FetchOutcome unit :=
  fun _ _ => FetchNotOk status.

Definition run_data : TrackRunData :=
  mkTrackRunData "openai" None "gpt-4" None "[]" "" 0 None None 0 true None None None None.

(** The state after [n] tracking attempts in a row. *)
Fixpoint track_repeatedly (env : Collaborators) (gen : Generation) (cfg : CostLensConfig)
    (n : nat) (w : World) : World :=
  match n with
  | O => w
  | S n' => track_repeatedly env gen cfg n' (snd (trackRun env gen cfg run_data w))
  end.

(** A provider that rejects every call with the same error. *)
Definition provider_rejects (e : JsError) : list Params -> Params -> Result Response :=
  fun _ _ => Throw e.

(** A provider that rejects its first call with [{status: 500}] and
    resolves every later one. *)
Definition provider_fails_once : list Params -> Params -> Result Response :=
  fun log p =>
    match log with
    | [] => Throw (JsErrorObject (Some 500%Z) None)
    | _ => Ok (response "success")
    end.

(** The default configuration with a quality validator that gives every
    response the score 0.5. *)
Definition strict_config : CostLensConfig :=
  mkConfig "key" true 3 [] true true false None None
    (Some (fun _ _ => Ok 0.5%float)).

(** A full cache: 1000 entries stored at time 0 with a ttl of one hour, the
    entry with key [n] last read at time [n]. *)
Definition full_cache : list (string * CacheEntry) :=
  map (fun n => (NilEmpty.string_of_uint (Nat.to_uint n),
                 mkEntry (response "cached") 0 3600000 (Z.of_nat n)))
    (seq 0 1000).

(** One entry under the key "k", stored at time 0 with a ttl of 1500 ms. *)
Definition small_cache : list (string * CacheEntry) :=
  [("k", mkEntry (response "cached") 0 1500 0)].

(** Two before-hooks: one caps the tokens, one sets the temperature. *)
Definition cap_tokens : Middleware :=
  mkMiddleware
    (Some (fun p => Ok (mkParams (model p) (messages p) (temperature p) (Some 100%Z))))
    None None.

Definition cool_down : Middleware :=
  mkMiddleware
    (Some (fun p => Ok (mkParams (model p) (messages p) (Some (2 # 10)%Q) (max_tokens p))))
    None None.

(** A question, and an answer full of hedges: the default scorer gives it
    0.7999999999999999, 0.9999999999999999, 0.72 and 0.27999999999999997,
    whose mean is 0.6999999999999998. *)
Definition question : string := "Does heated water freeze sooner than cold water does?".

Definition hesitant : string :=
  "I'm not sure. I think heated water may freeze first, maybe. Perhaps typically.".

(** A provider that gives the hesitant answer to its first call and the
    answer "second" to every later one. *)
Definition provider_hesitant : list Params -> Params -> Result Response :=
  fun log _ =>
    match log with
    | [] => Ok (response hesitant)
    | _ => Ok (response "second")
    end.

(** An after-hook that replaces the text of every response. *)
Definition redact : Middleware :=
  mkMiddleware None
    (Some (fun r => Ok (mkResponse "[redacted]" (prompt_tokens r) (completion_tokens r)
                          (total_tokens r))))
    None.

End Sample.

(** ** Vocabulary of the statements *)

Definition last_access (e : string * CacheEntry) : Z := lastAccessed (snd e).

Definition older_or_equal (a b : string * CacheEntry) : Prop :=
  (last_access a <= last_access b)%Z.

(** The keys deleted by the eviction loop. *)
Definition key_in (victims : list (string * CacheEntry)) (kv : string * CacheEntry) : bool :=
  existsb (fun v => fst v =? fst kv) victims.

(** The state of a cache that was built by [setCache] and [getFromCache]
    alone: no key twice, no more entries than the maximum. *)
Definition cache_ok (c : list (string * CacheEntry)) : Prop :=
  NoDup (map fst c) /\ (List.length c <= maxCacheSize)%nat.

(** Running a computation: unfold the monad, then reduce the projections
    of the state. *)
Ltac run_monad :=
  cbv beta iota delta [bind ret throw gets modify lift try_catch now sleep fetch
                       providerCall].

Ltac run_world :=
  cbn [cache optimizationCache apiFailureCount lastApiFailure routingDisabledLogged
       clockReads providerLog fetchLog sleeps with_cache with_optimizationCache
       with_failures with_routingDisabledLogged with_clockReads with_providerLog
       with_fetchLog with_sleeps fst snd].

Ltac run := run_monad; run_world.

(** The breaker is open at the world's next clock reading. *)
Definition breaker_open (env : Collaborators) (w : World) : bool :=
  (apiFailureCount w >=? 5)%Z &&
  (Date_now env (clockReads w) - lastApiFailure w <? 60000)%Z.

(** The delays awaited after the failed attempts [i], ..., [i + k - 1]. *)
Definition backoff_delays_from (i k : nat) : list Z :=
  map (fun j => (2 ^ Z.of_nat (i + j) * 1000)%Z) (seq 0 k).

Definition backoff_delays (k : nat) : list Z := backoff_delays_from 0 k.

(** The world after [k] more provider calls with [p] and the awaited
    [delays]. *)
Definition after_calls (p : Params) (w : World) (k : nat) (delays : list Z) : World :=
  with_sleeps (with_providerLog w (providerLog w ++ repeat p k)) (sleeps w ++ delays).

(** The outcome of attempt [k] of a run that starts in [w], when the
    attempts before it have failed. *)
Definition attempt_outcome (env : Collaborators) (p : Params) (w : World) (k : nat)
  : Result Response :=
  provider_create env (providerLog w ++ repeat p k) p.

Definition always_400 : JsError := JsErrorObject (Some 400%Z) None.

(** A computation that keeps the cache well formed. *)
Definition keeps_cache_ok {A : Type} (m : M A) : Prop :=
  forall w, cache_ok (cache w) -> cache_ok (cache (snd (m w))).

(** A computation that makes no provider call. *)
Definition keeps_log {A : Type} (m : M A) : Prop :=
  forall w, providerLog (snd (m w)) = providerLog w.

(** The configuration without its routing policy. *)
Definition without_routingPolicy (cfg : CostLensConfig) : CostLensConfig :=
  mkConfig (apiKey cfg) (enableCache cfg) (maxRetries cfg) (middleware cfg)
    (autoFallback cfg) (smartRouting cfg) (autoOptimize cfg) (costLimit cfg) None
    (qualityValidator cfg).

(** The models the built-in router can put in the place of the requested
    one. *)
Definition routing_targets : list string :=
  ["gpt-3.5-turbo"; "gpt-4o"; "claude-3.5-sonnet"; "claude-3-haiku"].

(** Reading one character back from the front of an escaped string: the
    inverse of [Json.escape_char], used to show that two strings never
    share an encoding. *)
Definition hex_value (c : ascii) : option nat :=
  let n := nat_of_ascii c in
  if ((48 <=? n) && (n <=? 57))%nat then Some (n - 48)%nat
  else if ((97 <=? n) && (n <=? 102))%nat then Some (n - 87)%nat
  else None.

Definition decode_char (s : string) : option (ascii * string) :=
  match s with
  | EmptyString => None
  | String c rest =>
      if (nat_of_ascii c =? 92)%nat then
        match rest with
        | EmptyString => None
        | String d rest' =>
            let n := nat_of_ascii d in
            if (n =? 98)%nat then Some (ascii_of_nat 8, rest')
            else if (n =? 116)%nat then Some (ascii_of_nat 9, rest')
            else if (n =? 110)%nat then Some (ascii_of_nat 10, rest')
            else if (n =? 102)%nat then Some (ascii_of_nat 12, rest')
            else if (n =? 114)%nat then Some (ascii_of_nat 13, rest')
            else if (n =? 117)%nat then
              match rest' with
              | String _ (String _ (String h (String l rest''))) =>
                  match hex_value h, hex_value l with
                  | Some a, Some b => Some (ascii_of_nat (16 * a + b), rest'')
                  | _, _ => None
                  end
              | _ => None
              end
            else Some (d, rest')
        end
      else if (nat_of_ascii c =? 34)%nat then None
      else Some (c, rest)
  end.

(** A message as the cache key sees it: the role and the trimmed
    content. *)
Definition key_view (m : Message) : string * string :=
  (role m, JsString.trim (content m)).

(** A hook that leaves no trace on [data]: absent, or throwing. *)
Definition hook_silent {A : Type} (data : A) (hook : option (A -> Result A)) : Prop :=
  match hook with
  | None => True
  | Some f => exists e, f data = Throw e
  end.

(** The configuration with another list of middleware. *)
Definition with_middleware (cfg : CostLensConfig) (mws : list Middleware) : CostLensConfig :=
  mkConfig (apiKey cfg) (enableCache cfg) (maxRetries cfg) mws
    (autoFallback cfg) (smartRouting cfg) (autoOptimize cfg) (costLimit cfg)
    (routingPolicy cfg) (qualityValidator cfg).

(** The state after tracking the given runs one after the other. *)
Fixpoint track_all (env : Collaborators) (gen : Generation) (cfg : CostLensConfig)
    (runs : list TrackRunData) (w : World) : World :=
  match runs with
  | [] => w
  | data :: rest => track_all env gen cfg rest (snd (trackRun env gen cfg data w))
  end.

(** The tracking sink answers no request with success. *)
Definition sink_down (env : Collaborators) : Prop :=
  forall log data body, fetch_track env log data <> FetchOk body.

(** All clock readings from number [lo] up to, not including, number [hi]
    lie within one breaker timeout of each other. *)
Definition within_timeout (env : Collaborators) (lo hi : nat) : Prop :=
  forall i j, (lo <= i)%nat -> (i <= j)%nat -> (j < hi)%nat ->
    (Date_now env j - Date_now env i < circuitBreakerTimeout)%Z.

(** A computation under which a property of the state persists. *)
Definition preserves {A : Type} (P : World -> Prop) (m : M A) : Prop :=
  forall w, P w -> P (snd (m w)).

(** A property of the state that only looks at the cache. *)
Definition about_cache (P : World -> Prop) : Prop :=
  forall w w', cache w' = cache w -> P w -> P w'.

(** No entry is stored under the key. *)
Definition absent (key : string) (w : World) : Prop := map_get key (cache w) = None.

(** What [checkRoutingEnabled] answers in the state [w]. *)
Definition routing_enabled (env : Collaborators) (w : World) : bool :=
  match fetch_routing env (fetchLog w) with
  | FetchOk enabled => enabled
  | FetchNotOk status => negb ((status =? 401)%Z || (status =? 403)%Z)
  | FetchError _ => true
  end.

(** The entry is still alive at the world's next clock reading. *)
Definition fresh (env : Collaborators) (w : World) (entry : CacheEntry) : Prop :=
  (Date_now env (clockReads w) - timestamp entry <= ttl entry)%Z.

(** The limit in force, if any, is not below the estimate. *)
Definition within_budget (cfg : CostLensConfig) (options : WrapperOptions)
    (model : string) (messages : list Message) : Prop :=
  forall limit, cost_limit cfg options = Some limit ->
    (limit <? Binary64.estimateCost model messages)%float = false.

(** The attempts [retryWithBackoff] makes on one model against a provider
    that rejects every call with [e]. *)
Definition attempts_per_model (cfg : CostLensConfig) (e : JsError) : nat :=
  if is_client_error e then 1%nat else default_retries cfg.

(** The pairs (requested, actual) that the hierarchy lists as downgrades. *)
Definition downgrade_pairs : list (string * string) :=
  flat_map (fun row => map (pair (fst row)) (snd row)) modelHierarchy.

(** * Properties *)

(** ** Strings *)

Lemma prefix_append (k b : string) : String.prefix k (k ++ b) = true.
Proof.
  induction k as [|c k IH]; simpl.
  - destruct b; reflexivity.
  - destruct (ascii_dec c c) as [_|n]; [exact IH | contradiction].
Qed.

Lemma prefix_decompose (k s : string) :
  String.prefix k s = true -> exists b, s = k ++ b.
Proof.
  revert k; induction s as [|c s IH]; intros [|d k] H; simpl in *.
  - exists ""; reflexivity.
  - discriminate.
  - eexists; reflexivity.
  - destruct (ascii_dec d c) as [->|]; [|discriminate].
    destruct (IH _ H) as [b ->]. exists b; reflexivity.
Qed.

Lemma includes_cons (c : ascii) (s k : string) :
  JsString.includes (String c s) k = String.prefix k (String c s) || JsString.includes s k.
Proof. reflexivity. Qed.

Lemma includes_nil (k : string) : JsString.includes "" k = String.prefix k "" || false.
Proof. reflexivity. Qed.

Lemma includes_intro (a k b : string) : JsString.includes (a ++ k ++ b) k = true.
Proof.
  induction a as [|c a IH].
  - change ("" ++ k ++ b) with (k ++ b).
    destruct (k ++ b) eqn:E.
    + rewrite includes_nil, <- E, prefix_append. reflexivity.
    + rewrite includes_cons, <- E, prefix_append. reflexivity.
  - change (String c a ++ k ++ b) with (String c (a ++ k ++ b)).
    rewrite includes_cons, IH. apply orb_true_r.
Qed.

Lemma includes_decompose (s k : string) :
  JsString.includes s k = true -> exists a b, s = a ++ k ++ b.
Proof.
  induction s as [|c s IH]; [rewrite includes_nil | rewrite includes_cons]; intros H;
    apply orb_true_iff in H; destruct H as [H|H].
  - apply prefix_decompose in H. destruct H as [b ->]. exists "", b; reflexivity.
  - discriminate.
  - apply prefix_decompose in H. destruct H as [b H]. exists "", b; exact H.
  - destruct (IH H) as (a & b & ->). exists (String c a), b; reflexivity.
Qed.

Lemma append_assoc (a b c : string) : (a ++ b) ++ c = a ++ b ++ c.
Proof. induction a as [|x a IH]; simpl; [reflexivity | now rewrite IH]. Qed.

Lemma includes_append (a s b k : string) :
  JsString.includes s k = true -> JsString.includes (a ++ s ++ b) k = true.
Proof.
  intros H. apply includes_decompose in H. destruct H as (x & y & ->).
  replace (a ++ (x ++ k ++ y) ++ b) with ((a ++ x) ++ k ++ (y ++ b)).
  - apply includes_intro.
  - now rewrite !append_assoc.
Qed.

Lemma append_nil_r (a : string) : a ++ "" = a.
Proof. induction a as [|x a IH]; simpl; [reflexivity | now rewrite IH]. Qed.

Lemma toLowerCase_append (a b : string) :
  JsString.toLowerCase (a ++ b) = JsString.toLowerCase a ++ JsString.toLowerCase b.
Proof. induction a as [|c a IH]; simpl; [reflexivity | now rewrite IH]. Qed.

Lemma includes_toLowerCase (s k : string) :
  JsString.includes s k = true ->
  JsString.includes (JsString.toLowerCase s) (JsString.toLowerCase k) = true.
Proof.
  intros H. apply includes_decompose in H. destruct H as (a & b & ->).
  rewrite !toLowerCase_append. apply includes_intro.
Qed.

Lemma join_member (sep x : string) (l : list string) :
  In x l -> exists a b, JsString.join sep l = a ++ x ++ b.
Proof.
  induction l as [|y l IH]; [intros []|].
  intros [->|Hin].
  - destruct l as [|z l].
    + exists "", "". simpl. now rewrite append_nil_r.
    + exists "", (sep ++ JsString.join sep (z :: l)). reflexivity.
  - destruct l as [|z l]; [destruct Hin|].
    destruct (IH Hin) as (a & b & E).
    exists (y ++ sep ++ a), b.
    change (JsString.join sep (y :: z :: l)) with (y ++ sep ++ JsString.join sep (z :: l)).
    rewrite E. now rewrite !append_assoc.
Qed.

Lemma test_any_intro (keywords : list string) (k s : string) :
  In k keywords -> JsString.includes s k = true -> JsString.test_any keywords s = true.
Proof.
  intros Hin H. unfold JsString.test_any. apply existsb_exists. exists k; auto.
Qed.

(** A keyword found in the content of one message is found in the lowered
    text of the whole conversation. *)
Lemma lowered_text_includes (messages : list Message) (m : Message) (k : string) :
  In m messages ->
  JsString.includes (JsString.toLowerCase (content m)) k = true ->
  JsString.includes (lowered_text messages) k = true.
Proof.
  intros Hin H. unfold lowered_text, message_contents.
  destruct (join_member " " (content m) (map content messages)) as (a & b & E).
  { now apply in_map. }
  rewrite E, !toLowerCase_append. now apply includes_append.
Qed.

(** ** Rationals *)

Lemma Qlt_bool_iff (x y : Q) : Qlt_bool x y = true <-> (x < y)%Q.
Proof.
  unfold Qlt_bool. rewrite negb_true_iff. split; intros H.
  - apply Qnot_le_lt. intros Hle. apply Qle_bool_iff in Hle. congruence.
  - destruct (Qle_bool y x) eqn:E; [|reflexivity].
    apply Qle_bool_iff in E. exfalso. exact (Qlt_not_le _ _ H E).
Qed.

Lemma Qlt_bool_false_iff (x y : Q) : Qlt_bool x y = false <-> (y <= x)%Q.
Proof.
  unfold Qlt_bool. rewrite negb_false_iff. apply Qle_bool_iff.
Qed.

(** ** Cost estimator *)

Lemma first_match_split {V : Type} (table : list (string * V)) (model : string) (v : V) :
  first_match table model = Some v <->
  exists earlier key later,
    table = (earlier ++ (key, v) :: later)%list /\
    JsString.includes model key = true /\
    Forall (fun kv => JsString.includes model (fst kv) = false) earlier.
Proof.
  induction table as [|[k x] table IH]; simpl.
  - split; [discriminate|]. intros (e & key & l & E & _). destruct e; discriminate.
  - destruct (JsString.includes model k) eqn:Hk.
    + split.
      * intros [= <-]. exists [], k, table. auto.
      * intros (e & key & l & E & Hin & Hall). destruct e as [|[k' x'] e].
        -- now injection E as _ <- _.
        -- injection E as <- <- _. inversion Hall as [|? ? H0 _]; subst.
           simpl in H0. congruence.
    + rewrite IH. split.
      * intros (e & key & l & -> & Hin & Hall). exists ((k, x) :: e), key, l.
        repeat split; auto.
      * intros (e & key & l & E & Hin & Hall). destruct e as [|[k' x'] e].
        -- injection E as <- _ _. congruence.
        -- injection E as _ _ ->. inversion Hall; subst. exists e, key, l. auto.
Qed.

Lemma first_match_none {V : Type} (table : list (string * V)) (model : string) :
  first_match table model = None <->
  Forall (fun kv => JsString.includes model (fst kv) = false) table.
Proof.
  induction table as [|[k x] table IH]; simpl.
  - split; auto.
  - destruct (JsString.includes model k) eqn:Hk.
    + split; [discriminate|]. intros H. inversion H; subst. simpl in *. congruence.
    + rewrite IH. split; intros H; [constructor; auto | now inversion H].
Qed.

Lemma first_match_In {V : Type} (table : list (string * V)) (model : string) (v : V) :
  first_match table model = Some v -> exists key, In (key, v) table.
Proof.
  intros H. apply first_match_split in H. destruct H as (e & key & l & -> & _).
  exists key. apply in_or_app. right. now left.
Qed.

Lemma pricing_nonneg (model : string) :
  (0 <= input (getModelPricing model))%Q /\ (0 <= output (getModelPricing model))%Q.
Proof.
  unfold getModelPricing. destruct (first_match pricing_table model) as [p|] eqn:E.
  - apply first_match_In in E. destruct E as [key Hin].
    simpl in Hin.
    repeat (destruct Hin as [Hin|Hin]; [injection Hin as _ <-; split; discriminate|]).
    destruct Hin.
  - split; discriminate.
Qed.

Lemma estimateTokens_pos (messages : list Message) (type : TokenType) :
  (1 <= estimateTokens messages type)%Z.
Proof. unfold estimateTokens. apply Z.le_max_r. Qed.

Lemma estimateCost_nonneg (model : string) (messages : list Message) :
  (0 <= estimateCost model messages)%Q.
Proof.
  unfold estimateCost.
  destruct (pricing_nonneg model) as [Hi Ho].
  assert (forall t, (0 <= inject_Z (estimateTokens messages t) / 1000000)%Q) as Ht.
  { intros t. apply Qle_shift_div_l; [reflexivity|].
    rewrite Qmult_0_l. change 0%Q with (inject_Z 0). rewrite <- Zle_Qle.
    pose proof (estimateTokens_pos messages t). lia. }
  apply Qle_trans with (0 + 0)%Q; [discriminate|].
  apply Qplus_le_compat; apply Qmult_le_0_compat; auto.
Qed.



Lemma length_append (a b : string) :
  String.length (a ++ b) = (String.length a + String.length b)%nat.
Proof. induction a as [|c a IH]; simpl; [reflexivity | now rewrite IH]. Qed.

Lemma join_length (l : list string) :
  String.length (JsString.join " " l) =
  (fold_right (fun s n => String.length s + n) 0 l + (List.length l - 1))%nat.
Proof.
  induction l as [|x l IH]; [reflexivity|].
  destruct l as [|y l].
  - simpl. lia.
  - change (JsString.join " " (x :: y :: l)) with (x ++ " " ++ JsString.join " " (y :: l)).
    rewrite !length_append, IH. simpl. lia.
Qed.

Lemma Qceiling_ge_0 (q : Q) : (0 <= q)%Q -> (0 <= Qceiling q)%Z.
Proof.
  intros H. change 0%Z with (Qceiling 0). now apply Qceiling_resp_le.
Qed.

Lemma base_tokens_ge (messages : list Message) :
  messages <> [] ->
  (4 <= Qceiling (inject_Z (Z.of_nat (String.length
                     (JsString.join " " (message_contents messages)))) / 4) +
        4 * Z.of_nat (List.length messages))%Z.
Proof.
  intros Hne.
  assert (0 <= Qceiling (inject_Z (Z.of_nat (String.length
                     (JsString.join " " (message_contents messages)))) / 4))%Z.
  { apply Qceiling_ge_0. apply Qle_shift_div_l; [reflexivity|].
    rewrite Qmult_0_l. change 0%Q with (inject_Z 0). rewrite <- Zle_Qle. lia. }
  destruct messages; [congruence|]. simpl List.length. lia.
Qed.

(** C4 (as amended). For every model identifier and message list,
    [estimateCost] takes the character count of the contents joined by single
    spaces (the sum of the content lengths plus one per gap between
    messages), computes base = ceil(chars/4) + 4 * messageCount, input tokens
    = max(base, 1), output tokens = max(ceil(base * 0.3), 1), and returns
    inputTokens/1e6 * inputPrice + outputTokens/1e6 * outputPrice; the prices
    are those of the first price-table key that is a substring of the model
    identifier, and {1.0, 1.0} when no key is. The result is never negative.
    For a non-empty list the input tokens are the base itself and the output
    tokens are ceil(inputTokens * 0.3); for the empty list both counts
    are 1. *)
Theorem estimateCost_formula (model : string) (messages : list Message) :
  let chars := Z.of_nat (String.length (JsString.join " " (map content messages))) in
  let count := Z.of_nat (List.length messages) in
  let base := (Qceiling (inject_Z chars / 4) + 4 * count)%Z in
  let inputTokens := estimateTokens messages input_tokens in
  let outputTokens := estimateTokens messages output_tokens in
  let pricing := getModelPricing model in
  chars = (Spec.totalCharacterCount messages + Z.of_nat (List.length messages - 1))%Z /\
  inputTokens = Z.max base 1 /\
  outputTokens = Z.max (Qceiling (inject_Z base * (3 # 10))) 1 /\
  estimateCost model messages =
    (inject_Z inputTokens / 1000000 * input pricing +
     inject_Z outputTokens / 1000000 * output pricing)%Q /\
  (0 <= estimateCost model messages)%Q /\
  (forall earlier key p later,
      pricing_table = (earlier ++ (key, p) :: later)%list ->
      JsString.includes model key = true ->
      Forall (fun kv => JsString.includes model (fst kv) = false) earlier ->
      pricing = p) /\
  (Forall (fun kv => JsString.includes model (fst kv) = false) pricing_table ->
   pricing = mkPricing 1 1) /\
  (messages <> [] ->
   inputTokens = base /\ outputTokens = Qceiling (inject_Z inputTokens * (3 # 10))) /\
  (messages = [] -> inputTokens = 1%Z /\ outputTokens = 1%Z).
Proof.
  intros chars count base inputTokens outputTokens pricing.
  assert (inputTokens = Z.max base 1) as Hin.
  { unfold inputTokens, estimateTokens, base, chars, count, message_contents.
    f_equal. lia. }
  assert (outputTokens = Z.max (Qceiling (inject_Z base * (3 # 10))) 1) as Hout.
  { unfold outputTokens, estimateTokens, base, chars, count, message_contents.
    f_equal. f_equal. f_equal. f_equal. lia. }
  split; [|split; [exact Hin|split; [exact Hout|split; [reflexivity|split;
    [apply estimateCost_nonneg|split; [|split; [|split]]]]]]].
  - unfold chars, Spec.totalCharacterCount. rewrite join_length.
    rewrite Nat2Z.inj_add, length_map. f_equal. f_equal.
    clear. induction messages as [|m ms IH]; simpl; [reflexivity | now rewrite IH].
  - intros earlier key p later Htable Hkey Hearlier.
    unfold pricing, getModelPricing.
    assert (first_match pricing_table model = Some p) as ->; [|reflexivity].
    apply first_match_split. exists earlier, key, later. auto.
  - intros Hnone. unfold pricing, getModelPricing.
    apply first_match_none in Hnone. now rewrite Hnone.
  - intros Hne. pose proof (base_tokens_ge messages Hne) as Hb.
    unfold message_contents in Hb. fold chars count base in Hb.
    assert (inputTokens = base) as E by (rewrite Hin; lia).
    split; [exact E|]. rewrite E, Hout.
    apply Z.max_l.
    assert (1 <= inject_Z base * (3 # 10))%Q as H1.
    { apply Qle_trans with (inject_Z 4 * (3 # 10))%Q; [discriminate|].
      apply Qmult_le_compat_r; [|discriminate]. now rewrite <- Zle_Qle. }
    apply Qceiling_resp_le in H1. exact H1.
  - intros ->. split; reflexivity.
Qed.

(** The formula at work: 'gpt-4-turbo-preview' is priced by the key 'gpt-4',
    which comes before 'gpt-4-turbo' in the table; an unknown model gets the
    default prices; one message 'Hi' counts 5 input and 2 output tokens; no
    message counts 1 input token. *)
Lemma estimateCost_formula_witness :
  getModelPricing "gpt-4-turbo-preview" = mkPricing 30 60 /\
  getModelPricing "mistral-large" = mkPricing 1 1 /\
  estimateTokens [mkMessage "user" "Hi"] input_tokens = 5%Z /\
  estimateTokens [mkMessage "user" "Hi"] output_tokens = 2%Z /\
  estimateTokens [] input_tokens = 1%Z.
Proof.
  destruct (estimateCost_formula "gpt-4-turbo-preview" [mkMessage "user" "Hi"])
    as (_ & _ & _ & _ & _ & Hfirst & _ & Hsome & _).
  destruct (estimateCost_formula "mistral-large" [])
    as (_ & _ & _ & _ & _ & _ & Hnone & _ & Hempty).
  split; [|split; [|split; [|split]]].
  - apply (Hfirst [("gpt-4o", mkPricing (25 # 10) 10)] "gpt-4" (mkPricing 30 60)
             (tl (tl pricing_table))).
    + reflexivity.
    + reflexivity.
    + repeat constructor.
  - apply Hnone. repeat constructor.
  - apply Hsome. discriminate.
  - apply Hsome. discriminate.
  - apply Hempty. reflexivity.
Defined.

(** C4 (as stated) fails. With the character count taken as the sum of the
    content lengths and the input tokens not floored, the stated formula
    gives 0.00006 for ['gpt-4', no messages] where the code returns 0.00009,
    and 0.00048 for two messages 'abcd' where the code returns 0.00057. *)
Lemma estimateCost_stated_formula_counterexample :
  ~ (estimateCost "gpt-4" [] == Spec.estimateCost "gpt-4" [])%Q /\
  ~ (estimateCost "gpt-4" [mkMessage "user" "abcd"; mkMessage "user" "abcd"] ==
     Spec.estimateCost "gpt-4" [mkMessage "user" "abcd"; mkMessage "user" "abcd"])%Q.
Proof. split; intros H; vm_compute in H; discriminate. Qed.

(** C5. With the default configuration, [selectOptimalModel('gpt-4',
    [{role:'user', content:'Hi'}])] is 'gpt-3.5-turbo' and [calculateSavings]
    on the same arguments reports a savings percentage above 90. *)
Theorem routing_threshold_simple_task (key : string) :
  selectOptimalModel (defaultConfig key) "gpt-4" [mkMessage "user" "Hi"] = "gpt-3.5-turbo" /\
  (90 < savingsPercentage
          (calculateSavings (defaultConfig key) "gpt-4" [mkMessage "user" "Hi"]))%Q.
Proof. split; vm_compute; reflexivity. Qed.

(** ** Quality detector *)

Lemma critical_keyword_detected (messages : list Message) (m : Message) (k : string) :
  In m messages ->
  In k QualityDetector.critical_keywords ->
  JsString.includes (JsString.toLowerCase (content m)) k = true ->
  QualityDetector.isCritical messages = true.
Proof.
  intros Hm Hk H. unfold QualityDetector.isCritical.
  apply test_any_intro with (k := k); [exact Hk|].
  now apply lowered_text_includes with (m := m).
Qed.

(** C6. [QualityDetector.shouldRoute], for every requested model and
    message list: when the estimated complexity exceeds 0.8 or the prompt
    matches a criticality keyword (a message whose content contains
    "medical" is such a prompt), it answers shouldRoute = false, the
    requested model and confidence 0.9; otherwise, when the complexity is
    below 0.3, shouldRoute = true, confidence 0.85 and the cheap model of the
    task type ('claude-3-haiku' for coding, 'gpt-3.5-turbo' for the rest);
    otherwise, when the complexity is below 0.6, confidence 0.8, the
    medium-tier model of the task type, and shouldRoute = true exactly when
    that model differs from the requested one; otherwise shouldRoute = false,
    the requested model and confidence 0.7. *)
Theorem shouldRoute_policy (requestedModel : string) (messages : list Message) :
  let d := QualityDetector.shouldRoute requestedModel messages in
  let complexity := QualityDetector.estimateComplexity messages in
  let taskType := QualityDetector.detectTaskType messages in
  let critical := QualityDetector.isCritical messages in
  (((8 # 10) < complexity)%Q \/ critical = true ->
   QualityDetector.decision_shouldRoute d = false /\
   QualityDetector.decision_targetModel d = requestedModel /\
   QualityDetector.decision_confidence d = (9 # 10)%Q) /\
  ((complexity < (3 # 10))%Q -> critical = false ->
   QualityDetector.decision_shouldRoute d = true /\
   QualityDetector.decision_confidence d = (85 # 100)%Q /\
   QualityDetector.decision_targetModel d =
     (if array_includes taskType "coding" then "claude-3-haiku" else "gpt-3.5-turbo")) /\
  (((3 # 10) <= complexity)%Q -> (complexity < (6 # 10))%Q -> critical = false ->
   QualityDetector.decision_confidence d = (8 # 10)%Q /\
   QualityDetector.decision_targetModel d =
     QualityDetector.getOptimalMediumModel requestedModel taskType /\
   (QualityDetector.decision_shouldRoute d = true <->
    QualityDetector.getOptimalMediumModel requestedModel taskType <> requestedModel)) /\
  (((6 # 10) <= complexity)%Q -> (complexity <= (8 # 10))%Q -> critical = false ->
   QualityDetector.decision_shouldRoute d = false /\
   QualityDetector.decision_targetModel d = requestedModel /\
   QualityDetector.decision_confidence d = (7 # 10)%Q) /\
  (forall m, In m messages -> JsString.includes (content m) "medical" = true ->
             critical = true).
Proof.
  intros d complexity taskType critical.
  assert (forall m, In m messages -> JsString.includes (content m) "medical" = true ->
                    critical = true) as Hmedical.
  { intros m Hm Hmed. unfold critical.
    apply critical_keyword_detected with (m := m) (k := "medical");
      [ exact Hm | simpl; tauto
      | exact (includes_toLowerCase (content m) "medical" Hmed) ]. }
  unfold d, QualityDetector.shouldRoute.
  fold complexity taskType critical.
  clearbody complexity critical taskType. clear d.
  destruct (Qlt_bool (8 # 10) complexity) eqn:Hhigh;
    [apply Qlt_bool_iff in Hhigh | apply Qlt_bool_false_iff in Hhigh];
    (destruct (Qlt_bool complexity (3 # 10)) eqn:Hlow;
     [apply Qlt_bool_iff in Hlow | apply Qlt_bool_false_iff in Hlow]);
    (destruct (Qlt_bool complexity (6 # 10)) eqn:Hmid;
     [apply Qlt_bool_iff in Hmid | apply Qlt_bool_false_iff in Hmid]);
    try (exfalso; lra);
    destruct critical;
    cbn [orb QualityDetector.decision_shouldRoute QualityDetector.decision_targetModel
         QualityDetector.decision_confidence];
    (split; [|split; [|split; [|split]]]); try exact Hmedical;
    intros; try discriminate; try (exfalso; lra);
    try (repeat split; reflexivity).
  - repeat split. unfold QualityDetector.getOptimalSimpleModel.
    destruct (array_includes taskType "coding"); [reflexivity|].
    destruct (array_includes taskType "writing"); [reflexivity|].
    destruct (array_includes taskType "math"); reflexivity.
  - repeat split.
    + rewrite negb_true_iff. intros H2. now apply String.eqb_neq.
    + rewrite negb_true_iff. intros H2. now apply String.eqb_neq.
Qed.

(** One prompt for each case of the policy. *)
Lemma shouldRoute_policy_witness :
  QualityDetector.decision_targetModel
    (QualityDetector.shouldRoute "gpt-4"
       [mkMessage "user" "Summarise my medical record"]) = "gpt-4" /\
  QualityDetector.decision_confidence
    (QualityDetector.shouldRoute "gpt-4"
       [mkMessage "user" "Summarise my medical record"]) = (9 # 10)%Q /\
  QualityDetector.decision_targetModel
    (QualityDetector.shouldRoute "gpt-4" [mkMessage "user" "a quick function"]) =
    "claude-3-haiku" /\
  QualityDetector.decision_shouldRoute
    (QualityDetector.shouldRoute "claude-3-opus"
       [mkMessage "user" "evaluate this"]) = true /\
  QualityDetector.decision_confidence
    (QualityDetector.shouldRoute "gpt-4"
       [mkMessage "user" "a detailed overview"]) = (7 # 10)%Q.
Proof.
  pose (critical_prompt := [mkMessage "user" "Summarise my medical record"]).
  destruct (shouldRoute_policy "gpt-4" critical_prompt) as (Hnever & _ & _ & _ & Hmedical).
  destruct (shouldRoute_policy "gpt-4" [mkMessage "user" "a quick function"])
    as (_ & Hsimple & _).
  destruct (shouldRoute_policy "claude-3-opus" [mkMessage "user" "evaluate this"])
    as (_ & _ & Hmedium & _).
  destruct (shouldRoute_policy "gpt-4" [mkMessage "user" "a detailed overview"])
    as (_ & _ & _ & Hcomplex & _).
  assert (QualityDetector.isCritical critical_prompt = true) as Hcritical.
  { apply (Hmedical (mkMessage "user" "Summarise my medical record"));
      [left; reflexivity | vm_compute; reflexivity]. }
  split; [|split; [|split; [|split]]].
  - apply Hnever. right. exact Hcritical.
  - apply Hnever. right. exact Hcritical.
  - apply Hsimple; vm_compute; reflexivity.
  - apply Hmedium; vm_compute; [discriminate | reflexivity | reflexivity | discriminate].
  - apply Hcomplex; vm_compute; [discriminate | discriminate | reflexivity].
Defined.

(** ** Cache keys *)

(** C10. [getCacheKey] puts 0.7 in place of a falsy temperature: for every
    provider, model, message list and max_tokens, the key of a request with
    temperature 0 is the key of the same request with temperature 0.7 and of
    the same request without a temperature, so a cache look-up cannot tell
    them apart. *)
Theorem getCacheKey_falsy_temperature (env : Collaborators) (provider model : string)
    (messages : list Message) (max_tokens : option Z) (t : Q) :
  (t == 0)%Q ->
  let key temperature :=
    getCacheKey env provider (mkParams model messages temperature max_tokens) in
  key (Some t) = key (Some (7 # 10)%Q) /\
  key None = key (Some (7 # 10)%Q) /\
  forall w, getFromCache env (key (Some t)) w = getFromCache env (key (Some (7 # 10)%Q)) w.
Proof.
  intros Ht key.
  assert (key (Some t) = key (Some (7 # 10)%Q)) as E.
  { unfold key, getCacheKey. cbn [temperature].
    assert (Qtruthy t = false) as ->.
    { unfold Qtruthy. apply negb_false_iff. now apply Qeq_bool_iff. }
    reflexivity. }
  split; [exact E|]. split; [reflexivity|].
  intros w. now rewrite E.
Qed.

(** Two Anthropic requests that differ in the temperature only, 0 and 0.7. *)
Lemma getCacheKey_falsy_temperature_witness :
  getCacheKey (Sample.collaborators Sample.provider_echo Sample.track_ok) "anthropic"
    (mkParams "claude-3-opus" [mkMessage "user" " Hi "] (Some 0%Q) (Some 100%Z)) =
  getCacheKey (Sample.collaborators Sample.provider_echo Sample.track_ok) "anthropic"
    (mkParams "claude-3-opus" [mkMessage "user" " Hi "] (Some (7 # 10)%Q) (Some 100%Z)).
Proof.
  apply (getCacheKey_falsy_temperature
           (Sample.collaborators Sample.provider_echo Sample.track_ok)
           "anthropic" "claude-3-opus" [mkMessage "user" " Hi "] (Some 100%Z) 0%Q).
  reflexivity.
Defined.

(** ** Cache layer *)

Section MapLemmas.

Context {V : Type}.
Implicit Types (m : list (string * V)) (k : string) (v : V).

Lemma map_get_set_same k v m : map_get k (map_set k v m) = Some v.
Proof.
  unfold map_get. induction m as [|[k0 v0] m IH]; simpl.
  - now rewrite String.eqb_refl.
  - destruct (k0 =? k) eqn:E; simpl.
    + now rewrite String.eqb_refl.
    + now rewrite E.
Qed.

Lemma map_get_set_other k k' v m :
  k' <> k -> map_get k' (map_set k v m) = map_get k' m.
Proof.
  intros Hne. unfold map_get. induction m as [|[k0 v0] m IH]; simpl.
  - apply String.eqb_neq in Hne. rewrite String.eqb_sym in Hne. now rewrite Hne.
  - destruct (k0 =? k) eqn:E; simpl.
    + apply String.eqb_eq in E. subst k0.
      apply String.eqb_neq in Hne. rewrite String.eqb_sym in Hne. now rewrite Hne.
    + destruct (k0 =? k'); [reflexivity | exact IH].
Qed.

Lemma map_get_delete_same k m : map_get k (map_delete k m) = None.
Proof.
  unfold map_get, map_delete. induction m as [|[k0 v0] m IH]; simpl; [reflexivity|].
  destruct (k0 =? k) eqn:E; simpl; [exact IH | now rewrite E].
Qed.

Lemma map_get_delete_other k k' m :
  k' <> k -> map_get k' (map_delete k m) = map_get k' m.
Proof.
  intros Hne. unfold map_get, map_delete.
  induction m as [|[k0 v0] m IH]; simpl; [reflexivity|].
  destruct (k0 =? k) eqn:E; simpl.
  - apply String.eqb_eq in E. subst k0.
    apply String.eqb_neq in Hne. rewrite String.eqb_sym in Hne. now rewrite Hne.
  - destruct (k0 =? k'); [reflexivity | exact IH].
Qed.

Lemma map_get_In k v m : map_get k m = Some v -> In (k, v) m.
Proof.
  unfold map_get. induction m as [|[k0 v0] m IH]; simpl; [discriminate|].
  destruct (k0 =? k) eqn:E.
  - apply String.eqb_eq in E. intros [= <-]. left. now subst.
  - intros H. right. now apply IH.
Qed.

Lemma map_set_keys k v m :
  map fst (map_set k v m) =
  if existsb (String.eqb k) (map fst m) then map fst m else (map fst m ++ [k])%list.
Proof.
  induction m as [|[k0 v0] m IH]; simpl; [reflexivity|].
  rewrite (String.eqb_sym k k0).
  destruct (k0 =? k) eqn:E; simpl.
  - apply String.eqb_eq in E. now subst.
  - rewrite IH. now destruct (existsb (String.eqb k) (map fst m)).
Qed.

Lemma map_set_NoDup k v m : NoDup (map fst m) -> NoDup (map fst (map_set k v m)).
Proof.
  intros H. rewrite map_set_keys.
  destruct (existsb (String.eqb k) (map fst m)) eqn:E; [exact H|].
  apply NoDup_app; [exact H | repeat constructor; intros [] |].
  intros x Hx [->|[]].
  assert (existsb (String.eqb x) (map fst m) = true); [|congruence].
  apply existsb_exists. exists x. split; [exact Hx | apply String.eqb_refl].
Qed.

Lemma map_set_length k v m :
  List.length (map_set k v m) =
  if existsb (String.eqb k) (map fst m) then List.length m else S (List.length m).
Proof.
  rewrite <- (length_map fst), map_set_keys.
  destruct (existsb (String.eqb k) (map fst m)).
  - apply length_map.
  - rewrite length_app, length_map. simpl. lia.
Qed.

Lemma map_fst_filter_NoDup (f : string * V -> bool) m :
  NoDup (map fst m) -> NoDup (map fst (filter f m)).
Proof.
  induction m as [|x m IH]; simpl; [auto|].
  intros H. inversion H as [|? ? Hnotin Hnd]; subst.
  destruct (f x); simpl; [|auto].
  constructor; [|auto].
  intros Hin. apply Hnotin. apply in_map_iff in Hin.
  destruct Hin as (y & Ey & Hy). apply filter_In in Hy.
  apply in_map_iff. exists y. tauto.
Qed.

End MapLemmas.

Lemma insert_by_lastAccessed_perm e l :
  Permutation (insert_by_lastAccessed e l) (e :: l).
Proof.
  induction l as [|h t IH]; simpl; [reflexivity|].
  destruct (lastAccessed (snd e) <=? lastAccessed (snd h))%Z; [reflexivity|].
  rewrite IH. apply perm_swap.
Qed.

Lemma sort_by_lastAccessed_perm l : Permutation (sort_by_lastAccessed l) l.
Proof.
  induction l as [|h t IH]; simpl; [reflexivity|].
  rewrite insert_by_lastAccessed_perm. now constructor.
Qed.

Lemma insert_by_lastAccessed_sorted e l :
  StronglySorted older_or_equal l ->
  StronglySorted older_or_equal (insert_by_lastAccessed e l).
Proof.
  induction l as [|h t IH]; intros Hs; simpl.
  - repeat constructor.
  - destruct (lastAccessed (snd e) <=? lastAccessed (snd h))%Z eqn:E.
    + apply Z.leb_le in E. constructor; [exact Hs|].
      apply StronglySorted_inv in Hs. destruct Hs as [_ Hall].
      constructor; [exact E|].
      eapply Forall_impl; [|exact Hall].
      intros a Ha. unfold older_or_equal, last_access in *. lia.
    + apply Z.leb_gt in E. apply StronglySorted_inv in Hs. destruct Hs as [Hs Hall].
      constructor; [now apply IH|].
      apply Forall_forall. intros x Hx.
      apply (Permutation_in _ (insert_by_lastAccessed_perm e t)) in Hx.
      destruct Hx as [<-|Hx].
      * unfold older_or_equal, last_access. lia.
      * rewrite Forall_forall in Hall. now apply Hall.
Qed.

Lemma sort_by_lastAccessed_sorted l :
  StronglySorted older_or_equal (sort_by_lastAccessed l).
Proof.
  induction l as [|h t IH]; simpl; [constructor|].
  now apply insert_by_lastAccessed_sorted.
Qed.

Lemma sorted_firstn_skipn {A : Type} (R : A -> A -> Prop) (l : list A) (n : nat) :
  StronglySorted R l ->
  forall x y, In x (firstn n l) -> In y (skipn n l) -> R x y.
Proof.
  revert n. induction l as [|h t IH]; intros n Hs x y Hx Hy.
  - destruct n; destruct Hx.
  - destruct n as [|n]; [destruct Hx|].
    apply StronglySorted_inv in Hs. destruct Hs as [Hs Hall].
    simpl in Hx, Hy. destruct Hx as [<-|Hx].
    + rewrite Forall_forall in Hall. apply Hall.
      rewrite <- (firstn_skipn n t). apply in_or_app. now right.
    + now apply (IH n).
Qed.

Lemma NoDup_app_disjoint {A : Type} (l1 l2 : list A) :
  NoDup (l1 ++ l2) -> forall a, In a l1 -> ~ In a l2.
Proof.
  induction l1 as [|h t IH]; simpl; intros H a Ha; [destruct Ha|].
  inversion H as [|? ? Hnotin Hnd]; subst.
  destruct Ha as [->|Ha]; [|now apply IH].
  intros Hin. apply Hnotin. apply in_or_app. now right.
Qed.

Lemma Permutation_filter {A : Type} (f : A -> bool) (l l' : list A) :
  Permutation l l' -> Permutation (filter f l) (filter f l').
Proof.
  induction 1 as [|x l l' _ IH|x y l|l l' l'' _ IH1 _ IH2]; simpl.
  - constructor.
  - destruct (f x); [now constructor | exact IH].
  - destruct (f x), (f y); try reflexivity. apply perm_swap.
  - now transitivity (filter f l').
Qed.

Lemma delete_all_filter (victims c : list (string * CacheEntry)) :
  fold_left (fun c' e => map_delete (fst e) c') victims c =
  filter (fun kv => negb (key_in victims kv)) c.
Proof.
  revert c. induction victims as [|v vs IH]; intros c; simpl.
  - induction c as [|x c IHc]; simpl; [reflexivity | now rewrite <- IHc].
  - rewrite IH. unfold map_delete. clear IH.
    induction c as [|x c IHc]; simpl; [reflexivity|].
    rewrite (String.eqb_sym (fst v) (fst x)).
    destruct (fst x =? fst v) eqn:E; simpl; [exact IHc|].
    destruct (key_in vs x); simpl; [exact IHc | now rewrite IHc].
Qed.

Lemma filter_all {A : Type} (f : A -> bool) (l : list A) :
  (forall x, In x l -> f x = true) -> filter f l = l.
Proof.
  induction l as [|h t IH]; intros H; simpl; [reflexivity|].
  rewrite (H h (or_introl eq_refl)). f_equal. apply IH. intros x Hx. apply H. now right.
Qed.

Lemma filter_none {A : Type} (f : A -> bool) (l : list A) :
  (forall x, In x l -> f x = false) -> filter f l = [].
Proof.
  induction l as [|h t IH]; intros H; simpl; [reflexivity|].
  rewrite (H h (or_introl eq_refl)). apply IH. intros x Hx. apply H. now right.
Qed.

(** What the eviction removes and what it keeps, for a map without
    duplicate keys. *)
Lemma evict_oldest_split (c : list (string * CacheEntry)) :
  NoDup (map fst c) ->
  let evicted := firstn toRemove (sort_by_lastAccessed c) in
  Permutation c (evicted ++ evict_oldest c) /\
  Permutation (evict_oldest c) (skipn toRemove (sort_by_lastAccessed c)) /\
  forall e e', In e evicted -> In e' (evict_oldest c) -> older_or_equal e e'.
Proof.
  intros Hnd evicted. set (sorted := sort_by_lastAccessed c).
  assert (Permutation sorted c) as Hperm by apply sort_by_lastAccessed_perm.
  assert (NoDup (map fst sorted)) as Hnds.
  { apply (Permutation_NoDup (l := map fst c)); [|exact Hnd].
    apply Permutation_map. now symmetry. }
  assert (Permutation (evict_oldest c) (skipn toRemove sorted)) as Hkept.
  { unfold evict_oldest. fold sorted. fold evicted. rewrite delete_all_filter.
    rewrite (Permutation_filter _ _ _ (Permutation_sym Hperm)).
    rewrite <- (firstn_skipn toRemove sorted) at 1. fold evicted.
    rewrite filter_app, (filter_none _ evicted), (filter_all _ (skipn toRemove sorted));
      [reflexivity| |].
    - intros x Hx. apply negb_true_iff. unfold key_in.
      apply not_true_is_false. intros E. apply existsb_exists in E. destruct E as (v & Hv & Ev).
      apply String.eqb_eq in Ev.
      rewrite <- (firstn_skipn toRemove sorted), map_app in Hnds. fold evicted in Hnds.
      apply (NoDup_app_disjoint _ _ Hnds (fst v));
        [now apply in_map | rewrite Ev; now apply in_map].
    - intros x Hx. apply negb_false_iff. unfold key_in. apply existsb_exists.
      exists x. split; [exact Hx | apply String.eqb_refl]. }
  split; [|split; [exact Hkept|]].
  - rewrite Hkept. unfold evicted. rewrite firstn_skipn. now symmetry.
  - intros e e' He He'.
    apply (Permutation_in _ Hkept) in He'.
    exact (sorted_firstn_skipn _ _ _ (sort_by_lastAccessed_sorted c) e e' He He').
Qed.


Lemma toRemove_value : toRemove = 200%nat.
Proof. reflexivity. Qed.

Lemma evict_oldest_length (c : list (string * CacheEntry)) :
  NoDup (map fst c) ->
  List.length (evict_oldest c) = (List.length c - toRemove)%nat.
Proof.
  intros Hnd. destruct (evict_oldest_split c Hnd) as (_ & Hkept & _).
  rewrite (Permutation_length Hkept), length_skipn.
  now rewrite (Permutation_length (sort_by_lastAccessed_perm c)).
Qed.

Lemma evict_oldest_NoDup (c : list (string * CacheEntry)) :
  NoDup (map fst c) -> NoDup (map fst (evict_oldest c)).
Proof.
  intros Hnd. unfold evict_oldest. rewrite delete_all_filter.
  now apply map_fst_filter_NoDup.
Qed.

Lemma getFromCache_cache_ok env key w :
  cache_ok (cache w) -> cache_ok (cache (snd (getFromCache env key w))).
Proof.
  intros [Hnd Hlen]. unfold getFromCache. run.
  destruct (map_get key (cache w)) as [e|] eqn:E; run; [|now split].
  destruct (_ >? _)%Z; run.
  - split.
    + unfold map_delete. now apply map_fst_filter_NoDup.
    + unfold map_delete. pose proof (filter_length_le (fun kv => negb (fst kv =? key)) (cache w)). lia.
  - split; [now apply map_set_NoDup|].
    rewrite map_set_length.
    assert (existsb (String.eqb key) (map fst (cache w)) = true) as ->; [|exact Hlen].
    apply existsb_exists. exists key. split; [|apply String.eqb_refl].
    apply map_get_In in E. apply in_map_iff. now exists (key, e).
Qed.

Lemma setCache_cache_ok env key r ttl w :
  cache_ok (cache w) -> cache_ok (cache (snd (setCache env key r ttl w))).
Proof.
  intros [Hnd Hlen]. unfold setCache. run.
  destruct (maxCacheSize <=? List.length (cache w))%nat eqn:E; run.
  - split; [apply map_set_NoDup; now apply evict_oldest_NoDup|].
    rewrite map_set_length, evict_oldest_length, toRemove_value by exact Hnd.
    unfold maxCacheSize in *.
    destruct (existsb _ _); lia.
  - apply Nat.leb_gt in E. split; [now apply map_set_NoDup|].
    rewrite map_set_length. destruct (existsb _ _); lia.
Qed.

(** C7. Cache get: a miss, with nothing changed, when the key is absent;
    when now - storedAt exceeds the ttl, the entry is deleted and the answer
    is a miss; otherwise the stored value is returned and lastAccessed is set
    to the current time, the other entries untouched. Cache set: when the
    map holds the maximum of 1000 entries, the 200 entries (20%) with the
    oldest lastAccessed are removed first (every removed entry was accessed
    no later than every entry kept) and the new entry is written over what is
    kept; below the maximum nothing is removed; the entry written carries the
    given ttl, and 3600000 ms when none is given. Both operations keep the map
    free of duplicate keys and within the maximum. *)
Theorem cache_get_set (env : Collaborators) (key : string) (w : World) :
  let time n := Date_now env (clockReads w + n) in
  (map_get key (cache w) = None -> getFromCache env key w = (Ok None, w)) /\
  (forall e, map_get key (cache w) = Some e ->
     (time 0%nat - timestamp e > ttl e)%Z ->
     fst (getFromCache env key w) = Ok None /\
     cache (snd (getFromCache env key w)) = map_delete key (cache w) /\
     map_get key (cache (snd (getFromCache env key w))) = None) /\
  (forall e, map_get key (cache w) = Some e ->
     (time 0%nat - timestamp e <= ttl e)%Z ->
     fst (getFromCache env key w) = Ok (Some (result e)) /\
     map_get key (cache (snd (getFromCache env key w))) =
       Some (mkEntry (result e) (timestamp e) (ttl e) (time 1%nat)) /\
     forall k, k <> key ->
       map_get k (cache (snd (getFromCache env key w))) = map_get k (cache w)) /\
  (forall r t, cache_ok (cache w) -> (maxCacheSize <= List.length (cache w))%nat ->
     let entry := mkEntry r (time 0%nat) (match t with Some t => t | None => 3600000%Z end)
                    (time 1%nat) in
     let evicted := firstn toRemove (sort_by_lastAccessed (cache w)) in
     let kept := evict_oldest (cache w) in
     setCache env key r t w =
       (Ok tt, with_clockReads (with_cache w (map_set key entry kept)) (clockReads w + 2)) /\
     Permutation (cache w) (evicted ++ kept) /\
     List.length evicted = 200%nat /\
     (5 * List.length evicted = List.length (cache w))%nat /\
     (forall e e', In e evicted -> In e' kept ->
                   (lastAccessed (snd e) <= lastAccessed (snd e'))%Z)) /\
  (forall r t, (List.length (cache w) < maxCacheSize)%nat ->
     let entry := mkEntry r (time 0%nat) (match t with Some t => t | None => 3600000%Z end)
                    (time 1%nat) in
     setCache env key r t w =
       (Ok tt, with_clockReads (with_cache w (map_set key entry (cache w)))
                 (clockReads w + 2))) /\
  (forall r, exists e,
     map_get key (cache (snd (setCache env key r None w))) = Some e /\
     result e = r /\ ttl e = (3600 * 1000)%Z) /\
  (cache_ok (cache w) ->
   cache_ok (cache (snd (getFromCache env key w))) /\
   forall r t, cache_ok (cache (snd (setCache env key r t w)))).
Proof.
  intros time.
  assert (time 0%nat = Date_now env (clockReads w)) as T0
    by (unfold time; now rewrite Nat.add_0_r).
  assert (time 1%nat = Date_now env (S (clockReads w))) as T1
    by (unfold time; now rewrite Nat.add_1_r).
  assert (clockReads w + 2 = S (S (clockReads w)))%nat as T2 by lia.
  split; [|split; [|split; [|split; [|split; [|split]]]]].
  - intros H. unfold getFromCache. run. now rewrite H.
  - intros e He Hexp. rewrite T0 in Hexp.
    unfold getFromCache. run. rewrite He. run.
    assert ((Date_now env (clockReads w) - timestamp e >? ttl e)%Z = true) as ->
      by (rewrite Z.gtb_ltb; apply Z.ltb_lt; lia).
    run. repeat split. apply map_get_delete_same.
  - intros e He Hfresh. rewrite T0 in Hfresh. rewrite T1.
    unfold getFromCache. run. rewrite He. run.
    assert ((Date_now env (clockReads w) - timestamp e >? ttl e)%Z = false) as ->
      by (rewrite Z.gtb_ltb; apply Z.ltb_ge; lia).
    run. repeat split.
    + apply map_get_set_same.
    + intros k Hk. now apply map_get_set_other.
  - intros r t [Hnd Hlen] Hfull entry evicted kept.
    destruct (evict_oldest_split (cache w) Hnd) as (Hsplit & _ & Holdest).
    assert (List.length evicted = 200%nat) as Hev.
    { unfold evicted. rewrite length_firstn, toRemove_value.
      rewrite (Permutation_length (sort_by_lastAccessed_perm (cache w))).
      unfold maxCacheSize in Hfull. lia. }
    split; [|split; [exact Hsplit | split; [exact Hev | split]]].
    + unfold setCache. run.
      apply Nat.leb_le in Hfull. rewrite Hfull. run.
      unfold entry. rewrite T0, T1, T2. reflexivity.
    + rewrite Hev. unfold maxCacheSize in *. lia.
    + intros e e' He He'. exact (Holdest e e' He He').
  - intros r t Hlt entry.
    unfold setCache. run.
    apply Nat.leb_gt in Hlt. rewrite Hlt. run.
    unfold entry. rewrite T0, T1, T2. reflexivity.
  - intros r. eexists. split; [|split].
    + unfold setCache. run.
      destruct (maxCacheSize <=? List.length (cache w))%nat; run;
        apply map_get_set_same.
    + reflexivity.
    + reflexivity.
  - intros Hok. split; [now apply getFromCache_cache_ok|].
    intros r t. now apply setCache_cache_ok.
Qed.

Lemma NoDup_by_nodup (l : list string) : nodup string_dec l = l -> NoDup l.
Proof. intros <-. apply NoDup_nodup. Qed.

(** A miss, an expired entry, a hit, an eviction from a full cache and a
    write below the maximum. *)
Lemma cache_get_set_witness :
  let env := Sample.collaborators Sample.provider_echo Sample.track_ok in
  let full := with_cache initialWorld Sample.full_cache in
  let small := with_cache initialWorld Sample.small_cache in
  let late := with_clockReads small 2 in
  getFromCache env "absent" small = (Ok None, small) /\
  fst (getFromCache env "k" late) = Ok None /\
  fst (getFromCache env "k" small) = Ok (Some (Sample.response "cached")) /\
  List.length (firstn toRemove (sort_by_lastAccessed (cache full))) = 200%nat /\
  fst (setCache env "k" (Sample.response "new") (Some 10%Z) small) = Ok tt /\
  cache_ok (cache (snd (getFromCache env "k" small))).
Proof.
  intros env full small late.

  destruct (cache_get_set env "absent" small) as (Hmiss & _).
  destruct (cache_get_set env "k" late) as (_ & Hexpired & _).
  destruct (cache_get_set env "k" small) as (_ & _ & Hhit & _ & Hset & _ & Hok).
  destruct (cache_get_set env "fresh" full) as (_ & _ & _ & Hevict & _).
  split; [|split; [|split; [|split; [|split]]]].
  - apply Hmiss. reflexivity.
  - apply (Hexpired (mkEntry (Sample.response "cached") 0 1500 0)).
    + reflexivity.
    + vm_compute. reflexivity.
  - apply (Hhit (mkEntry (Sample.response "cached") 0 1500 0)).
    + reflexivity.
    + vm_compute. discriminate.
  - assert (cache_ok (cache full)) as Hfull.
    { split.
      - apply NoDup_by_nodup. vm_compute. reflexivity.
      - apply Nat.leb_le. vm_compute. reflexivity. }
    assert (maxCacheSize <= List.length (cache full))%nat as Hsize.
    { apply Nat.leb_le. vm_compute. reflexivity. }
    destruct (Hevict (Sample.response "new") None Hfull Hsize) as (_ & _ & Hlen & _).
    exact Hlen.
  - rewrite (Hset (Sample.response "new") (Some 10%Z)).
    + reflexivity.
    + apply Nat.ltb_lt. vm_compute. reflexivity.
  - apply Hok. split.
    + apply NoDup_by_nodup. vm_compute. reflexivity.
    + apply Nat.leb_le. vm_compute. reflexivity.
Defined.

(** ** Circuit breaker *)

Lemma trackRun_never_throws env gen cfg data w :
  fst (trackRun env gen cfg data w) = Ok tt.
Proof.
  unfold trackRun. destruct (instant_mode gen cfg); [reflexivity|].
  unfold isApiDown, recordApiFailure, resetApiFailures. run.
  destruct (_ && _); run; [reflexivity|].
  destruct (fetch_track env (fetchLog w) data); reflexivity.
Qed.

(** C8. A tracking attempt made while the breaker is open (five or more
    failures counted, the last one less than 60000 ms ago) does not call the
    tracking sink, changes neither counter nor stamp, and returns normally;
    no tracking attempt ever throws. An attempt made while the breaker is
    not open calls the sink once; a success sets the failure count to zero, a
    failure (a response that is not ok, or a rejected request) adds one to
    the count and stamps the time read at the failure. So attempts reach the
    sink again once 60000 ms have passed since the last failure, or once the
    count is back at zero. (In the second generation all of this is under
    the condition that an API key is configured; without one no attempt
    calls the sink.) *)
Theorem circuit_breaker (env : Collaborators) (gen : Generation) (cfg : CostLensConfig)
    (data : TrackRunData) (w : World) :
  let w' := snd (trackRun env gen cfg data w) in
  let answer := fetch_track env (fetchLog w) data in
  fst (trackRun env gen cfg data w) = Ok tt /\
  (breaker_open env w = true ->
   fetchLog w' = fetchLog w /\
   apiFailureCount w' = apiFailureCount w /\
   lastApiFailure w' = lastApiFailure w) /\
  (breaker_open env w = false -> instant_mode gen cfg = false ->
   fetchLog w' = (fetchLog w ++ [ReqTrackRun data])%list /\
   (forall body, answer = FetchOk body ->
      apiFailureCount w' = 0%Z /\ lastApiFailure w' = lastApiFailure w) /\
   ((exists status, answer = FetchNotOk status) \/ (exists e, answer = FetchError e) ->
    apiFailureCount w' = (apiFailureCount w + 1)%Z /\
    lastApiFailure w' = Date_now env (S (clockReads w)))) /\
  ((apiFailureCount w < 5)%Z \/
   (60000 <= Date_now env (clockReads w) - lastApiFailure w)%Z ->
   breaker_open env w = false) /\
  (breaker_open env w = true <->
   (5 <= apiFailureCount w)%Z /\
   (Date_now env (clockReads w) - lastApiFailure w < 60000)%Z).
Proof.
  intros w' answer.
  split; [apply trackRun_never_throws|].
  assert (breaker_open env w = true <->
          (5 <= apiFailureCount w)%Z /\
          (Date_now env (clockReads w) - lastApiFailure w < 60000)%Z) as Hopen_iff.
  { unfold breaker_open. rewrite andb_true_iff, Z.geb_le, Z.ltb_lt. tauto. }
  cut ((breaker_open env w = true ->
        fetchLog w' = fetchLog w /\
        apiFailureCount w' = apiFailureCount w /\
        lastApiFailure w' = lastApiFailure w) /\
       (breaker_open env w = false -> instant_mode gen cfg = false ->
        fetchLog w' = (fetchLog w ++ [ReqTrackRun data])%list /\
        (forall body, answer = FetchOk body ->
           apiFailureCount w' = 0%Z /\ lastApiFailure w' = lastApiFailure w) /\
        ((exists status, answer = FetchNotOk status) \/ (exists e, answer = FetchError e) ->
         apiFailureCount w' = (apiFailureCount w + 1)%Z /\
         lastApiFailure w' = Date_now env (S (clockReads w)))) /\
       ((apiFailureCount w < 5)%Z \/
        (60000 <= Date_now env (clockReads w) - lastApiFailure w)%Z ->
        breaker_open env w = false)).
  { intros (H1 & H2 & H3).
    split; [exact H1 | split; [exact H2 | split; [exact H3 | exact Hopen_iff]]]. }
  clear Hopen_iff.
  unfold w', trackRun, breaker_open.
  destruct (instant_mode gen cfg) eqn:Hoff.
  - split; [intros _; repeat split|].
    split; [intros _ [=]|].
    intros [H|H]; apply andb_false_iff; [left | right]; lia.
  - unfold isApiDown, recordApiFailure, resetApiFailures. run.
    unfold circuitBreakerThreshold, circuitBreakerTimeout.
    split; [|split].
    + intros ->. run. repeat split.
    + intros -> _. run. fold answer.
      destruct answer as [body|status|e]; run.
      * split; [reflexivity|]. split; [intros; split; reflexivity|].
        intros [[? [=]]|[? [=]]].
      * split; [reflexivity|]. split; [intros ? [=]|].
        intros _. split; reflexivity.
      * split; [reflexivity|]. split; [intros ? [=]|].
        intros _. split; reflexivity.
    + intros [H|H]; apply andb_false_iff; [left | right]; lia.
Qed.

(** A sink that always fails, a clock one second further at every reading:
    after five failed attempts the breaker is open, the next 59 attempts do
    not reach the sink, the one after them does and fails for the sixth
    time; a count back at zero closes the breaker at once. *)
Lemma circuit_breaker_witness :
  let env := Sample.collaborators Sample.provider_echo (Sample.track_fails 500) in
  let cfg := defaultConfig "key" in
  let after n := Sample.track_repeatedly env SecondGeneration cfg n initialWorld in
  let attempt w := snd (trackRun env SecondGeneration cfg Sample.run_data w) in
  List.length (fetchLog (after 5)) = 5%nat /\
  fetchLog (attempt (after 5)) = fetchLog (after 5) /\
  List.length (fetchLog (after 64)) = 5%nat /\
  fetchLog (attempt (after 64)) = (fetchLog (after 64) ++ [ReqTrackRun Sample.run_data])%list /\
  apiFailureCount (attempt (after 64)) = 6%Z /\
  breaker_open env (with_failures (after 5) 0 9000) = false.
Proof.
  intros env cfg after attempt.
  destruct (circuit_breaker env SecondGeneration cfg Sample.run_data (after 5))
    as (_ & Hopen & _).
  destruct (circuit_breaker env SecondGeneration cfg Sample.run_data (after 64))
    as (_ & _ & Hclosed & _).
  destruct (circuit_breaker env SecondGeneration cfg Sample.run_data
              (with_failures (after 5) 0 9000)) as (_ & _ & _ & Hreset & _).
  assert (breaker_open env (after 5) = true) as H5 by (vm_compute; reflexivity).
  assert (breaker_open env (after 64) = false) as H64 by (vm_compute; reflexivity).
  assert (instant_mode SecondGeneration cfg = false) as Hon by (vm_compute; reflexivity).
  destruct (Hclosed H64 Hon) as (Hlog & _ & Hfail).
  split; [vm_compute; reflexivity|].
  split; [apply Hopen; exact H5|].
  split; [vm_compute; reflexivity|].
  split; [exact Hlog|].
  split.
  - destruct Hfail as [Hcount _]; [left; exists 500%Z; reflexivity|].
    unfold attempt. rewrite Hcount. vm_compute. reflexivity.
  - apply Hreset. left. vm_compute. reflexivity.
Defined.

(** C9 fails on the code. The tracking sink answers 401 to every request;
    two tracking attempts are made one after the other on a fresh instance
    with an API key. The second attempt calls the sink again: a 401 is
    counted as one more failure of the circuit breaker and nothing else. *)
Theorem tracking_not_disabled_by_401 (gen : Generation) :
  let env := Sample.collaborators Sample.provider_echo (Sample.track_fails 401) in
  let cfg := defaultConfig "key" in
  let w1 := snd (trackRun env gen cfg Sample.run_data initialWorld) in
  let w2 := snd (trackRun env gen cfg Sample.run_data w1) in
  fetchLog w1 = [ReqTrackRun Sample.run_data] /\
  fetchLog w2 = [ReqTrackRun Sample.run_data; ReqTrackRun Sample.run_data] /\
  apiFailureCount w2 = 2%Z.
Proof. destruct gen; vm_compute; repeat split. Qed.

(** ** Retry *)

Lemma after_calls_none p w : after_calls p w 0 [] = w.
Proof. destruct w. unfold after_calls. cbn. now rewrite !app_nil_r. Qed.

Lemma backoff_delays_from_S i k :
  backoff_delays_from i (S k) =
  ((2 ^ Z.of_nat i * 1000)%Z :: backoff_delays_from (S i) k).
Proof.
  unfold backoff_delays_from. cbn [seq map]. rewrite Nat.add_0_r. f_equal.
  rewrite <- seq_shift, map_map. apply map_ext. intros j.
  now rewrite Nat.add_succ_r.
Qed.

Lemma after_calls_step p w i k :
  after_calls p
    (with_sleeps (with_providerLog w (providerLog w ++ [p]))
       (sleeps w ++ [(2 ^ Z.of_nat i * 1000)%Z]))
    k (backoff_delays_from (S i) k) =
  after_calls p w (S k) (backoff_delays_from i (S k)).
Proof.
  unfold after_calls. run_world. rewrite backoff_delays_from_S.
  rewrite <- !app_assoc. reflexivity.
Qed.

Section RetryLemmas.

Variable env : Collaborators.
Variable p : Params.
Variable retries : nat.

Lemma retry_loop_unfold (i todo : nat) (lastError : JsError) (w : World) :
  retry_loop (providerCall env p) retries i (S todo) lastError w =
  match provider_create env (providerLog w) p with
  | Ok r => (Ok r, with_providerLog w (providerLog w ++ [p]))
  | Throw error =>
      if is_client_error error
      then (Throw error, with_providerLog w (providerLog w ++ [p]))
      else if (i =? retries - 1)%nat
      then (Throw error, with_providerLog w (providerLog w ++ [p]))
      else retry_loop (providerCall env p) retries (S i) todo error
             (with_sleeps (with_providerLog w (providerLog w ++ [p]))
                (sleeps w ++ [(2 ^ Z.of_nat i * 1000)%Z]))
  end.
Proof.
  cbn [retry_loop]. run.
  destruct (provider_create env (providerLog w) p) as [r|error]; [reflexivity|].
  destruct (is_client_error error); [reflexivity|].
  destruct (i =? retries - 1)%nat; reflexivity.
Qed.

(** Failed attempts that are neither client errors nor the last one are
    followed by a delay and the next attempt. *)
Lemma retry_loop_skip (k : nat) :
  forall (i todo : nat) (lastError : JsError) (w : World),
    (forall j, (j < k)%nat ->
       exists e, attempt_outcome env p w j = Throw e /\ is_client_error e = false) ->
    (k < todo)%nat -> (i + todo = retries)%nat ->
    exists lastError',
      retry_loop (providerCall env p) retries i todo lastError w =
      retry_loop (providerCall env p) retries (i + k) (todo - k) lastError'
        (after_calls p w k (backoff_delays_from i k)).
Proof.
  induction k as [|k IH]; intros i todo lastError w Hfail Hk Hi.
  - exists lastError. rewrite Nat.add_0_r, Nat.sub_0_r.
    unfold backoff_delays_from. cbn [seq map]. now rewrite after_calls_none.
  - destruct todo as [|todo]; [lia|].
    rewrite retry_loop_unfold.
    destruct (Hfail 0%nat) as (e & He & Hclient); [lia|].
    unfold attempt_outcome in He. cbn [repeat] in He. rewrite app_nil_r in He.
    rewrite He, Hclient.
    assert ((i =? retries - 1)%nat = false) as -> by (apply Nat.eqb_neq; lia).
    set (w1 := with_sleeps _ _).
    destruct (IH (S i) todo e w1) as [lastError' E]; [|lia|lia|].
    + intros j Hj. destruct (Hfail (S j)) as (e' & He' & Hc'); [lia|].
      exists e'. split; [|exact Hc'].
      unfold attempt_outcome in *. unfold w1. run_world.
      rewrite <- app_assoc. exact He'.
    + exists lastError'. rewrite E. unfold w1. rewrite after_calls_step.
      replace (S i + k)%nat with (i + S k)%nat by lia.
      replace (S todo - S k)%nat with (todo - k)%nat by lia. reflexivity.
Qed.

Lemma after_calls_one_more (w : World) (k : nat) (delays : list Z) :
  with_providerLog (after_calls p w k delays)
    (providerLog (after_calls p w k delays) ++ [p]) =
  after_calls p w (S k) delays.
Proof.
  unfold after_calls. run_world. f_equal. rewrite <- app_assoc. f_equal.
  replace (S k) with (k + 1)%nat by lia. now rewrite repeat_app.
Qed.

(** How a run of [retryWithBackoff] ends at attempt [k]. *)
Lemma retryWithBackoff_ends (k : nat) (w : World) :
  (k < retries)%nat ->
  (forall j, (j < k)%nat ->
     exists e, attempt_outcome env p w j = Throw e /\ is_client_error e = false) ->
  match attempt_outcome env p w k with
  | Ok r =>
      retryWithBackoff (providerCall env p) retries w =
      (Ok r, after_calls p w (S k) (backoff_delays k))
  | Throw e =>
      is_client_error e = true \/ k = (retries - 1)%nat ->
      retryWithBackoff (providerCall env p) retries w =
      (Throw e, after_calls p w (S k) (backoff_delays k))
  end.
Proof.
  intros Hk Hfail. unfold retryWithBackoff.
  destruct (retry_loop_skip k 0 retries JsUndefined w Hfail Hk eq_refl) as [lastError' E].
  rewrite E. clear E. cbn [Nat.add].
  destruct (retries - k)%nat as [|todo] eqn:Htodo; [lia|].
  rewrite retry_loop_unfold. fold (backoff_delays k).
  assert (provider_create env (providerLog (after_calls p w k (backoff_delays k))) p =
          attempt_outcome env p w k) as -> by reflexivity.
  destruct (attempt_outcome env p w k) as [r|e].
  - now rewrite after_calls_one_more.
  - intros [Hclient|Hlast].
    + rewrite Hclient. now rewrite after_calls_one_more.
    + destruct (is_client_error e); [now rewrite after_calls_one_more|].
      assert ((k =? retries - 1)%nat = true) as -> by (apply Nat.eqb_eq; lia).
      now rewrite after_calls_one_more.
Qed.

(** No run makes more attempts than there are iterations left. *)
Lemma retry_loop_bound (todo : nat) :
  forall (i : nat) (lastError : JsError) (w : World),
    (List.length (providerLog
       (snd (retry_loop (providerCall env p) retries i todo lastError w))) <=
     List.length (providerLog w) + todo)%nat.
Proof.
  induction todo as [|todo IH]; intros i lastError w.
  - cbn. lia.
  - rewrite retry_loop_unfold.
    destruct (provider_create env (providerLog w) p) as [r|error].
    + run_world. rewrite length_app. simpl. lia.
    + destruct (is_client_error error); [run_world; rewrite length_app; simpl; lia|].
      destruct (i =? retries - 1)%nat; [run_world; rewrite length_app; simpl; lia|].
      etransitivity; [apply IH|]. run_world. rewrite length_app. simpl. lia.
Qed.

End RetryLemmas.

(** C3. [retryWithBackoff(operation, maxAttempts)], the operation being a
    provider call: it never makes more than maxAttempts attempts, and
    maxAttempts is 3 unless configured otherwise. Let attempt k (counted
    from 0, k < maxAttempts) be reached because every attempt before it
    failed with an error that is not a client error. If attempt k succeeds,
    its value is the result. If it fails with a status in [400, 500), or if
    it is the last attempt, its error is rethrown. In each case exactly
    k + 1 attempts were made and the delays awaited are 2^0, 2^1, ...,
    2^(k-1) seconds, one after each earlier attempt. In particular, with at
    least two attempts allowed, an operation that rejects once with status
    500 and then succeeds is attempted exactly twice, after a delay of one
    second, and the success value is the result. *)
Theorem retryWithBackoff_attempts (env : Collaborators) (p : Params) (retries : nat)
    (w : World) :
  let operation := providerCall env p in
  let outcome := attempt_outcome env p w in
  let ended k := after_calls p w (S k) (backoff_delays k) in
  (List.length (providerLog (snd (retryWithBackoff operation retries w))) <=
   List.length (providerLog w) + retries)%nat /\
  (forall key, default_retries (defaultConfig key) = 3%nat) /\
  (forall k, (k < retries)%nat ->
     (forall j, (j < k)%nat ->
        exists e, outcome j = Throw e /\ is_client_error e = false) ->
     (forall r, outcome k = Ok r ->
        retryWithBackoff operation retries w = (Ok r, ended k)) /\
     (forall e, outcome k = Throw e ->
        is_client_error e = true \/ k = (retries - 1)%nat ->
        retryWithBackoff operation retries w = (Throw e, ended k)) /\
     providerLog (ended k) = (providerLog w ++ repeat p (S k))%list /\
     sleeps (ended k) =
       (sleeps w ++ map (fun j => (2 ^ Z.of_nat j * 1000)%Z) (seq 0 k))%list) /\
  (forall e, is_client_error e = true <->
             exists status, error_status e = Some status /\ (400 <= status < 500)%Z) /\
  (forall message r, (2 <= retries)%nat ->
     outcome 0%nat = Throw (JsErrorObject (Some 500%Z) message) ->
     outcome 1%nat = Ok r ->
     retryWithBackoff operation retries w = (Ok r, ended 1%nat) /\
     providerLog (ended 1%nat) = (providerLog w ++ [p; p])%list /\
     sleeps (ended 1%nat) = (sleeps w ++ [1000%Z])%list).
Proof.
  intros operation outcome ended.
  split; [apply retry_loop_bound|].
  split; [reflexivity|].
  split; [|split].
  - intros k Hk Hfail.
    pose proof (retryWithBackoff_ends env p retries k w Hk Hfail) as H.
    fold outcome in H. fold (ended k) in H.
    split; [|split; [|split]].
    + intros r E. now rewrite E in H.
    + intros e E Hend. rewrite E in H. now apply H.
    + reflexivity.
    + reflexivity.
  - intros e. unfold is_client_error. destruct (error_status e) as [status|].
    + rewrite andb_true_iff, Z.leb_le, Z.ltb_lt. split.
      * intros H. exists status. split; [reflexivity | lia].
      * intros (s & [= <-] & H). lia.
    + split; [discriminate | intros (s & [=] & _)].
  - intros message r Hretries H0 H1.
    pose proof (retryWithBackoff_ends env p retries 1 w) as H.
    fold outcome in H. rewrite H1 in H. split; [|split; reflexivity].
    apply H; [lia|].
    intros j Hj. assert (j = 0%nat) as -> by lia.
    eexists. split; [exact H0 | reflexivity].
Qed.

(** The provider rejects once with status 500 and then succeeds: two
    attempts, one second of delay, the success value. *)
Lemma retryWithBackoff_attempts_witness :
  let env := Sample.collaborators Sample.provider_fails_once Sample.track_ok in
  let p := mkParams "gpt-4" [] None None in
  let w' := snd (retryWithBackoff (providerCall env p) 3 initialWorld) in
  fst (retryWithBackoff (providerCall env p) 3 initialWorld) = Ok (Sample.response "success") /\
  providerLog w' = [p; p] /\
  sleeps w' = [1000%Z].
Proof.
  intros env p w'.
  destruct (retryWithBackoff_attempts env p 3 initialWorld) as (_ & _ & _ & _ & H).
  destruct (H None (Sample.response "success")) as (E & Hlog & Hsleeps).
  - lia.
  - reflexivity.
  - reflexivity.
  - unfold w'. rewrite E. repeat split.
Defined.

(** ** The wrappers *)

(** C2 fails on the code of [wrapAnthropic]. The provider rejects every call
    with [{status: 400}]; [create] is called on a fresh instance, default
    configuration, for 'claude-3-opus' and one short message. The wrapper
    makes four provider attempts, the routed model and then each model of
    its fallback chain, before it rejects with the error. [wrapOpenAI] on the
    same provider makes one attempt. *)
Theorem anthropic_falls_back_on_400 (gen : Generation) :
  let env := Sample.collaborators (Sample.provider_rejects always_400) Sample.track_ok in
  let cfg := defaultConfig "key" in
  let params := mkParams "claude-3-opus" [mkMessage "user" "Hi"] None None in
  let anthropic := anthropic_create env gen cfg params noOptions initialWorld in
  let openai := openai_create env gen cfg params noOptions initialWorld in
  fst anthropic = Throw always_400 /\
  map model (providerLog (snd anthropic)) =
    ["claude-3-haiku"; "gpt-3.5-turbo"; "gemini-1.5-flash"; "claude-3-sonnet"] /\
  fst openai = Throw always_400 /\
  map model (providerLog (snd openai)) = ["claude-3-haiku"].
Proof. destruct gen; vm_compute; repeat split. Qed.

Lemma keeps_ret {A : Type} (a : A) : keeps_log (ret a).
Proof. intros w. reflexivity. Qed.

Lemma keeps_throw {A : Type} (e : JsError) : keeps_log (@throw A e).
Proof. intros w. reflexivity. Qed.

Lemma keeps_lift {A : Type} (r : Result A) : keeps_log (lift r).
Proof. intros w. reflexivity. Qed.

Lemma keeps_gets {A : Type} (f : World -> A) : keeps_log (gets f).
Proof. intros w. reflexivity. Qed.

Lemma keeps_modify (f : World -> World) :
  (forall w, providerLog (f w) = providerLog w) -> keeps_log (modify f).
Proof. intros H w. apply H. Qed.

Lemma keeps_bind {A B : Type} (m : M A) (k : A -> M B) :
  keeps_log m -> (forall a, keeps_log (k a)) -> keeps_log (bind m k).
Proof.
  intros Hm Hk w. unfold bind. specialize (Hm w).
  destruct (m w) as [[a|e] w1]; cbn [snd] in *; [|exact Hm].
  now rewrite Hk.
Qed.

Lemma keeps_now env : keeps_log (now env).
Proof. intros w. reflexivity. Qed.

Lemma keeps_fetch {A : Type} req (answer : list FetchReq -> FetchOutcome A) :
  keeps_log (fetch req answer).
Proof. intros w. reflexivity. Qed.

Ltac keeps :=
  repeat first
    [ apply keeps_ret | apply keeps_throw | apply keeps_lift | apply keeps_gets
    | apply keeps_now | apply keeps_fetch
    | apply keeps_modify; intros ?; reflexivity
    | apply keeps_bind; [|intros ?]
    | match goal with
      | |- keeps_log (if ?b then _ else _) => destruct b
      | |- keeps_log (match ?x with _ => _ end) => destruct x
      end ].

Lemma keeps_getFromCache env key : keeps_log (getFromCache env key).
Proof. unfold getFromCache. keeps. Qed.

Lemma keeps_setCache env key r ttl : keeps_log (setCache env key r ttl).
Proof. unfold setCache. keeps. Qed.

Lemma keeps_trackRun env gen cfg data : keeps_log (trackRun env gen cfg data).
Proof. unfold trackRun, isApiDown, recordApiFailure, resetApiFailures. keeps. Qed.

Lemma keeps_trackError env gen cfg provider model input error latency :
  keeps_log (trackError env gen cfg provider model input error latency).
Proof. unfold trackError. keeps. apply keeps_trackRun. Qed.

Lemma keeps_optimizeMessages env ms : keeps_log (optimizeMessages env ms).
Proof.
  induction ms as [|m ms IH]; cbn [optimizeMessages]; [apply keeps_ret|].
  apply keeps_bind; [|intros c; apply keeps_bind; [exact IH | intros ?; apply keeps_ret]].
  unfold optimizePromptContent. keeps.
Qed.

Lemma keeps_costCheck cfg params options : keeps_log (costCheck cfg params options).
Proof. unfold costCheck. keeps. Qed.

Lemma keeps_openai_admit env cfg params options :
  keeps_log (openai_admit env cfg params options).
Proof.
  unfold openai_admit.
  apply keeps_bind; [destruct (autoOptimize cfg); keeps; apply keeps_optimizeMessages|].
  intros p0. apply keeps_bind.
  { unfold checkRoutingEnabled. keeps.
    apply keeps_modify. intros w0. now destruct (routingDisabledLogged w0). }
  intros p1. apply keeps_bind; [apply keeps_costCheck|]. intros _.
  apply keeps_bind.
  { destruct (_ || _); [apply keeps_getFromCache | apply keeps_ret]. }
  intros localCached. destruct localCached; [apply keeps_ret|]. keeps.
Qed.

Lemma client_error_no_fallback (e : JsError) :
  is_client_error e = true -> shouldTryFallback e = false.
Proof.
  unfold is_client_error, shouldTryFallback. destruct (error_status e) as [s|]; [|discriminate].
  rewrite andb_true_iff, Z.leb_le, Z.ltb_lt. intros [H1 H2].
  apply orb_false_iff. split.
  - apply negb_false_iff. unfold Ztruthy. apply negb_true_iff. apply Z.eqb_neq. lia.
  - apply Z.leb_gt. lia.
Qed.

Lemma client_error_message (e : JsError) :
  is_client_error e = true -> exists message, error_message e = Ok message.
Proof.
  destruct e as [|status message|]; try discriminate. intros _. now exists message.
Qed.

Lemma default_retries_pos cfg : (0 < default_retries cfg)%nat.
Proof.
  unfold default_retries. destruct (maxRetries cfg =? 0)%nat eqn:E; [lia|].
  apply Nat.eqb_neq in E. lia.
Qed.

(** A client error on the first attempt ends the call phase of
    [wrapOpenAI]: one attempt, no retry, no fallback model. *)
Lemma openai_call_client_error env cfg params fallbackModels w e :
  provider_create env (providerLog w) params = Throw e ->
  is_client_error e = true ->
  openai_call env cfg params fallbackModels w =
  (Ok (mkCallState None (model params) e),
   with_providerLog w (providerLog w ++ [params])).
Proof.
  intros He Hclient. unfold openai_call, try_catch, bind.
  pose proof (default_retries_pos cfg) as Hpos.
  pose proof (retryWithBackoff_ends env params (default_retries cfg) 0 w Hpos) as H.
  unfold attempt_outcome in H. cbn [repeat] in H. rewrite app_nil_r, He in H.
  rewrite H; [|intros j Hj; lia | now left].
  rewrite (client_error_no_fallback e Hclient), !andb_false_r.
  unfold after_calls, backoff_delays, backoff_delays_from. cbn [seq map repeat]. run.
  destruct w. cbn. now rewrite app_nil_r.
Qed.

(** [wrapOpenAI] against a provider that rejects every call with the same
    client error: when the call is neither stopped by the cost limit nor
    served from a cache, exactly one provider attempt is made and [create]
    rejects with that error; otherwise no attempt is made. *)
Lemma openai_no_retry_on_client_error env gen cfg params options w e :
  (forall log p, provider_create env log p = Throw e) ->
  is_client_error e = true ->
  let outcome := openai_create env gen cfg params options w in
  match openai_admit env cfg params options w with
  | (Ok (Proceed routed), _) =>
      fst outcome = Throw e /\
      providerLog (snd outcome) =
        (providerLog w ++ [runMiddleware_before cfg routed])%list
  | _ => providerLog (snd outcome) = providerLog w
  end.
Proof.
  intros Hprov Hclient outcome. unfold outcome, openai_create, bind.
  pose proof (keeps_openai_admit env cfg params options w) as Hadmit.
  destruct (openai_admit env cfg params options w) as [[[cached|routed]|e'] w1];
    cbn [snd] in Hadmit; [exact Hadmit | | exact Hadmit].
  unfold openai_dispatch, bind, now. run_world.
  rewrite (openai_call_client_error env cfg _ _ _ e (Hprov _ _) Hclient).
  cbn [call_result call_lastError]. unfold openai_fail, bind, now, ret. run_world.
  destruct (client_error_message e Hclient) as [message Hmsg].
  unfold trackError, bind, lift. rewrite Hmsg.
  match goal with
  | |- context [trackRun env gen cfg ?d ?w0] =>
      pose proof (trackRun_never_throws env gen cfg d w0) as Hok;
      pose proof (keeps_trackRun env gen cfg d w0) as Hkeep;
      destruct (trackRun env gen cfg d w0) as [[[]|e''] w2]
  end; cbn [fst snd] in *; [|discriminate].
  unfold throw. cbn [fst snd]. split; [reflexivity|].
  rewrite Hkeep. run_world. now rewrite Hadmit.
Qed.

(** A success on the first attempt ends the call phase of [wrapOpenAI]
    with the primary model as the model used. *)
Lemma openai_call_first_success env cfg params fallbackModels w r :
  provider_create env (providerLog w) params = Ok r ->
  openai_call env cfg params fallbackModels w =
  (Ok (mkCallState (Some r) (model params) JsUndefined),
   with_providerLog w (providerLog w ++ [params])).
Proof.
  intros Hr. unfold openai_call, try_catch, bind.
  pose proof (default_retries_pos cfg) as Hpos.
  pose proof (retryWithBackoff_ends env params (default_retries cfg) 0 w Hpos) as H.
  unfold attempt_outcome in H. cbn [repeat] in H. rewrite app_nil_r, Hr in H.
  rewrite H; [|intros j Hj; lia].
  unfold after_calls, backoff_delays, backoff_delays_from. cbn [seq map repeat]. run.
  destruct w. cbn. now rewrite app_nil_r.
Qed.

(** C1 (as amended). [wrapOpenAI(client).chat.completions.create]: when the
    call reaches the provider, the call phase (primary model with retries,
    then fallback models) ends with a response from a model other than the
    requested one, and the quality score of that response (the injected
    validator's when one is configured, the default scorer's otherwise, a
    binary64 number either way) is below 0.7, then the provider is called
    exactly once more, with the same parameters and the originally requested
    model, and [create] returns the result of that call as the after-hooks
    leave it (the result itself when no middleware is configured), or
    rejects as that call rejects; nothing else changes in the state. *)
Theorem quality_gate_fallback (env : Collaborators) (gen : Generation)
    (cfg : CostLensConfig) (params : Params) (options : WrapperOptions) (w : World)
    (routed : Params) (w1 : World) (st : CallState) (w2 : World) (r : Response)
    (score : float) :
  let originalModel := model params in
  let sent := runMiddleware_before cfg routed in
  let again := set_model sent originalModel in
  openai_admit env cfg params options w = (Ok (Proceed routed), w1) ->
  openai_call env cfg sent (fallback_chain cfg sent options)
    (with_clockReads w1 (S (clockReads w1))) = (Ok st, w2) ->
  call_result st = Some r ->
  call_usedModel st <> originalModel ->
  quality_score cfg (response_text (runMiddleware_after cfg r))
    (Json.of_messages (messages sent)) = Ok score ->
  (score <? 0x1.6666666666666p-1)%float = true ->
  openai_create env gen cfg params options w =
    (match provider_create env (providerLog w2) again with
     | Ok second => Ok (runMiddleware_after cfg second)
     | Throw e => Throw e
     end,
     with_providerLog w2 (providerLog w2 ++ [again])) /\
  model again = originalModel /\
  (middleware cfg = [] -> forall second, runMiddleware_after cfg second = second).
Proof.
  intros originalModel sent again Hadmit Hcall Hres Hused Hscore Hlow.
  split; [|split].
  - unfold openai_create, bind. rewrite Hadmit.
    unfold openai_dispatch, bind, now. run_world. fold sent.
    rewrite Hcall, Hres.
    unfold quality_gate, bind, lift.
    assert (negb (model params =? call_usedModel st) = true) as ->.
    { apply negb_true_iff, String.eqb_neq. intros E. apply Hused. now rewrite <- E. }
    rewrite Hscore, Hlow.
    unfold providerCall. fold originalModel. fold again.
    destruct (provider_create env (providerLog w2) again); reflexivity.
  - reflexivity.
  - intros Hnone second. unfold runMiddleware_after. now rewrite Hnone.
Qed.

(** A request for 'gpt-4' with one short message is routed to
    'gpt-3.5-turbo'; the validator scores the answer 0.5; the provider is
    called once more, for 'gpt-4', and that answer is returned. Without a
    validator, the hesitant answer to the question gets 0.6999999999999998
    from the default scorer, and the provider is called once more as
    well. *)
Lemma quality_gate_fallback_witness :
  let env := Sample.collaborators Sample.provider_echo Sample.track_ok in
  let params := mkParams "gpt-4" [mkMessage "user" "Hi"] None None in
  let outcome :=
    openai_create env FirstGeneration Sample.strict_config params noOptions initialWorld in
  let asked := mkParams "gpt-4" [mkMessage "user" Sample.question] None None in
  let scored :=
    openai_create (Sample.collaborators Sample.provider_hesitant Sample.track_ok)
      FirstGeneration (defaultConfig "key") asked noOptions initialWorld in
  (fst outcome = Ok (Sample.response "answer of gpt-4") /\
   map model (providerLog (snd outcome)) = ["gpt-3.5-turbo"; "gpt-4"]) /\
  (fst scored = Ok (Sample.response "second") /\
   map model (providerLog (snd scored)) = ["gpt-3.5-turbo"; "gpt-4"]).
Proof.
  intros env params outcome asked scored. split.
  - edestruct (quality_gate_fallback env FirstGeneration Sample.strict_config params
                 noOptions initialWorld) as (E & _ & _).
    + vm_compute. reflexivity.
    + apply openai_call_first_success. reflexivity.
    + reflexivity.
    + vm_compute. discriminate.
    + reflexivity.
    + vm_compute. reflexivity.
    + unfold outcome. rewrite E. vm_compute. split; reflexivity.
  - edestruct (quality_gate_fallback
                 (Sample.collaborators Sample.provider_hesitant Sample.track_ok)
                 FirstGeneration (defaultConfig "key") asked noOptions initialWorld)
      as (E & _ & _).
    + vm_compute. reflexivity.
    + apply openai_call_first_success. reflexivity.
    + reflexivity.
    + vm_compute. discriminate.
    + reflexivity.
    + vm_compute. reflexivity.
    + unfold scored. rewrite E. vm_compute. split; reflexivity.
Defined.

(** The claim as stated, "return that second result", fails when an
    after-hook is configured: the second result is what the provider
    answers to the call for 'gpt-4', and [create] returns what the hook
    makes of it. *)
Lemma quality_gate_returns_processed_result_counterexample :
  let env := Sample.collaborators Sample.provider_echo Sample.track_ok in
  let cfg := with_middleware Sample.strict_config [Sample.redact] in
  let params := mkParams "gpt-4" [mkMessage "user" "Hi"] None None in
  let outcome := openai_create env FirstGeneration cfg params noOptions initialWorld in
  let second := Sample.response "answer of gpt-4" in
  providerLog (snd outcome) = [set_model params "gpt-3.5-turbo"; params] /\
  provider_create env [set_model params "gpt-3.5-turbo"] params = Ok second /\
  fst outcome = Ok (Sample.response "[redacted]") /\
  fst outcome <> Ok second.
Proof.
  vm_compute. repeat split; discriminate.
Qed.

(** ** Double precision

    The decimal constants of [QualityDetector.estimateComplexity] are 0.2,
    0.3 and 0.4 rounded to binary64; the thresholds of [shouldRoute] are 0.8,
    0.3 and 0.6 rounded likewise. *)

Lemma estimateComplexity_exact_is_model (messages : list Message) :
  QualityDetector.estimateComplexity messages =
  Double.estimateComplexity_exact
    (1000 <? String.length (lowered_text messages))%nat
    (JsString.test_any ["complex"; "advanced"; "detailed"; "comprehensive"]
       (lowered_text messages))
    (JsString.test_any ["analyze"; "evaluate"; "compare"; "critique"]
       (lowered_text messages))
    (JsString.test_any ["simple"; "basic"; "quick"; "easy"] (lowered_text messages)).
Proof. reflexivity. Qed.

(** Whatever the four tests say, the binary64 estimate and the exact one
    fall on the same side of each threshold. *)
Lemma estimateComplexity_rounding_harmless (a b c d : bool) :
  (0x1.999999999999ap-1 <? Double.estimateComplexity a b c d)%float =
    Qlt_bool (8 # 10) (Double.estimateComplexity_exact a b c d) /\
  (Double.estimateComplexity a b c d <? 0x1.3333333333333p-2)%float =
    Qlt_bool (Double.estimateComplexity_exact a b c d) (3 # 10) /\
  (Double.estimateComplexity a b c d <? 0x1.3333333333333p-1)%float =
    Qlt_bool (Double.estimateComplexity_exact a b c d) (6 # 10).
Proof. destruct a, b, c, d; vm_compute; repeat split. Qed.

(** The constants of the scorer and of the gate are the decimal literals of
    the source, rounded once. *)
Lemma literals_are_nearest :
  map Double.of_Q [3 # 10; 2 # 10; 1 # 10; 4 # 10; 6 # 10; 5 # 100; 15 # 100; 8 # 100;
                   7 # 10]%Q =
  [0x1.3333333333333p-2; 0x1.999999999999ap-3; 0x1.999999999999ap-4; 0x1.999999999999ap-2;
   0x1.3333333333333p-1; 0x1.999999999999ap-5; 0x1.3333333333333p-3; 0x1.47ae147ae147bp-4;
   0x1.6666666666666p-1]%float.
Proof. vm_compute. reflexivity. Qed.

(** Rounding does move the default score across the threshold of the
    quality gate: the exact mean of the four metrics of the hesitant answer
    is 7/10, the runtime's is 0.6999999999999998. *)
Lemma default_score_rounds_below_threshold :
  let prompt := Json.of_messages [mkMessage "user" Sample.question] in
  (QualityDetector.qualityScore (QualityDetector.analyzeResponse Sample.hesitant prompt)
   == 7 # 10)%Q /\
  Double.qualityScore Sample.hesitant prompt = 0x1.6666666666665p-1%float /\
  (Double.qualityScore Sample.hesitant prompt <? 0x1.6666666666666p-1)%float = true.
Proof. vm_compute. repeat split. Qed.

(** Rounding moves the cost estimate across a limit as well: for 'gpt-4'
    the exact estimates below are 0.0003 and 0.00048. *)
Lemma estimateCost_rounds_above_limit :
  let hello := [mkMessage "user" "Hello"] in
  let longer := [mkMessage "user" "abcdefghijklmnopqrstu"] in
  (estimateCost "gpt-4" hello == 3 # 10000)%Q /\
  (estimateCost "gpt-4" longer == 48 # 100000)%Q /\
  (Double.of_Q (3 # 10000) <? Binary64.estimateCost "gpt-4" hello)%float = true /\
  (Double.of_Q (48 # 100000) <? Binary64.estimateCost "gpt-4" longer)%float = true /\
  Binary64.estimateTokens hello input_tokens = estimateTokens hello input_tokens /\
  Binary64.estimateTokens hello output_tokens = estimateTokens hello output_tokens.
Proof. vm_compute. repeat split. Qed.

(** ** The cache invariant *)

Lemma cache_ok_ret {A : Type} (a : A) : keeps_cache_ok (ret a).
Proof. intros w H. exact H. Qed.

Lemma cache_ok_throw {A : Type} (e : JsError) : keeps_cache_ok (@throw A e).
Proof. intros w H. exact H. Qed.

Lemma cache_ok_lift {A : Type} (r : Result A) : keeps_cache_ok (lift r).
Proof. intros w H. exact H. Qed.

Lemma cache_ok_gets {A : Type} (f : World -> A) : keeps_cache_ok (gets f).
Proof. intros w H. exact H. Qed.

Lemma cache_ok_modify (f : World -> World) :
  (forall w, cache (f w) = cache w) -> keeps_cache_ok (modify f).
Proof. intros Hf w H. unfold modify. cbn [snd]. now rewrite Hf. Qed.

Lemma cache_ok_bind {A B : Type} (m : M A) (k : A -> M B) :
  keeps_cache_ok m -> (forall a, keeps_cache_ok (k a)) -> keeps_cache_ok (bind m k).
Proof.
  intros Hm Hk w H. unfold bind. specialize (Hm w H).
  destruct (m w) as [[a|e] w1]; cbn [snd] in *; [|exact Hm].
  now apply Hk.
Qed.

Lemma cache_ok_try_catch {A : Type} (m : M A) (handler : JsError -> M A) :
  keeps_cache_ok m -> (forall e, keeps_cache_ok (handler e)) ->
  keeps_cache_ok (try_catch m handler).
Proof.
  intros Hm Hh w H. unfold try_catch. specialize (Hm w H).
  destruct (m w) as [[a|e] w1]; cbn [snd] in *; [exact Hm|].
  now apply Hh.
Qed.

Lemma cache_ok_now env : keeps_cache_ok (now env).
Proof. intros w H. exact H. Qed.

Lemma cache_ok_sleep ms : keeps_cache_ok (sleep ms).
Proof. intros w H. exact H. Qed.

Lemma cache_ok_providerCall env p : keeps_cache_ok (providerCall env p).
Proof. intros w H. exact H. Qed.

Lemma cache_ok_fetch {A : Type} req (answer : list FetchReq -> FetchOutcome A) :
  keeps_cache_ok (fetch req answer).
Proof. intros w H. exact H. Qed.

Lemma cache_ok_getFromCache env key : keeps_cache_ok (getFromCache env key).
Proof. intros w H. now apply getFromCache_cache_ok. Qed.

Lemma cache_ok_setCache env key r ttl : keeps_cache_ok (setCache env key r ttl).
Proof. intros w H. now apply setCache_cache_ok. Qed.

Ltac keeps_cache_step :=
  first
    [ apply cache_ok_ret | apply cache_ok_throw | apply cache_ok_lift | apply cache_ok_gets
    | apply cache_ok_now | apply cache_ok_sleep | apply cache_ok_fetch
    | apply cache_ok_providerCall | apply cache_ok_getFromCache | apply cache_ok_setCache
    | apply cache_ok_modify; intros ?; reflexivity
    | apply cache_ok_bind; [|intros ?]
    | apply cache_ok_try_catch; [|intros ?]
    | match goal with
      | |- keeps_cache_ok (if ?b then _ else _) => destruct b
      | |- keeps_cache_ok (match ?x with _ => _ end) => destruct x
      end ].

Ltac keeps_cache := repeat keeps_cache_step.

Lemma cache_ok_trackRun env gen cfg data : keeps_cache_ok (trackRun env gen cfg data).
Proof. unfold trackRun, isApiDown, recordApiFailure, resetApiFailures. keeps_cache. Qed.

Lemma cache_ok_trackError env gen cfg provider model input error latency :
  keeps_cache_ok (trackError env gen cfg provider model input error latency).
Proof.
  unfold trackError. apply cache_ok_bind; [apply cache_ok_lift|].
  intros message. apply cache_ok_trackRun.
Qed.

Ltac keeps_cache_tracking :=
  repeat first [ apply cache_ok_trackError | apply cache_ok_trackRun | keeps_cache_step ].

Lemma cache_ok_retry_loop {A : Type} (fn : M A) retries todo :
  keeps_cache_ok fn ->
  forall i lastError, keeps_cache_ok (retry_loop fn retries i todo lastError).
Proof.
  intros Hfn. induction todo as [|todo IH]; intros i lastError; cbn [retry_loop].
  - apply cache_ok_throw.
  - apply cache_ok_try_catch; [exact Hfn|]. intros error. keeps_cache. apply IH.
Qed.

Lemma cache_ok_fallback_loop env params models :
  forall st, keeps_cache_ok (fallback_loop env params models st).
Proof.
  induction models as [|m models IH]; intros st; cbn [fallback_loop].
  - apply cache_ok_ret.
  - keeps_cache. apply IH.
Qed.

Lemma cache_ok_openai_call env cfg params fallbackModels :
  keeps_cache_ok (openai_call env cfg params fallbackModels).
Proof.
  unfold openai_call, retryWithBackoff. apply cache_ok_try_catch.
  - apply cache_ok_bind; [|intros ?; apply cache_ok_ret].
    apply cache_ok_retry_loop. apply cache_ok_providerCall.
  - intros error. destruct (_ && _); [apply cache_ok_fallback_loop | apply cache_ok_ret].
Qed.

Lemma cache_ok_optimizeMessages env ms : keeps_cache_ok (optimizeMessages env ms).
Proof.
  induction ms as [|m ms IH]; cbn [optimizeMessages]; [apply cache_ok_ret|].
  apply cache_ok_bind;
    [|intros c; apply cache_ok_bind; [exact IH | intros ?; apply cache_ok_ret]].
  unfold optimizePromptContent. keeps_cache.
Qed.

Lemma cache_ok_openai_admit env cfg params options :
  keeps_cache_ok (openai_admit env cfg params options).
Proof.
  unfold openai_admit.
  apply cache_ok_bind;
    [destruct (autoOptimize cfg); keeps_cache; apply cache_ok_optimizeMessages|].
  intros p0. apply cache_ok_bind.
  { unfold checkRoutingEnabled. keeps_cache.
    apply cache_ok_modify. intros w0. now destruct (routingDisabledLogged w0). }
  intros p1. apply cache_ok_bind; [unfold costCheck; keeps_cache|]. intros _.
  apply cache_ok_bind.
  { destruct (_ || _); [apply cache_ok_getFromCache | apply cache_ok_ret]. }
  intros localCached. destruct localCached; [apply cache_ok_ret|]. keeps_cache.
Qed.

Lemma cache_ok_openai_dispatch env gen cfg originalModel params options :
  keeps_cache_ok (openai_dispatch env gen cfg originalModel params options).
Proof.
  unfold openai_dispatch.
  apply cache_ok_bind; [apply cache_ok_now|]. intros start.
  apply cache_ok_bind; [apply cache_ok_openai_call|]. intros st.
  destruct (call_result st) as [r|].
  - apply cache_ok_bind.
    { unfold quality_gate. keeps_cache. }
    intros gate. destruct gate; [apply cache_ok_ret|].
    apply cache_ok_bind.
    { unfold openai_save. keeps_cache. }
    intros _. apply cache_ok_bind; [|intros _; apply cache_ok_ret].
    unfold openai_track. keeps_cache_tracking.
  - unfold openai_fail. keeps_cache_tracking.
Qed.

Lemma cache_ok_anthropic_loop env gen cfg originalModel params options start modelsToTry todo :
  forall i lastError,
    keeps_cache_ok (anthropic_loop env gen cfg originalModel params options start
                      modelsToTry i todo lastError).
Proof.
  induction todo as [|m todo IH]; intros i lastError; cbn [anthropic_loop].
  - apply cache_ok_throw.
  - apply cache_ok_bind.
    { apply cache_ok_try_catch; [|intros ?; apply cache_ok_ret].
      apply cache_ok_bind; [|intros ?; apply cache_ok_ret].
      apply cache_ok_retry_loop. apply cache_ok_providerCall. }
    intros [r|error].
    + unfold anthropic_succeed. keeps_cache_tracking.
    + destruct (_ =? _)%nat; [|apply IH].
      unfold anthropic_fail. keeps_cache_tracking.
Qed.

(** The cache of an instance never holds a key twice nor more than 1000
    entries: that is so in a fresh instance, and [clearCache] and both
    [create] methods keep it so. *)
Lemma cache_ok_invariant env gen cfg params options :
  cache_ok (cache initialWorld) /\
  keeps_cache_ok clearCache /\
  keeps_cache_ok (openai_create env gen cfg params options) /\
  keeps_cache_ok (anthropic_create env gen cfg params options).
Proof.
  split; [split; [constructor | cbn; unfold maxCacheSize; lia]|].
  split; [intros w _; split; [constructor | cbn; unfold maxCacheSize; lia]|].
  split.
  - unfold openai_create. apply cache_ok_bind; [apply cache_ok_openai_admit|].
    intros [cached|routed]; [apply cache_ok_ret | apply cache_ok_openai_dispatch].
  - unfold anthropic_create.
    apply cache_ok_bind; [unfold costCheck; keeps_cache|]. intros _.
    apply cache_ok_bind; [destruct (enableCache cfg); keeps_cache|].
    intros [cached|]; [apply cache_ok_ret|].
    apply cache_ok_bind; [apply cache_ok_now|]. intros start.
    apply cache_ok_anthropic_loop.
Qed.

(** ** [wrapAnthropic] and client errors *)

(** One model of the chain, against a provider that rejects every call
    with the client error [e]: one attempt, rethrown. *)
Lemma retry_client_error env cfg p w e :
  (forall log q, provider_create env log q = Throw e) ->
  is_client_error e = true ->
  retryWithBackoff (providerCall env p) (default_retries cfg) w =
  (Throw e, with_providerLog w (providerLog w ++ [p])).
Proof.
  intros Hprov Hclient.
  pose proof (retryWithBackoff_ends env p (default_retries cfg) 0 w
                (default_retries_pos cfg)) as H.
  unfold attempt_outcome in H. rewrite Hprov in H.
  rewrite H; [|intros j Hj; lia | now left].
  unfold after_calls, backoff_delays, backoff_delays_from. cbn [seq map repeat].
  destruct w. cbn. now rewrite app_nil_r.
Qed.

(** Against such a provider the loop of [wrapAnthropic] calls the provider
    once for every model still to try, whatever the status of the error. *)
Lemma anthropic_loop_tries_every_model env gen cfg originalModel params options start
    modelsToTry e :
  (forall log q, provider_create env log q = Throw e) ->
  is_client_error e = true ->
  forall todo i lastError w,
    todo <> [] -> (i + List.length todo = List.length modelsToTry)%nat ->
    let outcome := anthropic_loop env gen cfg originalModel params options start
                     modelsToTry i todo lastError w in
    fst outcome = Throw e /\
    providerLog (snd outcome) = (providerLog w ++ map (set_model params) todo)%list.
Proof.
  intros Hprov Hclient. induction todo as [|m todo IH]; intros i lastError w Hne Hlen.
  - congruence.
  - cbn [anthropic_loop]. unfold bind at 1. unfold try_catch, bind.
    rewrite (retry_client_error env cfg _ w e Hprov Hclient). unfold ret. cbv beta iota.
    destruct todo as [|m' todo].
    + assert ((i =? List.length modelsToTry - 1)%nat = true) as ->
        by (apply Nat.eqb_eq; cbn in Hlen; lia).
      unfold anthropic_fail, bind, now, ret. run_world.
      destruct (client_error_message e Hclient) as [message Hmsg].
      unfold trackError, bind, lift. rewrite Hmsg.
      match goal with
      | |- context [trackRun env gen cfg ?d ?w0] =>
          pose proof (trackRun_never_throws env gen cfg d w0) as Hok;
          pose proof (keeps_trackRun env gen cfg d w0) as Hkeep;
          destruct (trackRun env gen cfg d w0) as [[[]|e''] w2]
      end; cbn [fst snd] in *; [|discriminate].
      unfold throw. cbn [fst snd map]. split; [reflexivity|].
      rewrite Hkeep. reflexivity.
    + assert ((i =? List.length modelsToTry - 1)%nat = false) as ->
        by (apply Nat.eqb_neq; cbn in Hlen; lia).
      destruct (IH (S i) e (with_providerLog w (providerLog w ++ [set_model params m])))
        as [Hfst Hlog]; [discriminate | cbn in *; lia |].
      split; [exact Hfst|]. rewrite Hlog. run_world.
      now rewrite <- app_assoc.
Qed.

(** * Further properties of the code *)

(** ** The response scorer *)

Lemma add_if_bounds (b : bool) (d s : Q) :
  (0 <= d)%Q -> (0 <= s)%Q -> (0 <= QualityDetector.add_if b d s)%Q.
Proof. intros Hd Hs. unfold QualityDetector.add_if. destruct b; lra. Qed.

Lemma Qmin_1_bounds (s : Q) : (0 <= s)%Q -> (0 <= Qmin 1 s <= 1)%Q.
Proof.
  intros Hs. split.
  - apply Q.min_glb; lra.
  - apply Q.le_min_l.
Qed.

Lemma ratio_nonneg (a b : nat) :
  (0 <= inject_Z (Z.of_nat a) / inject_Z (Z.of_nat b))%Q.
Proof.
  destruct b as [|b].
  - change (inject_Z (Z.of_nat 0)) with 0%Q. unfold Qdiv.
    setoid_replace (/ 0)%Q with 0%Q by reflexivity. lra.
  - apply Qle_shift_div_l.
    + change 0%Q with (inject_Z 0). rewrite <- Zlt_Qlt. lia.
    + rewrite Qmult_0_l. change 0%Q with (inject_Z 0). rewrite <- Zle_Qle. lia.
Qed.

Lemma measureCompleteness_bounds (response prompt : string) :
  (0 <= QualityDetector.measureCompleteness response prompt <= 1)%Q.
Proof.
  unfold QualityDetector.measureCompleteness.
  destruct (negb (JsString.truthy response) || (String.length response <? 10)%nat);
    [lra|].
  apply Qmin_1_bounds.
  repeat first [ apply add_if_bounds; [lra|]
               | match goal with |- context [if ?b then _ else _] => destruct b end
               | lra ].
Qed.

Lemma measureCoherence_bounds (response : string) :
  (0 <= QualityDetector.measureCoherence response <= 1)%Q.
Proof.
  unfold QualityDetector.measureCoherence.
  destruct (negb (JsString.truthy response)); [lra|].
  apply Qmin_1_bounds. repeat (apply add_if_bounds; [lra|]). lra.
Qed.

Lemma measureRelevance_bounds (response prompt : string) :
  (0 <= QualityDetector.measureRelevance response prompt <= 1)%Q.
Proof.
  unfold QualityDetector.measureRelevance.
  destruct (negb (JsString.truthy response) || negb (JsString.truthy prompt)); [lra|].
  apply Qmin_1_bounds. repeat (apply add_if_bounds; [lra|]).
  match goal with
  | |- (0 <= _ + ?r * _)%Q => assert (0 <= r)%Q by apply ratio_nonneg
  end.
  nra.
Qed.

Lemma measureAccuracy_bounds (response : string) :
  (0 <= QualityDetector.measureAccuracy response <= 1)%Q.
Proof.
  unfold QualityDetector.measureAccuracy.
  destruct (negb (JsString.truthy response)); [lra|].
  split.
  - apply Q.min_glb; [lra | apply Q.le_max_l].
  - apply Q.le_min_l.
Qed.

(** X1. Every metric of [analyzeResponse] and the overall score lie between
    0 and 1, whatever the response and the prompt; the empty response
    scores 0 on every metric, and a response of fewer than ten characters
    has completeness 0, so its overall score is at most 0.75. *)
Theorem analyzeResponse_bounds (response prompt : string) :
  let a := QualityDetector.analyzeResponse response prompt in
  let m := QualityDetector.metrics a in
  (0 <= QualityDetector.completeness m <= 1)%Q /\
  (0 <= QualityDetector.coherence m <= 1)%Q /\
  (0 <= QualityDetector.relevance m <= 1)%Q /\
  (0 <= QualityDetector.accuracy m <= 1)%Q /\
  (0 <= QualityDetector.qualityScore a <= 1)%Q /\
  (response = "" ->
   QualityDetector.completeness m = 0%Q /\ QualityDetector.coherence m = 0%Q /\
   QualityDetector.relevance m = 0%Q /\ QualityDetector.accuracy m = 0%Q /\
   (QualityDetector.qualityScore a == 0)%Q) /\
  ((String.length response < 10)%nat ->
   QualityDetector.completeness m = 0%Q /\
   (QualityDetector.qualityScore a <= 75 # 100)%Q).
Proof.
  cbn zeta. unfold QualityDetector.analyzeResponse.
  cbn [QualityDetector.metrics QualityDetector.qualityScore QualityDetector.completeness
       QualityDetector.coherence QualityDetector.relevance QualityDetector.accuracy].
  pose proof (measureCompleteness_bounds response prompt) as Hc.
  pose proof (measureCoherence_bounds response) as Hh.
  pose proof (measureRelevance_bounds response prompt) as Hr.
  pose proof (measureAccuracy_bounds response) as Ha.
  repeat split; try tauto.
  - apply Qle_shift_div_l; lra.
  - apply Qle_shift_div_r; lra.
  - subst response. reflexivity.
  - subst response. reflexivity.
  - subst response. reflexivity.
  - subst response. reflexivity.
  - subst response. reflexivity.
  - unfold QualityDetector.measureCompleteness.
    apply Nat.ltb_lt in H. rewrite H. now rewrite orb_true_r.
  - assert (QualityDetector.measureCompleteness response prompt = 0%Q) as ->.
    { unfold QualityDetector.measureCompleteness.
      apply Nat.ltb_lt in H. rewrite H. now rewrite orb_true_r. }
    apply Qle_shift_div_r; lra.
Qed.

Lemma analyzeResponse_bounds_witness :
  QualityDetector.completeness
    (QualityDetector.metrics (QualityDetector.analyzeResponse "" "What is 2+2?")) = 0%Q /\
  (QualityDetector.qualityScore (QualityDetector.analyzeResponse "Four." "What is 2+2?")
   <= 75 # 100)%Q.
Proof.
  split.
  - destruct (analyzeResponse_bounds "" "What is 2+2?") as (_ & _ & _ & _ & _ & H & _).
    apply H. reflexivity.
  - destruct (analyzeResponse_bounds "Four." "What is 2+2?") as (_ & _ & _ & _ & _ & _ & H).
    apply H. vm_compute. lia.
Defined.

(** ** The model router *)

Lemma includes_trans (s k k' : string) :
  JsString.includes s k = true -> JsString.includes k k' = true ->
  JsString.includes s k' = true.
Proof.
  intros Hs Hk. apply includes_decompose in Hs. destruct Hs as (a & b & ->).
  now apply includes_append.
Qed.

Lemma getOptimalSimpleModel_targets requested taskType :
  In (QualityDetector.getOptimalSimpleModel requested taskType)
    ["gpt-3.5-turbo"; "claude-3-haiku"].
Proof.
  unfold QualityDetector.getOptimalSimpleModel.
  repeat match goal with |- context [if ?b then _ else _] => destruct b end;
    cbn; auto.
Qed.

Lemma provider_rules_targets requested complexity taskType m :
  provider_rules requested complexity taskType = Some m -> In m routing_targets.
Proof.
  unfold provider_rules, routing_targets.
  repeat match goal with |- context [if ?b then _ else _] => destruct b end;
    intros [= <-]; cbn; auto 6.
Qed.

(** What the router returns once the policy, if any, has not decided. *)
Lemma selectOptimalModel_builtin cfg requested messages :
  smartRouting cfg = true -> routingPolicy cfg = None ->
  selectOptimalModel cfg requested messages =
  if JsString.includes requested "vision" then requested
  else match provider_rules requested (estimateComplexity messages)
                 (detectTaskType messages) with
       | Some m => m
       | None =>
           let d := QualityDetector.shouldRoute requested messages in
           if QualityDetector.decision_shouldRoute d &&
              Qlt_bool (8 # 10) (QualityDetector.decision_confidence d)
           then QualityDetector.decision_targetModel d
           else requested
       end.
Proof. intros Hs Hp. unfold selectOptimalModel. now rewrite Hs, Hp. Qed.

(** The decision of [QualityDetector.shouldRoute] is applied only when it
    comes from the branch for simple tasks. *)
Lemma shouldRoute_applied requested messages :
  let d := QualityDetector.shouldRoute requested messages in
  QualityDetector.decision_shouldRoute d &&
  Qlt_bool (8 # 10) (QualityDetector.decision_confidence d) = true ->
  (QualityDetector.estimateComplexity messages < 3 # 10)%Q /\
  QualityDetector.isCritical messages = false /\
  QualityDetector.decision_confidence d = (85 # 100)%Q /\
  QualityDetector.decision_targetModel d =
    QualityDetector.getOptimalSimpleModel requested
      (QualityDetector.detectTaskType messages).
Proof.
  cbn zeta. unfold QualityDetector.shouldRoute.
  destruct (Qlt_bool (8 # 10) (QualityDetector.estimateComplexity messages)) eqn:Hhigh;
    cbn [orb]; [cbn; discriminate|].
  destruct (QualityDetector.isCritical messages) eqn:Hcrit; [cbn; discriminate|].
  destruct (Qlt_bool (QualityDetector.estimateComplexity messages) (3 # 10)) eqn:Hlow.
  - intros _. apply Qlt_bool_iff in Hlow. cbn. auto.
  - destruct (Qlt_bool (QualityDetector.estimateComplexity messages) (6 # 10)).
    + cbn [QualityDetector.decision_shouldRoute QualityDetector.decision_confidence].
      rewrite andb_comm. cbn. discriminate.
    + cbn. discriminate.
Qed.

(** X2. The model router. With smart routing off the requested model is
    kept. A routing policy that returns a non-empty string decides; one that
    throws, returns nothing or returns the empty string is ignored. Without
    a deciding policy the router returns the requested model or one of
    gpt-3.5-turbo, gpt-4o, claude-3.5-sonnet and claude-3-haiku; a model
    whose name contains "vision" is never replaced, and a model whose name
    contains neither "gpt" nor "claude" is replaced by gpt-3.5-turbo or
    claude-3-haiku only. *)
Theorem selectOptimalModel_range (cfg : CostLensConfig) (requested : string)
    (messages : list Message) :
  let chosen := selectOptimalModel cfg requested messages in
  (smartRouting cfg = false -> chosen = requested) /\
  (forall policy r,
     smartRouting cfg = true -> routingPolicy cfg = Some policy ->
     policy requested messages = PolicyReturns (Some r) -> r <> "" -> chosen = r) /\
  (forall policy,
     routingPolicy cfg = Some policy ->
     policy requested messages = PolicyThrows \/
     policy requested messages = PolicyReturns None \/
     policy requested messages = PolicyReturns (Some "") ->
     chosen = selectOptimalModel (without_routingPolicy cfg) requested messages) /\
  (routingPolicy cfg = None -> chosen = requested \/ In chosen routing_targets) /\
  (routingPolicy cfg = None -> JsString.includes requested "vision" = true ->
   chosen = requested) /\
  (routingPolicy cfg = None ->
   JsString.includes requested "gpt" = false ->
   JsString.includes requested "claude" = false ->
   chosen = requested \/ chosen = "gpt-3.5-turbo" \/ chosen = "claude-3-haiku").
Proof.
  cbn zeta. repeat split.
  - intros H. unfold selectOptimalModel. now rewrite H.
  - intros policy r Hs Hp Hr Hne. unfold selectOptimalModel. rewrite Hs, Hp, Hr.
    cbn [negb]. unfold JsString.truthy.
    destruct (String.eqb_spec r ""); [contradiction | reflexivity].
  - intros policy Hp Hr. unfold selectOptimalModel, without_routingPolicy.
    cbn [smartRouting routingPolicy]. rewrite Hp.
    destruct Hr as [-> | [-> | ->]]; reflexivity.
  - intros Hp. destruct (smartRouting cfg) eqn:Hs.
    + rewrite (selectOptimalModel_builtin cfg requested messages Hs Hp).
      destruct (JsString.includes requested "vision"); [now left|].
      destruct (provider_rules _ _ _) eqn:Hrules.
      * right. eapply provider_rules_targets; eassumption.
      * cbn zeta.
        destruct (_ && _) eqn:Happlied; [|now left].
        apply shouldRoute_applied in Happlied.
        destruct Happlied as (_ & _ & _ & ->). right.
        pose proof (getOptimalSimpleModel_targets requested
                      (QualityDetector.detectTaskType messages)) as H.
        unfold routing_targets. cbn in H |- *. tauto.
    + left. unfold selectOptimalModel. now rewrite Hs.
  - intros Hp Hv. destruct (smartRouting cfg) eqn:Hs.
    + rewrite (selectOptimalModel_builtin cfg requested messages Hs Hp). now rewrite Hv.
    + unfold selectOptimalModel. now rewrite Hs.
  - intros Hp Hgpt Hclaude. destruct (smartRouting cfg) eqn:Hs.
    + rewrite (selectOptimalModel_builtin cfg requested messages Hs Hp).
      destruct (JsString.includes requested "vision"); [now left|].
      unfold provider_rules. rewrite Hgpt, Hclaude. cbn zeta.
      destruct (_ && _) eqn:Happlied; [|now left].
      apply shouldRoute_applied in Happlied.
      destruct Happlied as (_ & _ & _ & ->). right.
      pose proof (getOptimalSimpleModel_targets requested
                    (QualityDetector.detectTaskType messages)) as H.
      destruct H as [H|[H|[]]]; rewrite <- H; auto.
    + left. unfold selectOptimalModel. now rewrite Hs.
Qed.

Lemma selectOptimalModel_range_witness :
  let throwing := mkConfig "key" true 3 [] true true false None
                    (Some (fun _ _ => PolicyThrows)) None in
  let pinned := mkConfig "key" true 3 [] true true false None
                  (Some (fun _ _ => PolicyReturns (Some "gemini-1.5-pro"))) None in
  let off := mkConfig "key" true 3 [] true false false None None None in
  selectOptimalModel off "gpt-4" [mkMessage "user" "Hi"] = "gpt-4" /\
  selectOptimalModel pinned "gpt-4" [mkMessage "user" "Hi"] = "gemini-1.5-pro" /\
  selectOptimalModel throwing "gpt-4" [mkMessage "user" "Hi"] =
    selectOptimalModel (without_routingPolicy throwing) "gpt-4" [mkMessage "user" "Hi"] /\
  selectOptimalModel (defaultConfig "key") "gpt-4-vision-preview" [mkMessage "user" "Hi"] =
    "gpt-4-vision-preview" /\
  (selectOptimalModel (defaultConfig "key") "mistral-large" [mkMessage "user" "Hi"] =
     "mistral-large" \/
   selectOptimalModel (defaultConfig "key") "mistral-large" [mkMessage "user" "Hi"] =
     "gpt-3.5-turbo" \/
   selectOptimalModel (defaultConfig "key") "mistral-large" [mkMessage "user" "Hi"] =
     "claude-3-haiku").
Proof.
  intros throwing pinned off. refine (conj _ (conj _ (conj _ (conj _ _)))).
  - destruct (selectOptimalModel_range off "gpt-4" [mkMessage "user" "Hi"])
      as (H & _).
    apply H. reflexivity.
  - destruct (selectOptimalModel_range pinned "gpt-4" [mkMessage "user" "Hi"])
      as (_ & H & _).
    apply (H (fun _ _ => PolicyReturns (Some "gemini-1.5-pro")));
      [reflexivity | reflexivity | reflexivity | discriminate].
  - destruct (selectOptimalModel_range throwing "gpt-4" [mkMessage "user" "Hi"])
      as (_ & _ & H & _).
    apply (H (fun _ _ => PolicyThrows)); [reflexivity | left; reflexivity].
  - destruct (selectOptimalModel_range (defaultConfig "key") "gpt-4-vision-preview"
                [mkMessage "user" "Hi"]) as (_ & _ & _ & _ & H & _).
    apply H; reflexivity.
  - destruct (selectOptimalModel_range (defaultConfig "key") "mistral-large"
                [mkMessage "user" "Hi"]) as (_ & _ & _ & _ & _ & H).
    apply H; reflexivity.
Defined.

(** X3. The provider rules run before the criticality test. For a simple
    conversation (fewer than 100 characters, no system message, at most two
    messages) a model whose name contains "gpt-4" is replaced by
    gpt-3.5-turbo, and one whose name contains "claude-3-opus" or
    "claude-3-sonnet" but not "gpt" by claude-3-haiku, also when the
    conversation holds a critical keyword, for which
    [QualityDetector.shouldRoute] itself decides against routing. *)
Theorem provider_rules_precede_criticality (cfg : CostLensConfig) (requested : string)
    (messages : list Message) :
  smartRouting cfg = true -> routingPolicy cfg = None ->
  JsString.includes requested "vision" = false ->
  estimateComplexity messages = simple ->
  (JsString.includes requested "gpt-4" = true ->
   selectOptimalModel cfg requested messages = "gpt-3.5-turbo") /\
  (JsString.includes requested "gpt" = false ->
   JsString.includes requested "claude-3-opus" = true \/
   JsString.includes requested "claude-3-sonnet" = true ->
   selectOptimalModel cfg requested messages = "claude-3-haiku") /\
  (QualityDetector.isCritical messages = true ->
   QualityDetector.decision_shouldRoute
     (QualityDetector.shouldRoute requested messages) = false /\
   QualityDetector.decision_targetModel
     (QualityDetector.shouldRoute requested messages) = requested).
Proof.
  intros Hs Hp Hv Hsimple. split; [|split].
  - intros Hgpt4.
    rewrite (selectOptimalModel_builtin cfg requested messages Hs Hp), Hv.
    unfold provider_rules. rewrite Hsimple, Hgpt4.
    now rewrite (includes_trans requested "gpt-4" "gpt" Hgpt4 eq_refl).
  - intros Hgpt Hclaude.
    rewrite (selectOptimalModel_builtin cfg requested messages Hs Hp), Hv.
    unfold provider_rules. rewrite Hsimple, Hgpt.
    destruct Hclaude as [H|H].
    + rewrite (includes_trans requested "claude-3-opus" "claude" H eq_refl).
      now rewrite H.
    + rewrite (includes_trans requested "claude-3-sonnet" "claude" H eq_refl).
      rewrite H. cbn. now destruct (JsString.includes requested "claude-3-opus").
  - intros Hcrit. unfold QualityDetector.shouldRoute. rewrite Hcrit, orb_true_r.
    split; reflexivity.
Qed.

Lemma provider_rules_precede_criticality_witness :
  let urgent := [mkMessage "user" "Is this medical dose safe?"] in
  selectOptimalModel (defaultConfig "key") "gpt-4" urgent = "gpt-3.5-turbo" /\
  selectOptimalModel (defaultConfig "key") "claude-3-opus" urgent = "claude-3-haiku" /\
  QualityDetector.decision_shouldRoute (QualityDetector.shouldRoute "gpt-4" urgent) = false.
Proof.
  intros urgent. refine (conj _ (conj _ _)).
  - destruct (provider_rules_precede_criticality (defaultConfig "key") "gpt-4" urgent)
      as (H & _); [reflexivity | reflexivity | reflexivity | reflexivity |].
    apply H. reflexivity.
  - destruct (provider_rules_precede_criticality (defaultConfig "key") "claude-3-opus"
                urgent) as (_ & H & _);
      [reflexivity | reflexivity | reflexivity | reflexivity |].
    apply H; [reflexivity | left; reflexivity].
  - destruct (provider_rules_precede_criticality (defaultConfig "key") "gpt-4" urgent)
      as (_ & _ & H); [reflexivity | reflexivity | reflexivity | reflexivity |].
    apply H. vm_compute. reflexivity.
Defined.

(** X4. Where no provider rule applies, the router changes the model only
    on a decision of [QualityDetector.shouldRoute] with confidence above
    0.8, which only the branch for simple tasks gives (0.85): the
    conversation is then not critical and its complexity estimate is below
    0.3. For an estimate of 0.3 or more the requested model is kept, also
    when [shouldRoute] recommends another model (confidence 0.8). *)
Theorem medium_decisions_never_applied (cfg : CostLensConfig) (requested : string)
    (messages : list Message) :
  smartRouting cfg = true -> routingPolicy cfg = None ->
  provider_rules requested (estimateComplexity messages) (detectTaskType messages) = None ->
  let d := QualityDetector.shouldRoute requested messages in
  let chosen := selectOptimalModel cfg requested messages in
  (chosen <> requested ->
   (QualityDetector.estimateComplexity messages < 3 # 10)%Q /\
   QualityDetector.isCritical messages = false /\
   QualityDetector.decision_confidence d = (85 # 100)%Q /\
   chosen = QualityDetector.decision_targetModel d) /\
  ((3 # 10 <= QualityDetector.estimateComplexity messages)%Q -> chosen = requested).
Proof.
  intros Hs Hp Hrules d chosen. subst chosen.
  rewrite (selectOptimalModel_builtin cfg requested messages Hs Hp), Hrules.
  cbn zeta. fold d.
  destruct (JsString.includes requested "vision").
  - split; [congruence | reflexivity].
  - destruct (_ && _) eqn:Happlied.
    + apply shouldRoute_applied in Happlied. fold d in Happlied.
      destruct Happlied as (Hlow & Hcrit & Hconf & Htarget).
      split; [auto | intros Hge; lra].
    + split; [congruence | reflexivity].
Qed.

Lemma medium_decisions_never_applied_witness :
  let task := [mkMessage "system" "You are an editor.";
               mkMessage "user" "Please evaluate and rewrite this paragraph."] in
  selectOptimalModel (defaultConfig "key") "gpt-4-turbo" task = "gpt-4-turbo" /\
  QualityDetector.decision_shouldRoute (QualityDetector.shouldRoute "gpt-4-turbo" task) =
    true /\
  QualityDetector.decision_targetModel (QualityDetector.shouldRoute "gpt-4-turbo" task) =
    "claude-3.5-sonnet".
Proof.
  intros task. refine (conj _ (conj _ _)).
  - destruct (medium_decisions_never_applied (defaultConfig "key") "gpt-4-turbo" task)
      as (_ & H); [reflexivity | reflexivity | vm_compute; reflexivity |].
    apply H. vm_compute. discriminate.
  - vm_compute. reflexivity.
  - vm_compute. reflexivity.
Defined.

(** ** The cost estimator *)

Lemma pricing_pos (model : string) :
  (0 < input (getModelPricing model))%Q /\ (0 < output (getModelPricing model))%Q.
Proof.
  unfold getModelPricing. destruct (first_match pricing_table model) as [p|] eqn:E.
  - apply first_match_In in E. destruct E as [key Hin].
    simpl in Hin.
    repeat (destruct Hin as [Hin|Hin]; [injection Hin as _ <-; split; reflexivity|]).
    destruct Hin.
  - split; reflexivity.
Qed.

Lemma tokens_per_million_pos (messages : list Message) (type : TokenType) :
  (0 < inject_Z (estimateTokens messages type) / 1000000)%Q.
Proof.
  apply Qlt_shift_div_l; [reflexivity|].
  rewrite Qmult_0_l. change 0%Q with (inject_Z 0). rewrite <- Zlt_Qlt.
  pose proof (estimateTokens_pos messages type). lia.
Qed.

(** The token count before the floor at 1. *)
Lemma base_tokens_append (messages : list Message) (m : Message) :
  (Qceiling (inject_Z (Z.of_nat (String.length
      (JsString.join " " (message_contents messages)))) / 4) +
   Z.of_nat (List.length messages) * 4 <=
   Qceiling (inject_Z (Z.of_nat (String.length
      (JsString.join " " (message_contents (messages ++ [m]))))) / 4) +
   Z.of_nat (List.length (messages ++ [m])) * 4)%Z.
Proof.
  apply Z.add_le_mono.
  - apply Qceiling_resp_le. apply Qmult_le_compat_r; [|discriminate].
    rewrite <- Zle_Qle. apply inj_le.
    rewrite !join_length. unfold message_contents.
    rewrite map_app, fold_right_app, !length_map, length_app. cbn [map fold_right List.length].
    assert (forall (l : list string) (a : nat),
              fold_right (fun s n => String.length s + n) a l =
              fold_right (fun s n => String.length s + n) 0 l + a)%nat as Hfold.
    { induction l as [|x l IH]; intros a; cbn; [reflexivity | rewrite IH; lia]. }
    rewrite (Hfold _ (String.length (content m) + 0)%nat), length_map. lia.
  - rewrite length_app. cbn [List.length]. lia.
Qed.

Lemma estimateTokens_append (messages : list Message) (m : Message) (type : TokenType) :
  (estimateTokens messages type <= estimateTokens (messages ++ [m]) type)%Z.
Proof.
  unfold estimateTokens. cbn zeta. rewrite !Z.add_0_l.
  pose proof (base_tokens_append messages m) as H.
  apply Z.max_le_compat_r. destruct type; [exact H|].
  apply Qceiling_resp_le. apply Qmult_le_compat_r; [|discriminate].
  now rewrite <- Zle_Qle.
Qed.

Lemma output_tokens_le_input (messages : list Message) :
  (estimateTokens messages output_tokens <= estimateTokens messages input_tokens)%Z.
Proof.
  unfold estimateTokens. cbn zeta. rewrite !Z.add_0_l.
  set (base := (Qceiling _ + _)%Z).
  apply Z.max_le_compat_r.
  destruct (Z.le_gt_cases 0 base) as [Hpos|Hneg].
  - rewrite <- (Qceiling_Z base) at 2. apply Qceiling_resp_le.
    assert (0 <= inject_Z base)%Q by (change 0%Q with (inject_Z 0); now rewrite <- Zle_Qle).
    lra.
  - exfalso. subst base.
    assert (0 <= Qceiling (inject_Z (Z.of_nat (String.length
                     (JsString.join " " (message_contents messages)))) / 4))%Z.
    { apply Qceiling_ge_0. apply Qle_shift_div_l; [reflexivity|].
      rewrite Qmult_0_l. change 0%Q with (inject_Z 0). rewrite <- Zle_Qle. lia. }
    lia.
Qed.

Lemma estimateCost_dominance (cheap dear : string) (messages : list Message) :
  (input (getModelPricing cheap) <= input (getModelPricing dear))%Q ->
  (output (getModelPricing cheap) <= output (getModelPricing dear))%Q ->
  (estimateCost cheap messages <= estimateCost dear messages)%Q.
Proof.
  intros Hi Ho. unfold estimateCost.
  pose proof (tokens_per_million_pos messages input_tokens) as Ti.
  pose proof (tokens_per_million_pos messages output_tokens) as To.
  apply Qplus_le_compat; (rewrite !(Qmult_comm (_ / _)); apply Qmult_le_compat_r; lra).
Qed.

Lemma estimateCost_pos (model : string) (messages : list Message) :
  (0 < estimateCost model messages)%Q.
Proof.
  pose proof (tokens_per_million_pos messages input_tokens) as Ti.
  pose proof (tokens_per_million_pos messages output_tokens) as To.
  destruct (pricing_pos model) as [Pi Po].
  unfold estimateCost. nra.
Qed.

(** X5. The cost estimate is strictly positive; the estimated output
    tokens never exceed the estimated input tokens; a model whose two prices
    are at most those of another is never estimated dearer; gpt-3.5-turbo is
    estimated strictly cheaper than gpt-4 on every conversation; and adding
    a message to a conversation never lowers the estimate. *)
Theorem estimateCost_monotone (model : string) (messages : list Message) :
  (0 < estimateCost model messages)%Q /\
  (estimateTokens messages output_tokens <= estimateTokens messages input_tokens)%Z /\
  (forall dear,
     (input (getModelPricing model) <= input (getModelPricing dear))%Q ->
     (output (getModelPricing model) <= output (getModelPricing dear))%Q ->
     (estimateCost model messages <= estimateCost dear messages)%Q) /\
  (estimateCost "gpt-3.5-turbo" messages < estimateCost "gpt-4" messages)%Q /\
  (forall m, (estimateCost model messages <= estimateCost model (messages ++ [m]))%Q).
Proof.
  pose proof (tokens_per_million_pos messages input_tokens) as Ti.
  pose proof (tokens_per_million_pos messages output_tokens) as To.
  destruct (pricing_pos model) as [Pi Po].
  refine (conj _ (conj _ (conj _ (conj _ _)))).
  - unfold estimateCost. nra.
  - apply output_tokens_le_input.
  - intros dear. apply estimateCost_dominance.
  - unfold estimateCost.
    change (getModelPricing "gpt-3.5-turbo") with (mkPricing (5 # 10) (15 # 10)).
    change (getModelPricing "gpt-4") with (mkPricing 30 60).
    cbn [input output]. nra.
  - intros m. unfold estimateCost.
    pose proof (estimateTokens_append messages m input_tokens) as Hi.
    pose proof (estimateTokens_append messages m output_tokens) as Ho.
    rewrite Zle_Qle in Hi, Ho.
    apply Qplus_le_compat; (apply Qmult_le_compat_r; [|lra]);
      (apply Qmult_le_compat_r; [assumption | discriminate]).
Qed.

Lemma estimateCost_monotone_witness :
  (estimateCost "claude-3-haiku" [mkMessage "user" "Hi"] <=
   estimateCost "claude-3-opus" [mkMessage "user" "Hi"])%Q.
Proof.
  destruct (estimateCost_monotone "claude-3-haiku" [mkMessage "user" "Hi"])
    as (_ & _ & H & _).
  apply H; vm_compute; discriminate.
Defined.

(** X6. The rows of the price table and of the fallback table under the
    key "gpt-4-turbo" are never selected: the keys are tried in declaration
    order and "gpt-4", a substring of "gpt-4-turbo", comes first. A model
    whose name contains "gpt-4-turbo" is priced as gpt-4 (30/60), or as
    gpt-4o (2.5/10) when its name contains "gpt-4o" as well, never at the
    10/30 of its own row. *)
Theorem gpt_4_turbo_rows_shadowed (model : string) :
  JsString.includes model "gpt-4-turbo" = true ->
  getModelPricing model =
    (if JsString.includes model "gpt-4o" then mkPricing (25 # 10) 10 else mkPricing 30 60) /\
  getModelPricing model <> mkPricing 10 30 /\
  getDefaultFallbacks model <> ["gpt-4o"; "gpt-4"; "gpt-3.5-turbo"].
Proof.
  intros Hturbo.
  pose proof (includes_trans model "gpt-4-turbo" "gpt-4" Hturbo eq_refl) as Hgpt4.
  assert (getModelPricing model =
          (if JsString.includes model "gpt-4o" then mkPricing (25 # 10) 10
           else mkPricing 30 60)) as Hprice.
  { unfold getModelPricing, pricing_table. cbn [first_match]. rewrite Hgpt4.
    now destruct (JsString.includes model "gpt-4o"). }
  refine (conj Hprice (conj _ _)).
  - rewrite Hprice. destruct (JsString.includes model "gpt-4o"); discriminate.
  - unfold getDefaultFallbacks, fallbacks_table. cbn [first_match]. rewrite Hgpt4.
    destruct (JsString.includes model "gpt-4o"); [discriminate|].
    destruct (JsString.includes model "claude-3.5-sonnet"); [discriminate|].
    destruct (JsString.includes model "gemini-1.5-flash"); discriminate.
Qed.

Lemma gpt_4_turbo_rows_shadowed_witness :
  getModelPricing "gpt-4-turbo" = mkPricing 30 60 /\
  getDefaultFallbacks "gpt-4-turbo" <> ["gpt-4o"; "gpt-4"; "gpt-3.5-turbo"].
Proof.
  destruct (gpt_4_turbo_rows_shadowed "gpt-4-turbo") as (H1 & _ & H3); [reflexivity|].
  split; [exact H1 | exact H3].
Defined.

(** X7. The savings report. The current and the optimised cost are
    strictly positive, the savings are their difference and the percentage
    is the savings over the current cost times 100, so always below 100.
    When the router keeps the requested model (smart routing off, for
    instance) savings and percentage are 0. *)
Theorem calculateSavings_bounds (cfg : CostLensConfig) (requested : string)
    (messages : list Message) :
  let s := calculateSavings cfg requested messages in
  recommendedModel s = selectOptimalModel cfg requested messages /\
  (0 < currentCost s)%Q /\ (0 < optimizedCost s)%Q /\
  (savings s == currentCost s - optimizedCost s)%Q /\
  (savingsPercentage s == savings s / currentCost s * 100)%Q /\
  (savingsPercentage s < 100)%Q /\
  (savings s < currentCost s)%Q /\
  (recommendedModel s = requested ->
   (savings s == 0)%Q /\ (savingsPercentage s == 0)%Q) /\
  (smartRouting cfg = false -> recommendedModel s = requested).
Proof.
  cbn zeta. unfold calculateSavings.
  cbn [recommendedModel currentCost optimizedCost savings savingsPercentage].
  set (chosen := selectOptimalModel cfg requested messages).
  assert (0 < estimateCost requested messages)%Q as Hcur
    by apply estimateCost_pos.
  assert (0 < estimateCost chosen messages)%Q as Hopt
    by apply estimateCost_pos.
  assert (Qlt_bool 0 (estimateCost requested messages) = true) as ->
    by now apply Qlt_bool_iff.
  refine (conj eq_refl (conj Hcur (conj Hopt (conj _ (conj _ (conj _ (conj _ (conj _ _)))))))).
  - reflexivity.
  - reflexivity.
  - assert ((estimateCost requested messages - estimateCost chosen messages) /
            estimateCost requested messages ==
            1 - estimateCost chosen messages / estimateCost requested messages)%Q as ->
      by (field; lra).
    assert (0 < estimateCost chosen messages / estimateCost requested messages)%Q.
    { apply Qlt_shift_div_l; lra. }
    lra.
  - lra.
  - intros ->. split; [lra|].
    assert ((estimateCost requested messages - estimateCost requested messages) == 0)%Q
      as -> by lra.
    unfold Qdiv. lra.
  - intros Hs. subst chosen. unfold selectOptimalModel. now rewrite Hs.
Qed.

Lemma calculateSavings_bounds_witness :
  let off := mkConfig "key" true 3 [] true false false None None None in
  recommendedModel (calculateSavings off "gpt-4" [mkMessage "user" "Hi"]) = "gpt-4" /\
  (savingsPercentage (calculateSavings off "gpt-4" [mkMessage "user" "Hi"]) == 0)%Q.
Proof.
  intros off.
  destruct (calculateSavings_bounds off "gpt-4" [mkMessage "user" "Hi"])
    as (_ & _ & _ & _ & _ & _ & _ & Hsame & Hoff).
  split.
  - apply Hoff. reflexivity.
  - apply Hsame. apply Hoff. reflexivity.
Defined.

Lemma output_tokens_ge (messages : list Message) :
  (inject_Z (estimateTokens messages input_tokens) * (3 # 10) <=
   inject_Z (estimateTokens messages output_tokens))%Q.
Proof.
  unfold estimateTokens. cbn zeta. rewrite !Z.add_0_l.
  set (base := (Qceiling _ + _)%Z).
  destruct (Z.le_gt_cases 1 base) as [Hpos|Hneg].
  - rewrite (Z.max_l base 1) by lia.
    apply Qle_trans with (inject_Z (Qceiling (inject_Z base * (3 # 10)))).
    + apply Qle_ceiling.
    + rewrite <- Zle_Qle. apply Z.le_max_l.
  - rewrite (Z.max_r base 1) by lia.
    apply Qle_trans with (inject_Z 1); [discriminate|].
    rewrite <- Zle_Qle. apply Z.le_max_r.
Qed.

(** X8. The router does not look at prices. A model that no provider rule
    covers (its name contains neither "gpt" nor "claude" nor "vision") and
    that is priced at the DeepSeek rates is, for every non-critical
    conversation with a complexity estimate below 0.3, replaced by
    gpt-3.5-turbo or claude-3-haiku, and the estimated cost goes up: the
    reported savings and savings percentage are negative. *)
Theorem routing_can_raise_cost (cfg : CostLensConfig) (requested : string)
    (messages : list Message) :
  smartRouting cfg = true -> routingPolicy cfg = None ->
  JsString.includes requested "vision" = false ->
  JsString.includes requested "gpt" = false ->
  JsString.includes requested "claude" = false ->
  getModelPricing requested = mkPricing (28 # 100) (42 # 100) ->
  (QualityDetector.estimateComplexity messages < 3 # 10)%Q ->
  QualityDetector.isCritical messages = false ->
  let s := calculateSavings cfg requested messages in
  (recommendedModel s = "gpt-3.5-turbo" \/ recommendedModel s = "claude-3-haiku") /\
  (currentCost s < optimizedCost s)%Q /\
  (savings s < 0)%Q /\ (savingsPercentage s < 0)%Q.
Proof.
  intros Hs Hp Hv Hgpt Hclaude Hprice Hlow Hcrit. cbn zeta.
  unfold calculateSavings.
  cbn [recommendedModel currentCost optimizedCost savings savingsPercentage].
  assert (selectOptimalModel cfg requested messages =
          QualityDetector.getOptimalSimpleModel requested
            (QualityDetector.detectTaskType messages)) as Hchosen.
  { rewrite (selectOptimalModel_builtin cfg requested messages Hs Hp), Hv.
    unfold provider_rules. rewrite Hgpt, Hclaude. cbn zeta.
    unfold QualityDetector.shouldRoute. rewrite Hcrit, orb_false_r.
    assert (Qlt_bool (8 # 10) (QualityDetector.estimateComplexity messages) = false) as ->
      by (apply Qlt_bool_false_iff; lra).
    assert (Qlt_bool (QualityDetector.estimateComplexity messages) (3 # 10) = true) as ->
      by now apply Qlt_bool_iff.
    reflexivity. }
  rewrite Hchosen.
  pose proof (estimateCost_pos requested messages) as Hcur.
  assert (Qlt_bool 0 (estimateCost requested messages) = true) as ->
    by now apply Qlt_bool_iff.
  pose proof (tokens_per_million_pos messages input_tokens) as Ti.
  pose proof (tokens_per_million_pos messages output_tokens) as To.
  assert (inject_Z (estimateTokens messages input_tokens) / 1000000 * (3 # 10) <=
          inject_Z (estimateTokens messages output_tokens) / 1000000)%Q as Hratio.
  { unfold Qdiv. rewrite <- Qmult_assoc, (Qmult_comm (/ 1000000)), Qmult_assoc.
    apply Qmult_le_compat_r; [apply output_tokens_ge | discriminate]. }
  assert (estimateCost requested messages <
          estimateCost (QualityDetector.getOptimalSimpleModel requested
                          (QualityDetector.detectTaskType messages)) messages)%Q as Hmore.
  { pose proof (getOptimalSimpleModel_targets requested
                  (QualityDetector.detectTaskType messages)) as Htargets.
    unfold estimateCost in Hcur |- *. rewrite Hprice in Hcur |- *.
    destruct Htargets as [<- | [<- | []]].
    - change (getModelPricing "gpt-3.5-turbo") with (mkPricing (5 # 10) (15 # 10)).
      cbn [input output]. lra.
    - change (getModelPricing "claude-3-haiku") with (mkPricing (25 # 100) (125 # 100)).
      cbn [input output].
      lra. }
  refine (conj _ (conj Hmore (conj _ _))).
  - pose proof (getOptimalSimpleModel_targets requested
                  (QualityDetector.detectTaskType messages)) as Htargets.
    destruct Htargets as [<- | [<- | []]]; auto.
  - lra.
  - set (d := (estimateCost requested messages - _)%Q).
    assert (d < 0)%Q as Hd by (subst d; lra).
    assert (d / estimateCost requested messages < 0)%Q.
    { apply Qlt_shift_div_r; lra. }
    lra.
Qed.

Lemma routing_can_raise_cost_witness :
  let s := calculateSavings (defaultConfig "key") "deepseek-chat"
             [mkMessage "user" "Hi"] in
  (recommendedModel s = "gpt-3.5-turbo" \/ recommendedModel s = "claude-3-haiku") /\
  (currentCost s < optimizedCost s)%Q /\
  (savings s < 0)%Q /\ (savingsPercentage s < 0)%Q.
Proof.
  apply (routing_can_raise_cost (defaultConfig "key") "deepseek-chat"
           [mkMessage "user" "Hi"]);
    vm_compute; reflexivity.
Defined.

(** ** The cache: writing, then reading *)

(** The state after [setCache]: the entry is in the map, stamped with the
    two clock readings the method makes. *)
Lemma setCache_result env key r given w :
  exists c,
    setCache env key r given w =
    (Ok tt,
     with_clockReads
       (with_cache w
          (map_set key
             (mkEntry r (Date_now env (clockReads w))
                (match given with Some t => t | None => 3600000%Z end)
                (Date_now env (S (clockReads w)))) c))
       (S (S (clockReads w)))) /\
    ((List.length (cache w) < maxCacheSize)%nat -> c = cache w).
Proof.
  unfold setCache. run.
  destruct (maxCacheSize <=? List.length (cache w))%nat eqn:Hsize; run.
  - eexists. split; [reflexivity|]. intros Hlt. apply Nat.leb_le in Hsize. lia.
  - eexists. split; [reflexivity|]. reflexivity.
Qed.

(** X9. Writing then reading. After [setCache] has stored a result under a
    key, [getFromCache] with that key returns the result as long as the
    clock, at the look-up, is at most the time to live (one hour when none
    is given) past the clock at the write; once it is further the look-up
    is a miss and removes the entry. Below the maximum size a write leaves
    the entries of all other keys as they were. After [clearCache] every
    look-up is a miss. *)
Theorem cache_round_trip (env : Collaborators) (key : string) (r : Response)
    (given : option Z) (w : World) :
  let lifetime := match given with Some t => t | None => 3600000%Z end in
  let w1 := snd (setCache env key r given w) in
  let written := Date_now env (clockReads w) in
  let read := Date_now env (clockReads w + 2) in
  ((read - written <= lifetime)%Z -> fst (getFromCache env key w1) = Ok (Some r)) /\
  ((read - written > lifetime)%Z ->
   fst (getFromCache env key w1) = Ok None /\
   map_get key (cache (snd (getFromCache env key w1))) = None) /\
  (forall k, k <> key -> (List.length (cache w) < maxCacheSize)%nat ->
     map_get k (cache w1) = map_get k (cache w)) /\
  (forall k, fst (getFromCache env k (snd (clearCache w))) = Ok None).
Proof.
  cbn zeta. replace (clockReads w + 2)%nat with (S (S (clockReads w))) by lia.
  destruct (setCache_result env key r given w) as (c & -> & Hc). cbn [snd].
  refine (conj _ (conj _ (conj _ _))).
  - intros Hfresh. unfold getFromCache. run.
    rewrite map_get_set_same. run. cbn [timestamp ttl].
    assert ((Date_now env (S (S (clockReads w))) - Date_now env (clockReads w) >?
             match given with Some t => t | None => 3600000 end)%Z = false) as ->
      by (rewrite Z.gtb_ltb; apply Z.ltb_ge; lia).
    reflexivity.
  - intros Hstale. unfold getFromCache. run.
    rewrite map_get_set_same. run. cbn [timestamp ttl].
    assert ((Date_now env (S (S (clockReads w))) - Date_now env (clockReads w) >?
             match given with Some t => t | None => 3600000 end)%Z = true) as ->
      by (rewrite Z.gtb_ltb; apply Z.ltb_lt; lia).
    run. split; [reflexivity | apply map_get_delete_same].
  - intros k Hk Hlt. run_world. rewrite (Hc Hlt). now apply map_get_set_other.
  - intros k. unfold clearCache, getFromCache. run. reflexivity.
Qed.

Lemma cache_round_trip_witness :
  let env := Sample.collaborators Sample.provider_echo Sample.track_ok in
  let w1 := snd (setCache env "k" (Sample.response "stored") (Some 5000%Z) initialWorld) in
  let w2 := snd (setCache env "k" (Sample.response "stored") (Some 1000%Z) initialWorld) in
  fst (getFromCache env "k" w1) = Ok (Some (Sample.response "stored")) /\
  fst (getFromCache env "k" w2) = Ok None /\
  map_get "other" (cache w1) = map_get "other" (cache initialWorld).
Proof.
  intros env w1 w2. refine (conj _ (conj _ _)).
  - destruct (cache_round_trip env "k" (Sample.response "stored") (Some 5000%Z)
                initialWorld) as (H & _).
    apply H. vm_compute. discriminate.
  - destruct (cache_round_trip env "k" (Sample.response "stored") (Some 1000%Z)
                initialWorld) as (_ & H & _).
    apply H. vm_compute. reflexivity.
  - destruct (cache_round_trip env "k" (Sample.response "stored") (Some 5000%Z)
                initialWorld) as (_ & _ & H & _).
    apply H; [discriminate | vm_compute; lia].
Defined.

(** ** The cache key separates requests *)

Lemma decode_escape_char (c : ascii) (rest : string) :
  decode_char (Json.escape_char c ++ rest) = Some (c, rest).
Proof.
  destruct c as [b0 b1 b2 b3 b4 b5 b6 b7].
  destruct b0, b1, b2, b3, b4, b5, b6, b7; reflexivity.
Qed.

Lemma decode_quote (rest : string) : decode_char (String Json.quote_char rest) = None.
Proof. reflexivity. Qed.

Lemma append_inj_l (a x y : string) : a ++ x = a ++ y -> x = y.
Proof.
  induction a as [|c a IH]; cbn; intros H; [exact H|].
  injection H as H. auto.
Qed.

Lemma escape_inj (s1 : string) :
  forall s2 x y,
    Json.escape s1 ++ String Json.quote_char x = Json.escape s2 ++ String Json.quote_char y ->
    s1 = s2 /\ x = y.
Proof.
  induction s1 as [|c1 s1 IH]; intros [|c2 s2] x y H.
  - cbn in H. injection H as ->. auto.
  - cbn [Json.escape] in H. rewrite append_assoc in H.
    apply (f_equal decode_char) in H.
    rewrite decode_escape_char in H. cbn in H. discriminate.
  - cbn [Json.escape] in H. rewrite append_assoc in H.
    apply (f_equal decode_char) in H.
    rewrite decode_escape_char in H. cbn in H. discriminate.
  - cbn [Json.escape] in H. rewrite !append_assoc in H.
    apply (f_equal decode_char) in H.
    rewrite !decode_escape_char in H. injection H as -> H.
    destruct (IH _ _ _ H) as [-> ->]. auto.
Qed.

Lemma of_string_inj (s1 s2 x y : string) :
  Json.of_string s1 ++ x = Json.of_string s2 ++ y -> s1 = s2 /\ x = y.
Proof.
  unfold Json.of_string. cbn [append]. rewrite !append_assoc. cbn [append].
  intros H. injection H as H. now apply escape_inj.
Qed.

Lemma of_message_shape (m : Message) (x : string) :
  Json.of_message m ++ x =
  "{" ++ Json.of_string "role" ++ ":" ++ Json.of_string (role m) ++ "," ++
  Json.of_string "content" ++ ":" ++ Json.of_string (content m) ++ "}" ++ x.
Proof.
  unfold Json.of_message, Json.object, Json.member. cbn [JsString.join].
  now rewrite !append_assoc.
Qed.

Lemma of_message_inj (m1 m2 : Message) (x y : string) :
  Json.of_message m1 ++ x = Json.of_message m2 ++ y -> m1 = m2 /\ x = y.
Proof.
  rewrite !of_message_shape. intros H.
  do 3 apply append_inj_l in H.
  apply of_string_inj in H. destruct H as [Hrole H].
  do 3 apply append_inj_l in H.
  apply of_string_inj in H. destruct H as [Hcontent H].
  apply append_inj_l in H.
  destruct m1, m2. cbn in *. subst. auto.
Qed.

Lemma join_cons_shape (sep x : string) (l : list string) (z : string) :
  JsString.join sep (x :: l) ++ z =
  x ++ match l with
       | [] => z
       | _ :: _ => sep ++ JsString.join sep l ++ z
       end.
Proof.
  destruct l as [|y l]; [reflexivity|].
  change (JsString.join sep (x :: y :: l)) with (x ++ sep ++ JsString.join sep (y :: l)).
  now rewrite !append_assoc.
Qed.

Lemma of_messages_inj (l1 : list Message) :
  forall l2 x y,
    JsString.join "," (map Json.of_message l1) ++ "]" ++ x =
    JsString.join "," (map Json.of_message l2) ++ "]" ++ y ->
    l1 = l2 /\ x = y.
Proof.
  induction l1 as [|m1 l1 IH]; intros [|m2 l2] x y H.
  - cbn in H. injection H as ->. auto.
  - cbn [map] in H. rewrite join_cons_shape, of_message_shape in H.
    cbn in H. discriminate.
  - cbn [map] in H. rewrite join_cons_shape, of_message_shape in H.
    cbn in H. discriminate.
  - cbn [map] in H. rewrite !join_cons_shape in H.
    apply of_message_inj in H. destruct H as [-> H].
    destruct l1 as [|n1 l1], l2 as [|n2 l2]; cbn [map] in H.
    + cbn in H. injection H as ->. auto.
    + cbn in H. discriminate.
    + cbn in H. discriminate.
    + apply append_inj_l in H. apply (IH (n2 :: l2)) in H. destruct H as [<- ->]. auto.
Qed.

(** The key, written as one chain of concatenations; [tail] holds the
    temperature and, when given, the token limit. *)
Lemma getCacheKey_shape env provider params :
  exists tail,
    getCacheKey env provider params =
    provider ++ ":" ++ "{" ++ Json.of_string "model" ++ ":" ++
    Json.of_string (model params) ++ "," ++ Json.of_string "messages" ++ ":" ++ "[" ++
    JsString.join ","
      (map Json.of_message
         (map (fun m => mkMessage (role m) (JsString.trim (content m)))
            (messages params))) ++ "]" ++ tail.
Proof.
  unfold getCacheKey, Json.object, Json.array, Json.member.
  cbn [app]. rewrite map_map.
  match goal with
  | |- context [JsString.join "," (?a :: ?b :: ?rest)] =>
      change (JsString.join "," (a :: b :: rest))
        with (a ++ "," ++ b ++ "," ++ JsString.join "," rest)
  end.
  eexists. rewrite !append_assoc. reflexivity.
Qed.

Lemma key_view_messages (l1 l2 : list Message) :
  map (fun m => mkMessage (role m) (JsString.trim (content m))) l1 =
  map (fun m => mkMessage (role m) (JsString.trim (content m))) l2 <->
  map key_view l1 = map key_view l2.
Proof.
  split; intros H.
  - apply (f_equal (map (fun m => (role m, content m)))) in H.
    now rewrite !map_map in H.
  - apply (f_equal (map (fun rc : string * string => mkMessage (fst rc) (snd rc)))) in H.
    now rewrite !map_map in H.
Qed.

(** X10. The cache key separates requests. Two parameter objects with the
    same key, for the same provider, have the same model and, message by
    message, the same roles and the same contents up to surrounding white
    space: no two different conversations and no two different models share
    a cache entry. For the keys [wrapOpenAI] uses, which carry neither
    temperature nor token limit, the converse holds as well, so requests
    that differ only in surrounding white space do share an entry. Keys of
    the two wrappers never coincide. *)
Theorem getCacheKey_separates (env : Collaborators) (provider : string) (p1 p2 : Params) :
  (getCacheKey env provider p1 = getCacheKey env provider p2 ->
   model p1 = model p2 /\
   map key_view (messages p1) = map key_view (messages p2)) /\
  (getCacheKey env provider (mkParams (model p1) (messages p1) None None) =
   getCacheKey env provider (mkParams (model p2) (messages p2) None None) <->
   model p1 = model p2 /\
   map key_view (messages p1) = map key_view (messages p2)) /\
  getCacheKey env "openai" p1 <> getCacheKey env "anthropic" p2.
Proof.
  assert (forall q1 q2 : Params,
            getCacheKey env provider q1 = getCacheKey env provider q2 ->
            model q1 = model q2 /\
            map key_view (messages q1) = map key_view (messages q2)) as Hsep.
  { intros q1 q2 H.
    destruct (getCacheKey_shape env provider q1) as [t1 E1].
    destruct (getCacheKey_shape env provider q2) as [t2 E2].
    rewrite E1, E2 in H.
    do 5 apply append_inj_l in H.
    apply of_string_inj in H. destruct H as [Hmodel H].
    do 4 apply append_inj_l in H.
    apply of_messages_inj in H. destruct H as [Hmessages _].
    split; [exact Hmodel | now apply key_view_messages]. }
  refine (conj (Hsep p1 p2) (conj _ _)).
  - split.
    + intros H. apply Hsep in H. exact H.
    + intros [Hmodel Hmessages]. apply key_view_messages in Hmessages.
      unfold getCacheKey. cbn [model messages temperature max_tokens].
      rewrite Hmodel.
      rewrite <- (map_map (fun m => mkMessage (role m) (JsString.trim (content m)))
                    Json.of_message (messages p1)).
      rewrite <- (map_map (fun m => mkMessage (role m) (JsString.trim (content m)))
                    Json.of_message (messages p2)).
      now rewrite Hmessages.
  - unfold getCacheKey. cbn [append]. discriminate.
Qed.

Lemma getCacheKey_separates_witness :
  let env := Sample.collaborators Sample.provider_echo Sample.track_ok in
  let spaced := mkParams "gpt-4" [mkMessage "user" " Hi "] (Some (7 # 10)%Q) None in
  let plain := mkParams "gpt-4" [mkMessage "user" "Hi"] None None in
  map key_view (messages spaced) = map key_view (messages plain) /\
  getCacheKey env "openai" (mkParams "gpt-4" [mkMessage "user" " Hi "] None None) =
  getCacheKey env "openai" plain.
Proof.
  intros env spaced plain.
  destruct (getCacheKey_separates env "openai" spaced plain) as (H1 & H2 & _).
  split.
  - apply H1. vm_compute. reflexivity.
  - apply H2. split; reflexivity.
Defined.

(** ** Middleware *)

Lemma run_hooks_silent {A : Type} (hooks : list (option (A -> Result A))) (data : A) :
  Forall (hook_silent data) hooks ->
  forall result, run_hooks hooks data result = result.
Proof.
  induction 1 as [|hook hooks Hsilent _ IH]; intros result; [reflexivity|].
  destruct hook as [f|]; cbn [run_hooks].
  - destruct Hsilent as [e ->]. apply IH.
  - apply IH.
Qed.

Lemma run_hooks_last {A : Type} (earlier later : list (option (A -> Result A)))
    (f : A -> Result A) (data r : A) :
  f data = Ok r -> Forall (hook_silent data) later ->
  forall result, run_hooks (earlier ++ Some f :: later) data result = r.
Proof.
  intros Hf Hlater. induction earlier as [|hook earlier IH]; intros result.
  - cbn [app run_hooks]. rewrite Hf. now apply run_hooks_silent.
  - cbn [app run_hooks]. destruct hook as [g|]; [destruct (g data)|]; apply IH.
Qed.

(** X11. Hooks do not chain. Every before-hook (and every after-hook) is
    called on the data [runMiddleware] was given, not on the result of the
    hook before it, and the result is that of the last hook that returns:
    whatever the hooks before it return is dropped. Hooks that throw are
    skipped; when every hook is absent or throws, the data comes back
    unchanged. *)
Theorem runMiddleware_last_hook_wins (cfg : CostLensConfig) (earlier later : list Middleware)
    (mw : Middleware) :
  middleware cfg = (earlier ++ mw :: later)%list ->
  (forall hook p p',
     before mw = Some hook -> hook p = Ok p' ->
     Forall (hook_silent p) (map before later) ->
     runMiddleware_before cfg p = p') /\
  (forall hook r r',
     after mw = Some hook -> hook r = Ok r' ->
     Forall (hook_silent r) (map after later) ->
     runMiddleware_after cfg r = r') /\
  (forall p, Forall (hook_silent p) (map before (middleware cfg)) ->
     runMiddleware_before cfg p = p) /\
  (forall r, Forall (hook_silent r) (map after (middleware cfg)) ->
     runMiddleware_after cfg r = r).
Proof.
  intros Hmw. refine (conj _ (conj _ (conj _ _))).
  - intros hook p p' Hhook Hok Hlater. unfold runMiddleware_before.
    rewrite Hmw, map_app. cbn [map]. rewrite Hhook. now apply run_hooks_last.
  - intros hook r r' Hhook Hok Hlater. unfold runMiddleware_after.
    rewrite Hmw, map_app. cbn [map]. rewrite Hhook. now apply run_hooks_last.
  - intros p Hsilent. unfold runMiddleware_before. now apply run_hooks_silent.
  - intros r Hsilent. unfold runMiddleware_after. now apply run_hooks_silent.
Qed.

Lemma runMiddleware_last_hook_wins_witness :
  let cfg := with_middleware (defaultConfig "key") [Sample.cap_tokens; Sample.cool_down] in
  runMiddleware_before cfg (mkParams "gpt-4" [] None None) =
    mkParams "gpt-4" [] (Some (2 # 10)%Q) None /\
  runMiddleware_after cfg (Sample.response "text") = Sample.response "text".
Proof.
  intros cfg.
  destruct (runMiddleware_last_hook_wins cfg [Sample.cap_tokens] [] Sample.cool_down)
    as (Hbefore & _ & _ & Hafter); [reflexivity|].
  split.
  - eapply Hbefore; [reflexivity | reflexivity | constructor].
  - apply Hafter. repeat constructor.
Defined.

(** ** Prompt optimisation *)

Lemma optimizeMessages_shape env (ms : list Message) :
  forall w, exists ms',
    fst (optimizeMessages env ms w) = Ok ms' /\
    map role ms' = map role ms /\
    (forall i m m', nth_error ms i = Some m -> nth_error ms' i = Some m' ->
                    content m = "" -> content m' = "").
Proof.
  induction ms as [|m ms IH]; intros w.
  - exists []. cbn. repeat split. intros [|i] m m'; cbn; discriminate.
  - cbn [optimizeMessages]. unfold bind at 1.
    assert (exists c w1,
              (if JsString.truthy (content m) then optimizePromptContent env (content m)
               else ret (content m)) w = (Ok c, w1) /\
              (content m = "" -> c = "")) as (c & w1 & -> & Hempty).
    { destruct (JsString.truthy (content m)) eqn:Htruthy.
      - unfold optimizePromptContent. run.
        destruct (map_get (content m) (optimizationCache w)) as [o|].
        + do 2 eexists. split; [reflexivity|]. intros E. rewrite E in Htruthy. discriminate.
        + run. destruct (fetch_optimize env (fetchLog w) (content m)); run;
            (do 2 eexists; split; [reflexivity|]);
            intros E; rewrite E in Htruthy; discriminate.
      - do 2 eexists. split; [reflexivity | auto]. }
    unfold bind. destruct (IH w1) as (ms' & Hok & Hroles & Hcontents).
    destruct (optimizeMessages env ms w1) as [[rest|e] w2]; cbn [fst] in Hok;
      [|discriminate].
    injection Hok as ->. unfold ret. cbn [fst].
    exists (mkMessage (role m) c :: ms'). repeat split.
    + cbn. now rewrite Hroles.
    + intros [|i] m0 m0'; cbn [nth_error].
      * intros [= <-] [= <-]. exact Hempty.
      * apply Hcontents.
Qed.

(** X12. Prompt optimisation. [optimizePromptContent] never throws. A
    content not yet optimised costs one request; when the service answers,
    the answer is returned and remembered, so that asking again returns it
    without a request and without changing the state; when the service
    refuses or cannot be reached, the content itself is returned and
    nothing is remembered. Optimising a conversation keeps the number, the
    order and the roles of its messages, and leaves empty contents empty. *)
Theorem optimizePromptContent_memoised (env : Collaborators) (text : string) (w : World) :
  let asked := with_fetchLog w (fetchLog w ++ [ReqOptimize text]) in
  (exists out, fst (optimizePromptContent env text w) = Ok out) /\
  (forall optimized,
     map_get text (optimizationCache w) = None ->
     fetch_optimize env (fetchLog w) text = FetchOk optimized ->
     let w1 := with_optimizationCache asked
                 (map_set text optimized (optimizationCache w)) in
     optimizePromptContent env text w = (Ok optimized, w1) /\
     optimizePromptContent env text w1 = (Ok optimized, w1)) /\
  (map_get text (optimizationCache w) = None ->
   (exists status, fetch_optimize env (fetchLog w) text = FetchNotOk status) \/
   (exists e, fetch_optimize env (fetchLog w) text = FetchError e) ->
   optimizePromptContent env text w = (Ok text, asked)) /\
  (forall optimized,
     map_get text (optimizationCache w) = Some optimized ->
     optimizePromptContent env text w = (Ok optimized, w)) /\
  (forall ms, exists ms',
     fst (optimizeMessages env ms w) = Ok ms' /\
     map role ms' = map role ms /\
     (forall i m m', nth_error ms i = Some m -> nth_error ms' i = Some m' ->
                     content m = "" -> content m' = "")).
Proof.
  cbn zeta. refine (conj _ (conj _ (conj _ (conj _ _)))).
  - unfold optimizePromptContent. run.
    destruct (map_get text (optimizationCache w)); [eexists; reflexivity|].
    run. destruct (fetch_optimize env (fetchLog w) text); run; eexists; reflexivity.
  - intros optimized Hmiss Hanswer. split.
    + unfold optimizePromptContent. run. rewrite Hmiss. run. rewrite Hanswer. run.
      reflexivity.
    + unfold optimizePromptContent. run. now rewrite map_get_set_same.
  - intros Hmiss Hfail. unfold optimizePromptContent. run. rewrite Hmiss. run.
    destruct Hfail as [[status ->] | [e ->]]; reflexivity.
  - intros optimized Hhit. unfold optimizePromptContent. run. now rewrite Hhit.
  - intros ms. apply optimizeMessages_shape.
Qed.

Lemma optimizePromptContent_memoised_witness :
  let env := Sample.collaborators Sample.provider_echo Sample.track_ok in
  let w1 := snd (optimizePromptContent env "Please summarise" initialWorld) in
  fst (optimizePromptContent env "Please summarise" initialWorld) = Ok "Please summarise" /\
  optimizePromptContent env "Please summarise" w1 = (Ok "Please summarise", w1) /\
  fetchLog w1 = [ReqOptimize "Please summarise"].
Proof.
  intros env w1.
  destruct (optimizePromptContent_memoised env "Please summarise" initialWorld)
    as (_ & H & _).
  destruct (H "Please summarise" eq_refl eq_refl) as [Hfirst Hagain].
  subst w1. rewrite Hfirst. cbn [fst snd]. refine (conj eq_refl (conj Hagain _)).
  reflexivity.
Defined.

(** ** The circuit breaker over a run of failures *)

(** One tracking attempt while the sink is down, as a function of the
    failure count. *)
Lemma trackRun_sink_down env gen cfg data w :
  instant_mode gen cfg = false -> sink_down env ->
  (breaker_open env w = true ->
   snd (trackRun env gen cfg data w) = with_clockReads w (S (clockReads w))) /\
  (breaker_open env w = false ->
   snd (trackRun env gen cfg data w) =
   with_clockReads
     (with_failures (with_fetchLog w (fetchLog w ++ [ReqTrackRun data]))
        (apiFailureCount w + 1) (Date_now env (S (clockReads w))))
     (S (S (clockReads w)))).
Proof.
  intros Hmode Hdown. unfold trackRun. rewrite Hmode.
  unfold isApiDown, breaker_open, circuitBreakerThreshold, circuitBreakerTimeout. run.
  split; intros ->; run; [reflexivity|].
  pose proof (Hdown (fetchLog w) data) as Hanswer.
  destruct (fetch_track env (fetchLog w) data) as [body| |];
    [now destruct (Hanswer body) | |]; unfold recordApiFailure; run; reflexivity.
Qed.

Lemma track_all_sink_down env gen cfg (hi : nat) :
  instant_mode gen cfg = false -> sink_down env ->
  forall runs w lo,
    within_timeout env lo hi ->
    (lo <= clockReads w)%nat -> (clockReads w + 2 * List.length runs <= hi)%nat ->
    (0 <= apiFailureCount w <= 5)%Z ->
    (apiFailureCount w = 5%Z ->
     exists k, (lo <= k < clockReads w)%nat /\ lastApiFailure w = Date_now env k) ->
    let w' := track_all env gen cfg runs w in
    apiFailureCount w' = Z.min (apiFailureCount w + Z.of_nat (List.length runs)) 5 /\
    Z.of_nat (List.length (fetchLog w')) =
      (Z.of_nat (List.length (fetchLog w)) +
       Z.min (Z.of_nat (List.length runs)) (5 - apiFailureCount w))%Z.
Proof.
  intros Hmode Hdown. induction runs as [|data runs IH];
    intros w lo Hclock Hlo Hhi Hcount Hlast.
  - cbn [track_all List.length]. change (Z.of_nat 0) with 0%Z. split; lia.
  - cbn [track_all List.length] in *.
    destruct (trackRun_sink_down env gen cfg data w Hmode Hdown) as [Hopen Hclosed].
    destruct (breaker_open env w) eqn:Hbreaker.
    + rewrite (Hopen eq_refl).
      unfold breaker_open in Hbreaker. apply andb_prop in Hbreaker.
      destruct Hbreaker as [Hfive _]. apply Z.geb_le in Hfive.
      assert (apiFailureCount w = 5%Z) as Hfull by lia.
      destruct (IH (with_clockReads w (S (clockReads w))) lo) as [Hc Hl];
        run_world; try assumption; try lia.
      { intros _. destruct (Hlast Hfull) as (k & Hk & Ek). exists k. split; [lia | exact Ek]. }
      revert Hc Hl. run_world. intros Hc Hl. split; lia.
    + rewrite (Hclosed eq_refl).
      assert (apiFailureCount w < 5)%Z as Hbelow.
      { destruct (Z.eq_dec (apiFailureCount w) 5) as [Hfull|]; [|lia].
        exfalso. destruct (Hlast Hfull) as (k & Hk & Ek).
        unfold breaker_open in Hbreaker. rewrite Hfull, Ek in Hbreaker.
        cbn [Z.geb Z.compare andb] in Hbreaker.
        apply Z.ltb_ge in Hbreaker.
        pose proof (Hclock k (clockReads w)) as Hwindow.
        unfold circuitBreakerTimeout in Hwindow. lia. }
      match goal with
      | |- context [track_all env gen cfg runs ?w1] =>
          destruct (IH w1 lo) as [Hc Hl]
      end; run_world; try assumption; try lia.
      { intros _. exists (S (clockReads w)). split; [lia | reflexivity]. }
      revert Hc Hl. run_world. rewrite length_app. cbn [List.length]. intros Hc Hl.
      split; lia.
Qed.

(** X13. The breaker caps the requests to a sink that is down. Starting
    from a failure count of zero, with an API key configured, tracking any
    number of runs one after the other while the sink answers none with
    success and the clock stays within one minute sends five requests at
    most: one per run for the first five runs, none after that, and the
    failure count stops at five. *)
Theorem breaker_caps_requests (env : Collaborators) (gen : Generation)
    (cfg : CostLensConfig) (runs : list TrackRunData) (w : World) :
  instant_mode gen cfg = false -> sink_down env ->
  within_timeout env (clockReads w) (clockReads w + 2 * List.length runs) ->
  apiFailureCount w = 0%Z ->
  let w' := track_all env gen cfg runs w in
  List.length (fetchLog w') = (List.length (fetchLog w) + Nat.min (List.length runs) 5)%nat /\
  apiFailureCount w' = Z.of_nat (Nat.min (List.length runs) 5).
Proof.
  intros Hmode Hdown Hclock Hzero.
  destruct (track_all_sink_down env gen cfg _ Hmode Hdown runs w (clockReads w) Hclock)
    as [Hc Hl]; try lia.
  cbn zeta. rewrite Hzero in Hc, Hl. split; lia.
Qed.

Lemma breaker_caps_requests_witness :
  let env := Sample.collaborators Sample.provider_echo (Sample.track_fails 500) in
  let w' := track_all env SecondGeneration (defaultConfig "key")
              (repeat Sample.run_data 12) initialWorld in
  List.length (fetchLog w') = 5%nat /\ apiFailureCount w' = 5%Z.
Proof.
  intros env.
  apply (breaker_caps_requests env SecondGeneration (defaultConfig "key")
           (repeat Sample.run_data 12) initialWorld).
  - reflexivity.
  - intros log data body. discriminate.
  - intros i j Hi Hj Hhi. cbn in Hhi. unfold circuitBreakerTimeout. cbn. lia.
  - reflexivity.
Defined.

(** ** What the wrappers leave alone *)

Section Frame.

Variable P : World -> Prop.
Hypothesis cache_only : about_cache P.

Lemma preserves_ret {A : Type} (a : A) : preserves P (ret a).
Proof. intros w H. exact H. Qed.

Lemma preserves_throw {A : Type} (e : JsError) : preserves P (@throw A e).
Proof. intros w H. exact H. Qed.

Lemma preserves_lift {A : Type} (r : Result A) : preserves P (lift r).
Proof. intros w H. exact H. Qed.

Lemma preserves_gets {A : Type} (f : World -> A) : preserves P (gets f).
Proof. intros w H. exact H. Qed.

Lemma preserves_bind {A B : Type} (m : M A) (k : A -> M B) :
  preserves P m -> (forall a, preserves P (k a)) -> preserves P (bind m k).
Proof.
  intros Hm Hk w H. unfold bind. specialize (Hm w H).
  destruct (m w) as [[a|e] w1]; cbn [snd] in *; [now apply Hk | exact Hm].
Qed.

Lemma preserves_try_catch {A : Type} (m : M A) (handler : JsError -> M A) :
  preserves P m -> (forall e, preserves P (handler e)) -> preserves P (try_catch m handler).
Proof.
  intros Hm Hh w H. unfold try_catch. specialize (Hm w H).
  destruct (m w) as [[a|e] w1]; cbn [snd] in *; [exact Hm | now apply Hh].
Qed.

Lemma preserves_modify (f : World -> World) :
  (forall w, cache (f w) = cache w) -> preserves P (modify f).
Proof. intros Hf w H. cbn. exact (cache_only w (f w) (Hf w) H). Qed.

Lemma preserves_now env : preserves P (now env).
Proof. intros w H. apply (cache_only w); [reflexivity | exact H]. Qed.

Lemma preserves_sleep ms : preserves P (sleep ms).
Proof. intros w H. apply (cache_only w); [reflexivity | exact H]. Qed.

Lemma preserves_providerCall env p : preserves P (providerCall env p).
Proof. intros w H. apply (cache_only w); [reflexivity | exact H]. Qed.

Lemma preserves_fetch {A : Type} req (answer : list FetchReq -> FetchOutcome A) :
  preserves P (fetch req answer).
Proof. intros w H. apply (cache_only w); [reflexivity | exact H]. Qed.

End Frame.

Ltac frame_step :=
  first
    [ apply preserves_ret | apply preserves_throw | apply preserves_lift
    | apply preserves_gets
    | apply preserves_now; assumption | apply preserves_sleep; assumption
    | apply preserves_fetch; assumption | apply preserves_providerCall; assumption
    | apply preserves_modify; [assumption | intros ?; reflexivity]
    | apply preserves_bind; [|intros ?]
    | apply preserves_try_catch; [|intros ?]
    | match goal with
      | |- preserves _ (if ?b then _ else _) => destruct b
      | |- preserves _ (match ?x with _ => _ end) => destruct x
      end ].

Ltac frame := repeat frame_step.

Section FrameOfTheSteps.

Variable P : World -> Prop.
Hypothesis cache_only : about_cache P.

Lemma preserves_trackRun env gen cfg data : preserves P (trackRun env gen cfg data).
Proof. unfold trackRun, isApiDown, recordApiFailure, resetApiFailures. frame. Qed.

Lemma preserves_trackError env gen cfg provider model input error latency :
  preserves P (trackError env gen cfg provider model input error latency).
Proof.
  unfold trackError. apply preserves_bind; [apply preserves_lift|].
  intros message. apply preserves_trackRun.
Qed.

Lemma preserves_retry_loop {A : Type} (fn : M A) retries todo :
  preserves P fn ->
  forall i lastError, preserves P (retry_loop fn retries i todo lastError).
Proof.
  intros Hfn. induction todo as [|todo IH]; intros i lastError; cbn [retry_loop].
  - apply preserves_throw.
  - apply preserves_try_catch; [exact Hfn|]. intros error. frame. apply IH.
Qed.

Lemma preserves_fallback_loop env params models :
  forall st, preserves P (fallback_loop env params models st).
Proof.
  induction models as [|m models IH]; intros st; cbn [fallback_loop].
  - apply preserves_ret.
  - frame. apply IH.
Qed.

Lemma preserves_openai_call env cfg params fallbackModels :
  preserves P (openai_call env cfg params fallbackModels).
Proof.
  unfold openai_call. apply preserves_try_catch.
  - apply preserves_bind; [|intros ?; apply preserves_ret].
    apply preserves_retry_loop. now apply preserves_providerCall.
  - intros error. destruct (_ && _); [apply preserves_fallback_loop | apply preserves_ret].
Qed.

Lemma preserves_optimizeMessages env ms : preserves P (optimizeMessages env ms).
Proof.
  induction ms as [|m ms IH]; cbn [optimizeMessages]; [apply preserves_ret|].
  apply preserves_bind;
    [|intros c; apply preserves_bind; [exact IH | intros ?; apply preserves_ret]].
  unfold optimizePromptContent. frame.
Qed.

Lemma preserves_costCheck cfg params options : preserves P (costCheck cfg params options).
Proof. unfold costCheck. frame. Qed.

Lemma preserves_checkRoutingEnabled env : preserves P (checkRoutingEnabled env).
Proof. unfold checkRoutingEnabled. frame. Qed.

End FrameOfTheSteps.

Lemma absent_about_cache (key : string) : about_cache (absent key).
Proof. intros w w' E H. unfold absent in *. now rewrite E. Qed.

Lemma preserves_absent_getFromCache env key k :
  preserves (absent k) (getFromCache env key).
Proof.
  intros w H. unfold absent in *. unfold getFromCache. run.
  destruct (map_get key (cache w)) as [entry|] eqn:Hentry; [|exact H].
  run. destruct (_ >? _)%Z; run.
  - destruct (String.eqb_spec k key) as [->|Hne].
    + apply map_get_delete_same.
    + now rewrite map_get_delete_other.
  - destruct (String.eqb_spec k key) as [->|Hne]; [congruence|].
    now rewrite map_get_set_other.
Qed.

Lemma preserves_absent_anthropic_loop env gen cfg originalModel params options start
    modelsToTry todo k :
  cacheTTL_truthy options = false ->
  forall i lastError,
    preserves (absent k)
      (anthropic_loop env gen cfg originalModel params options start modelsToTry i todo
         lastError).
Proof.
  intros Hno. pose proof (absent_about_cache k) as Hk.
  induction todo as [|m todo IH]; intros i lastError; cbn [anthropic_loop].
  - apply preserves_throw.
  - apply preserves_bind.
    + apply preserves_try_catch; [|intros ?; apply preserves_ret].
      apply preserves_bind; [|intros ?; apply preserves_ret].
      apply preserves_retry_loop; [assumption|]. now apply preserves_providerCall.
    + intros [r|error].
      * unfold anthropic_succeed. rewrite Hno, andb_false_r.
        apply preserves_bind; [apply preserves_ret|]. intros _.
        apply preserves_bind; [now apply preserves_now|]. intros t.
        apply preserves_bind; [now apply preserves_trackRun | intros ?; apply preserves_ret].
      * destruct (_ =? _)%nat; [|apply IH].
        unfold anthropic_fail.
        apply preserves_bind; [now apply preserves_now|]. intros t.
        apply preserves_bind; [apply preserves_ret|]. intros _.
        apply preserves_bind; [now apply preserves_now|]. intros t'.
        apply preserves_bind; [now apply preserves_trackError | intros ?; apply preserves_throw].
Qed.

(** X14. [wrapAnthropic] stores a response only when the call carries a
    truthy [cacheTTL] option: without one, a key that has no entry before
    [create] has none after it, whatever the configuration (also with
    [enableCache] set, the default) and whatever the provider answers; a
    cache that is empty stays empty. *)
Theorem anthropic_stores_only_with_cacheTTL (env : Collaborators) (gen : Generation)
    (cfg : CostLensConfig) (params : Params) (options : WrapperOptions) (w : World) :
  cacheTTL_truthy options = false ->
  let w' := snd (anthropic_create env gen cfg params options w) in
  (forall key, map_get key (cache w) = None -> map_get key (cache w') = None) /\
  (cache w = [] -> cache w' = []).
Proof.
  intros Hno w'.
  assert (forall key, map_get key (cache w) = None -> map_get key (cache w') = None) as Hkeys.
  { intros key Habsent. pose proof (absent_about_cache key) as Hk.
    change (absent key w') . revert w Habsent w'. cbn zeta.
    change (preserves (absent key) (anthropic_create env gen cfg params options)).
    unfold anthropic_create.
    apply preserves_bind; [now apply preserves_costCheck|]. intros _.
    apply preserves_bind.
    { destruct (enableCache cfg); [apply preserves_absent_getFromCache | apply preserves_ret]. }
    intros [cached|]; [apply preserves_ret|].
    apply preserves_bind; [now apply preserves_now|]. intros start.
    now apply preserves_absent_anthropic_loop. }
  split; [exact Hkeys|].
  intros Hempty. destruct (cache w') as [|[key entry] rest] eqn:Hcache; [reflexivity|].
  exfalso. specialize (Hkeys key). rewrite Hempty in Hkeys. specialize (Hkeys eq_refl).
  unfold map_get in Hkeys. cbn [find fst] in Hkeys. rewrite String.eqb_refl in Hkeys.
  discriminate.
Qed.

Lemma anthropic_stores_only_with_cacheTTL_witness :
  let env := Sample.collaborators Sample.provider_echo Sample.track_ok in
  let params := mkParams "claude-3-haiku" [mkMessage "user" "Hi"] None None in
  let stored := mkOptions None (Some 60000%Z) None None None None None in
  cache (snd (anthropic_create env FirstGeneration (defaultConfig "key") params noOptions
                initialWorld)) = [] /\
  List.length (cache (snd (anthropic_create env FirstGeneration (defaultConfig "key")
                             params stored initialWorld))) = 1%nat.
Proof.
  intros env params stored. split.
  - apply (anthropic_stores_only_with_cacheTTL env FirstGeneration (defaultConfig "key")
             params noOptions initialWorld); reflexivity.
  - vm_compute. reflexivity.
Defined.

(** ** The cost limit *)

Lemma ltb_irrefl (x : float) : (x <? x)%float = false.
Proof.
  rewrite FloatAxioms.ltb_spec. unfold SFltb, SFcompare.
  destruct (Prim2SF x) as [s|s| |s m e]; cbn.
  - reflexivity.
  - now destruct s.
  - reflexivity.
  - rewrite Z.compare_refl, Pos.compare_refl. now destruct s.
Qed.

(** X15. The cost limit. The estimate that is compared with the limit is
    the binary64 number the runtime computes for the model the call would
    use (the routed model under smart routing). When it is above the limit
    in force, [create] of [wrapAnthropic] rejects with the cost error and
    leaves the whole state as it was: no provider call, no cache access, no
    tracking request, no clock reading; so does [create] of [wrapOpenAI]
    when smart routing and prompt optimisation are off. When it is not
    above the limit, in particular when the two numbers are equal, the
    check passes. A [maxCost] that is falsy (0 or NaN) is no limit at all:
    the configured limit applies, and without one every call passes. *)
Theorem cost_limit_blocks_call (env : Collaborators) (gen : Generation)
    (cfg : CostLensConfig) (params : Params) (options : WrapperOptions) (w : World) :
  let routed :=
    if smartRouting cfg then selectOptimalModel cfg (model params) (messages params)
    else model params in
  (forall limit,
     cost_limit cfg options = Some limit ->
     (limit <? Binary64.estimateCost routed (messages params))%float = true ->
     anthropic_create env gen cfg params options w =
     (Throw (CostLimitExceeded (Binary64.estimateCost routed (messages params)) limit), w)) /\
  (forall limit,
     cost_limit cfg options = Some limit ->
     smartRouting cfg = false -> autoOptimize cfg = false ->
     (limit <? Binary64.estimateCost (model params) (messages params))%float = true ->
     openai_create env gen cfg params options w =
     (Throw (CostLimitExceeded (Binary64.estimateCost (model params) (messages params))
               limit), w)) /\
  (forall limit,
     cost_limit cfg options = Some limit ->
     (limit <? Binary64.estimateCost (model params) (messages params))%float = false ->
     costCheck cfg params options w = (Ok tt, w)) /\
  (cost_limit cfg options =
     Some (Binary64.estimateCost (model params) (messages params)) ->
   costCheck cfg params options w = (Ok tt, w)) /\
  (forall c,
     maxCost options = Some c -> Double.truthy c = false ->
     cost_limit cfg options =
       match costLimit cfg with
       | Some configured => if Double.truthy configured then Some configured else None
       | None => None
       end /\
     (costLimit cfg = None -> costCheck cfg params options w = (Ok tt, w))).
Proof.
  cbn zeta. refine (conj _ (conj _ (conj _ (conj _ _)))).
  - intros limit Hlimit Hover. unfold anthropic_create.
    set (routed := if smartRouting cfg then _ else _) in *.
    assert ((if smartRouting cfg
             then set_model params (selectOptimalModel cfg (model params) (messages params))
             else params) = set_model params routed) as ->.
    { subst routed. destruct (smartRouting cfg); [reflexivity | now destruct params]. }
    unfold bind, costCheck. rewrite Hlimit. cbn [set_model model messages].
    now rewrite Hover.
  - intros limit Hlimit Hrouting Hoptimize Hover. unfold openai_create, openai_admit.
    rewrite Hrouting, Hoptimize. unfold bind at 1 2 3 4. unfold ret at 1 2.
    unfold costCheck. rewrite Hlimit. now rewrite Hover.
  - intros limit Hlimit Hfits. unfold costCheck. rewrite Hlimit. now rewrite Hfits.
  - intros Hlimit. unfold costCheck. rewrite Hlimit. now rewrite ltb_irrefl.
  - intros c Hmax Hfalsy.
    assert (cost_limit cfg options =
            match costLimit cfg with
            | Some configured => if Double.truthy configured then Some configured else None
            | None => None
            end) as Hlimit.
    { unfold cost_limit. rewrite Hmax. cbv zeta. now rewrite Hfalsy. }
    split; [exact Hlimit|].
    intros Hnone. unfold costCheck. rewrite Hlimit, Hnone. reflexivity.
Qed.

(** The estimate for 'gpt-4' and the one message "Hello" is
    0.00030000000000000003, which is above a [maxCost] of 0.0003: the call
    is rejected and nothing happens. The same estimate as the limit passes,
    and so does every call under a [maxCost] of 0. *)
Lemma cost_limit_blocks_call_witness :
  let env := Sample.collaborators Sample.provider_echo Sample.track_ok in
  let off := mkConfig "key" true 3 [] true false false None None None in
  let params := mkParams "gpt-4" [mkMessage "user" "Hello"] None None in
  let estimate := Binary64.estimateCost "gpt-4" [mkMessage "user" "Hello"] in
  let tight := mkOptions None None None (Some (Double.of_Q (3 # 10000))) None None None in
  let exact := mkOptions None None None (Some estimate) None None None in
  let free := mkOptions None None None (Some 0%float) None None None in
  estimate = 0x1.3a92a30553262p-12%float /\
  Double.of_Q (3 # 10000) = 0x1.3a92a30553261p-12%float /\
  anthropic_create env FirstGeneration off params tight initialWorld =
    (Throw (CostLimitExceeded estimate (Double.of_Q (3 # 10000))), initialWorld) /\
  openai_create env FirstGeneration off params tight initialWorld =
    (Throw (CostLimitExceeded estimate (Double.of_Q (3 # 10000))), initialWorld) /\
  costCheck off params exact initialWorld = (Ok tt, initialWorld) /\
  costCheck off params free initialWorld = (Ok tt, initialWorld).
Proof.
  intros env off params estimate tight exact free.
  refine (conj _ (conj _ (conj _ (conj _ (conj _ _))))).
  - vm_compute. reflexivity.
  - vm_compute. reflexivity.
  - destruct (cost_limit_blocks_call env FirstGeneration off params tight initialWorld)
      as (H & _).
    apply (H (Double.of_Q (3 # 10000))); vm_compute; reflexivity.
  - destruct (cost_limit_blocks_call env FirstGeneration off params tight initialWorld)
      as (_ & H & _).
    apply (H (Double.of_Q (3 # 10000))); vm_compute; reflexivity.
  - destruct (cost_limit_blocks_call env FirstGeneration off params exact initialWorld)
      as (_ & _ & _ & H & _).
    apply H. vm_compute. reflexivity.
  - destruct (cost_limit_blocks_call env FirstGeneration off params free initialWorld)
      as (_ & _ & _ & _ & H).
    apply (H 0%float); reflexivity.
Defined.

(** ** Cache hits *)

Lemma costCheck_within_budget cfg params options w :
  within_budget cfg options (model params) (messages params) ->
  costCheck cfg params options w = (Ok tt, w).
Proof.
  intros Hfits. unfold costCheck. destruct (cost_limit cfg options) as [limit|] eqn:E;
    [|reflexivity].
  now rewrite (Hfits limit E).
Qed.

Lemma getFromCache_hit env key w entry :
  map_get key (cache w) = Some entry -> fresh env w entry ->
  getFromCache env key w =
  (Ok (Some (result entry)),
   with_cache (with_clockReads (with_clockReads w (S (clockReads w))) (S (S (clockReads w))))
     (map_set key
        (mkEntry (result entry) (timestamp entry) (ttl entry)
           (Date_now env (S (clockReads w)))) (cache w))).
Proof.
  intros Hentry Hfresh. unfold fresh in Hfresh. unfold getFromCache. run.
  rewrite Hentry. run.
  assert ((Date_now env (clockReads w) - timestamp entry >? ttl entry)%Z = false) as ->
    by (rewrite Z.gtb_ltb; apply Z.ltb_ge; lia).
  reflexivity.
Qed.

(** X16. A cache hit ends [create] at once. When the binary64 estimate for
    the routed model is not above the cost limit in force and the in-memory
    cache holds a live entry under the key of the request, [create] returns
    the stored response as it is, makes no provider call, waits for nothing,
    and sends no tracking request. For [wrapOpenAI] this is stated with
    prompt optimisation off and with caching on ([enableCache] or a truthy
    [cacheTTL]); its key holds the routed model and the messages only, so
    it holds whatever temperature and token limit the request carries, and
    the only request sent is the routing check that smart routing makes
    first. For [wrapAnthropic] it is stated with [enableCache] on; no
    request is sent at all. *)
Theorem cache_hit_short_circuits (env : Collaborators) (gen : Generation)
    (cfg : CostLensConfig) (requested : string) (conversation : list Message)
    (sampling : option Q) (cap : option Z) (options : WrapperOptions) (w : World)
    (entry : CacheEntry) :
  let params := mkParams requested conversation sampling cap in
  let chosen := selectOptimalModel cfg requested conversation in
  (let routed := if smartRouting cfg && routing_enabled env w then chosen else requested in
   let outcome := openai_create env gen cfg params options w in
   autoOptimize cfg = false ->
   enableCache cfg || cacheTTL_truthy options = true ->
   within_budget cfg options routed conversation ->
   map_get (getCacheKey env "openai" (mkParams routed conversation None None)) (cache w) =
     Some entry ->
   fresh env w entry ->
   fst outcome = Ok (result entry) /\
   providerLog (snd outcome) = providerLog w /\
   sleeps (snd outcome) = sleeps w /\
   fetchLog (snd outcome) =
     (if smartRouting cfg then fetchLog w ++ [ReqRoutingCheck] else fetchLog w)%list) /\
  (let routed := if smartRouting cfg then chosen else requested in
   let outcome := anthropic_create env gen cfg params options w in
   enableCache cfg = true ->
   within_budget cfg options routed conversation ->
   map_get (getCacheKey env "anthropic" (mkParams routed conversation sampling cap))
     (cache w) = Some entry ->
   fresh env w entry ->
   fst outcome = Ok (result entry) /\
   providerLog (snd outcome) = providerLog w /\
   sleeps (snd outcome) = sleeps w /\
   fetchLog (snd outcome) = fetchLog w).
Proof.
  cbn zeta. split.
  - intros Hoptimize Hcache Hfits Hentry Hfresh.
    unfold openai_create, openai_admit. rewrite Hoptimize, Hcache.
    unfold routing_enabled in *. unfold fresh in Hfresh.
    assert (forall w0 p,
              cache w0 = cache w -> clockReads w0 = clockReads w ->
              model p =
                (if smartRouting cfg &&
                    match fetch_routing env (fetchLog w) with
                    | FetchOk enabled => enabled
                    | FetchNotOk status => negb ((status =? 401)%Z || (status =? 403)%Z)
                    | FetchError _ => true
                    end
                 then selectOptimalModel cfg requested conversation else requested) ->
              messages p = conversation ->
              costCheck cfg p options w0 = (Ok tt, w0) /\
              getFromCache env
                (getCacheKey env "openai" (mkParams (model p) (messages p) None None)) w0 =
              (Ok (Some (result entry)),
               with_cache
                 (with_clockReads (with_clockReads w0 (S (clockReads w0)))
                    (S (S (clockReads w0))))
                 (map_set
                    (getCacheKey env "openai" (mkParams (model p) (messages p) None None))
                    (mkEntry (result entry) (timestamp entry) (ttl entry)
                       (Date_now env (S (clockReads w0)))) (cache w0)))) as Hsteps.
    { intros w0 p Hc Hr Hm Hms. split.
      - apply costCheck_within_budget. now rewrite Hm, Hms.
      - apply getFromCache_hit.
        + now rewrite Hm, Hms, Hc.
        + unfold fresh. now rewrite Hr. }
    destruct (smartRouting cfg) eqn:Hrouting; cbn [andb] in *.
    + unfold checkRoutingEnabled. run.
      destruct (fetch_routing env (fetchLog w)) as [enabled|status|err];
        [destruct enabled | destruct (negb _) | ]; run;
        try destruct (routingDisabledLogged w);
        match goal with
        | |- context [costCheck cfg ?p options ?w0] =>
            destruct (Hsteps w0 p eq_refl eq_refl eq_refl eq_refl) as [-> ->]
        end; run; auto.
    + run.
      match goal with
      | |- context [costCheck cfg ?p options ?w0] =>
          destruct (Hsteps w0 p eq_refl eq_refl eq_refl eq_refl) as [-> ->]
      end; run; auto.
  - intros Hcache Hfits Hentry Hfresh. unfold anthropic_create. rewrite Hcache.
    assert ((if smartRouting cfg
             then set_model (mkParams requested conversation sampling cap)
                    (selectOptimalModel cfg requested conversation)
             else mkParams requested conversation sampling cap) =
            mkParams (if smartRouting cfg then selectOptimalModel cfg requested conversation
                      else requested) conversation sampling cap) as Hrouted
      by now destruct (smartRouting cfg).
    cbn [model messages]. rewrite Hrouted. run.
    rewrite costCheck_within_budget by exact Hfits.
    rewrite (getFromCache_hit env _ _ entry Hentry Hfresh).
    run. auto.
Qed.

Lemma cache_hit_short_circuits_witness :
  let env := Sample.collaborators (Sample.provider_rejects always_400) Sample.track_ok in
  let conversation := [mkMessage "user" "Hi"] in
  let entry := mkEntry (Sample.response "cached") 0 3600000 0 in
  let capped := mkOptions None None None (Some (Double.of_Q (1 # 1000))) None None None in
  let w :=
    with_cache initialWorld
      [(getCacheKey env "openai" (mkParams "gpt-3.5-turbo" conversation None None), entry);
       (getCacheKey env "anthropic"
          (mkParams "claude-3-haiku" conversation (Some (7 # 10)%Q) (Some 50%Z)), entry)] in
  fst (openai_create env FirstGeneration (defaultConfig "key")
         (mkParams "gpt-4" conversation (Some (2 # 10)%Q) (Some 50%Z)) capped w) =
    Ok (Sample.response "cached") /\
  fst (anthropic_create env FirstGeneration (defaultConfig "key")
         (mkParams "claude-3-opus" conversation (Some (7 # 10)%Q) (Some 50%Z)) capped w) =
    Ok (Sample.response "cached").
Proof.
  intros env conversation entry capped w. split.
  - destruct (cache_hit_short_circuits env FirstGeneration (defaultConfig "key") "gpt-4"
                conversation (Some (2 # 10)%Q) (Some 50%Z) capped w entry) as (H & _).
    apply H.
    + reflexivity.
    + reflexivity.
    + intros limit Hlimit. vm_compute in Hlimit. injection Hlimit as <-.
      vm_compute. reflexivity.
    + vm_compute. reflexivity.
    + vm_compute. discriminate.
  - destruct (cache_hit_short_circuits env FirstGeneration (defaultConfig "key")
                "claude-3-opus" conversation (Some (7 # 10)%Q) (Some 50%Z) capped w entry)
      as (_ & H).
    apply H.
    + reflexivity.
    + intros limit Hlimit. vm_compute in Hlimit. injection Hlimit as <-.
      vm_compute. reflexivity.
    + vm_compute. reflexivity.
    + vm_compute. discriminate.
Defined.

(** ** A provider that is down *)

Lemma trackRun_keeps_sleeps env gen cfg data w :
  sleeps (snd (trackRun env gen cfg data w)) = sleeps w.
Proof.
  unfold trackRun. destruct (instant_mode gen cfg); [reflexivity|].
  unfold isApiDown. run. destruct (_ && _); run; [reflexivity|].
  destruct (fetch_track env (fetchLog w) data);
    unfold resetApiFailures, recordApiFailure; run; reflexivity.
Qed.

(** One model against a provider that rejects every call with [e]. *)
Lemma retry_provider_down env cfg p w e :
  (forall log q, provider_create env log q = Throw e) ->
  retryWithBackoff (providerCall env p) (default_retries cfg) w =
  (Throw e,
   after_calls p w (attempts_per_model cfg e)
     (backoff_delays (attempts_per_model cfg e - 1))).
Proof.
  intros Hprov. pose proof (default_retries_pos cfg) as Hpos.
  unfold attempts_per_model. destruct (is_client_error e) eqn:Hclient.
  - pose proof (retryWithBackoff_ends env p (default_retries cfg) 0 w Hpos) as H.
    unfold attempt_outcome in H. rewrite Hprov in H.
    apply H; [intros j Hj; lia | now left].
  - pose proof (retryWithBackoff_ends env p (default_retries cfg)
                  (default_retries cfg - 1) w) as H.
    unfold attempt_outcome in H. rewrite Hprov in H.
    replace (S (default_retries cfg - 1)) with (default_retries cfg) in H by lia.
    apply H; [lia | | now right].
    intros j Hj. exists e. now rewrite Hprov.
Qed.

Lemma fallback_loop_provider_down env params e :
  (forall log q, provider_create env log q = Throw e) ->
  forall models st w,
    exists st',
      fallback_loop env params models st w =
      (Ok st', with_providerLog w (providerLog w ++ map (set_model params) models)) /\
      call_result st' = call_result st /\
      (call_lastError st = e -> call_lastError st' = e).
Proof.
  intros Hprov. induction models as [|m models IH]; intros st w.
  - exists st. cbn [fallback_loop map]. unfold ret. rewrite app_nil_r.
    split; [now destruct w | auto].
  - cbn [fallback_loop]. unfold try_catch, bind, providerCall. rewrite Hprov.
    destruct (IH (mkCallState (call_result st) (call_usedModel st) e)
                (with_providerLog w (providerLog w ++ [set_model params m])))
      as (st' & -> & Hres & Herr).
    exists st'. run_world. cbn [map]. rewrite <- app_assoc. cbn [app].
    split; [reflexivity | split; [exact Hres | intros _; now apply Herr]].
Qed.

Lemma firstn_min_length {A : Type} (l : list A) (n : nat) :
  firstn (Nat.min (List.length l) n) l = firstn n l.
Proof.
  destruct (Nat.le_gt_cases n (List.length l)) as [H|H].
  - now rewrite Nat.min_r.
  - rewrite Nat.min_l by lia. rewrite firstn_all. symmetry. apply firstn_all2. lia.
Qed.

(** The call phase of [wrapOpenAI] against a provider that rejects every
    call with [e]. *)
Lemma openai_call_provider_down env cfg params chain w e :
  (forall log q, provider_create env log q = Throw e) ->
  let fallbacks :=
    if autoFallback cfg && shouldTryFallback e
    then firstn (default_retries cfg) chain else [] in
  let retried :=
    after_calls params w (attempts_per_model cfg e)
      (backoff_delays (attempts_per_model cfg e - 1)) in
  exists st,
    openai_call env cfg params chain w =
    (Ok st,
     with_providerLog retried (providerLog retried ++ map (set_model params) fallbacks)) /\
    call_result st = None /\ call_lastError st = e.
Proof.
  intros Hprov fallbacks retried. unfold openai_call, try_catch, bind.
  rewrite (retry_provider_down env cfg params w e Hprov). fold retried.
  destruct (autoFallback cfg && (0 <? List.length chain)%nat && shouldTryFallback e)
    eqn:Hcond.
  - apply andb_prop in Hcond. destruct Hcond as [Hcond Hshould].
    apply andb_prop in Hcond. destruct Hcond as [Hauto _].
    destruct (fallback_loop_provider_down env params e Hprov
                (firstn (Nat.min (List.length chain) (default_retries cfg)) chain)
                (mkCallState None (model params) e) retried) as (st & -> & Hres & Herr).
    exists st. subst fallbacks. rewrite Hauto, Hshould. cbn [andb].
    rewrite firstn_min_length. split; [reflexivity | split; [exact Hres | now apply Herr]].
  - exists (mkCallState None (model params) e). unfold ret.
    assert (fallbacks = []) as ->.
    { subst fallbacks. destruct (autoFallback cfg); [|reflexivity].
      destruct (shouldTryFallback e); [|reflexivity]. cbn [andb] in *.
      rewrite andb_true_r in Hcond. apply Nat.ltb_ge in Hcond.
      destruct chain; [now rewrite firstn_nil | cbn in Hcond; lia]. }
    cbn [map]. rewrite app_nil_r.
    split; [now destruct retried | split; reflexivity].
Qed.

(** X17. [wrapOpenAI] against a provider that is down. When a call that is
    admitted (the binary64 estimate is not above the cost limit in force,
    and neither cache serves the request) meets a provider that rejects
    every call with the same error object, [create] tries the primary model
    once for a client error (status 400 to 499) and [maxRetries] times (3 by
    default) otherwise, waiting 1 s, 2 s, 4 s, ... between these attempts;
    then, if fallbacks are on and the error has no status, status 0 or a
    status of 500 or more, the first [maxRetries] models of the fallback
    chain, once each and without waiting; and it rejects with that error.
    At most twice [maxRetries] calls are made. *)
Theorem openai_provider_down (env : Collaborators) (gen : Generation)
    (cfg : CostLensConfig) (params : Params) (options : WrapperOptions) (w : World)
    (routed : Params) (w1 : World) (e : JsError) (message : option string) :
  (forall log q, provider_create env log q = Throw e) ->
  error_message e = Ok message ->
  openai_admit env cfg params options w = (Ok (Proceed routed), w1) ->
  let sent := runMiddleware_before cfg routed in
  let fallbacks :=
    if autoFallback cfg && shouldTryFallback e
    then firstn (default_retries cfg) (fallback_chain cfg sent options) else [] in
  let outcome := openai_create env gen cfg params options w in
  fst outcome = Throw e /\
  providerLog (snd outcome) =
    (providerLog w ++ repeat sent (attempts_per_model cfg e) ++
     map (set_model sent) fallbacks)%list /\
  sleeps (snd outcome) = (sleeps w1 ++ backoff_delays (attempts_per_model cfg e - 1))%list /\
  (List.length (providerLog (snd outcome)) <=
   List.length (providerLog w) + 2 * default_retries cfg)%nat.
Proof.
  intros Hprov Hmsg Hadmit sent fallbacks outcome.
  assert (fst outcome = Throw e /\
          providerLog (snd outcome) =
            (providerLog w ++ repeat sent (attempts_per_model cfg e) ++
             map (set_model sent) fallbacks)%list /\
          sleeps (snd outcome) =
            (sleeps w1 ++ backoff_delays (attempts_per_model cfg e - 1))%list)
    as (Hfst & Hlog & Hsleeps).
  { subst outcome. unfold openai_create, bind. rewrite Hadmit.
    pose proof (keeps_openai_admit env cfg params options w) as Hkeep.
    rewrite Hadmit in Hkeep. cbn [snd] in Hkeep.
    unfold openai_dispatch, bind, now. run_world. fold sent.
    destruct (openai_call_provider_down env cfg sent (fallback_chain cfg sent options)
                (with_clockReads w1 (S (clockReads w1))) e Hprov)
      as (st & -> & Hres & Herr).
    fold fallbacks. rewrite Hres, Herr.
    unfold openai_fail, bind, now, ret. run_world.
    unfold trackError, bind, lift. rewrite Hmsg.
    match goal with
    | |- context [trackRun env gen cfg ?d ?w0] =>
        pose proof (trackRun_never_throws env gen cfg d w0) as Hok;
        pose proof (keeps_trackRun env gen cfg d w0) as Hkeeplog;
        pose proof (trackRun_keeps_sleeps env gen cfg d w0) as Hkeepsleeps;
        destruct (trackRun env gen cfg d w0) as [[[]|e''] w2]
    end; cbn [fst snd] in *; [|discriminate].
    unfold throw. cbn [fst snd]. split; [reflexivity|].
    rewrite Hkeeplog, Hkeepsleeps. unfold after_calls. run_world.
    rewrite Hkeep, <- app_assoc. split; reflexivity. }
  refine (conj Hfst (conj Hlog (conj Hsleeps _))).
  rewrite Hlog, !length_app, repeat_length, length_map.
  assert (attempts_per_model cfg e <= default_retries cfg)%nat.
  { unfold attempts_per_model. pose proof (default_retries_pos cfg).
    destruct (is_client_error e); lia. }
  assert (List.length fallbacks <= default_retries cfg)%nat.
  { subst fallbacks. destruct (_ && _); [|cbn; lia]. rewrite length_firstn. lia. }
  lia.
Qed.

Lemma openai_provider_down_witness :
  let down := JsErrorObject (Some 503%Z) (Some "Service Unavailable") in
  let env := Sample.collaborators (Sample.provider_rejects down) Sample.track_ok in
  let params := mkParams "gpt-4o" [mkMessage "user" "Hi"] None None in
  let capped := mkOptions None None None (Some (Double.of_Q (1 # 1000))) None None None in
  let outcome :=
    openai_create env FirstGeneration (defaultConfig "key") params capped initialWorld in
  let off := mkConfig "key" true 3 [] true false false None None None in
  let tight := mkOptions None None None (Some (Double.of_Q (3 # 10000))) None None None in
  let refused :=
    openai_create env FirstGeneration off (mkParams "gpt-4" [mkMessage "user" "Hello"] None None)
      tight initialWorld in
  fst outcome = Throw down /\
  map model (providerLog (snd outcome)) =
    ["gpt-3.5-turbo"; "gpt-3.5-turbo"; "gpt-3.5-turbo"; "gpt-4o"; "gemini-1.5-flash";
     "claude-3-haiku"] /\
  sleeps (snd outcome) = [1000%Z; 2000%Z] /\
  providerLog (snd refused) = [] /\
  fst refused <> Throw down.
Proof.
  intros down env params capped outcome off tight refused.
  edestruct (openai_provider_down env FirstGeneration (defaultConfig "key") params capped
               initialWorld) as (Hfst & Hlog & Hsleeps & _).
  - intros log q. reflexivity.
  - reflexivity.
  - vm_compute. reflexivity.
  - fold outcome in Hfst, Hlog, Hsleeps.
    rewrite Hfst, Hlog, Hsleeps. vm_compute.
    refine (conj eq_refl (conj eq_refl (conj eq_refl (conj eq_refl _)))). discriminate.
Defined.

(** The loop of [wrapAnthropic] against a provider that rejects every call
    with [e]: every model still to try gets its attempts and its waits. *)
Lemma anthropic_loop_provider_down env gen cfg originalModel params options start
    modelsToTry e message :
  (forall log q, provider_create env log q = Throw e) ->
  error_message e = Ok message ->
  forall todo i lastError w,
    todo <> [] -> (i + List.length todo = List.length modelsToTry)%nat ->
    let outcome := anthropic_loop env gen cfg originalModel params options start
                     modelsToTry i todo lastError w in
    fst outcome = Throw e /\
    providerLog (snd outcome) =
      (providerLog w ++
       flat_map (fun m => repeat (set_model params m) (attempts_per_model cfg e)) todo)%list /\
    sleeps (snd outcome) =
      (sleeps w ++
       flat_map (fun _ : string => backoff_delays (attempts_per_model cfg e - 1)) todo)%list.
Proof.
  intros Hprov Hmsg. induction todo as [|m todo IH]; intros i lastError w Hne Hlen.
  - congruence.
  - cbn [anthropic_loop]. unfold bind at 1. unfold try_catch, bind.
    rewrite (retry_provider_down env cfg _ w e Hprov). unfold ret. cbv beta iota.
    destruct todo as [|m' todo].
    + assert ((i =? List.length modelsToTry - 1)%nat = true) as ->
        by (apply Nat.eqb_eq; cbn in Hlen; lia).
      unfold anthropic_fail, bind, now, ret. run_world.
      unfold trackError, bind, lift. rewrite Hmsg.
      match goal with
      | |- context [trackRun env gen cfg ?d ?w0] =>
          pose proof (trackRun_never_throws env gen cfg d w0) as Hok;
          pose proof (keeps_trackRun env gen cfg d w0) as Hkeep;
          pose proof (trackRun_keeps_sleeps env gen cfg d w0) as Hsleeps;
          destruct (trackRun env gen cfg d w0) as [[[]|e''] w2]
      end; cbn [fst snd] in *; [|discriminate].
      unfold throw. cbn [fst snd flat_map]. rewrite Hkeep, Hsleeps.
      unfold after_calls. run_world. rewrite !app_nil_r. auto.
    + assert ((i =? List.length modelsToTry - 1)%nat = false) as ->
        by (apply Nat.eqb_neq; cbn in Hlen; lia).
      match goal with
      | |- context [anthropic_loop _ _ _ _ _ _ _ _ _ _ _ ?w0] =>
          destruct (IH (S i) e w0) as (Hfst & Hlog & Hsleeps);
            [discriminate | cbn in *; lia |]
      end.
      refine (conj Hfst (conj _ _)).
      * rewrite Hlog. unfold after_calls. run_world.
        cbn [flat_map]. now rewrite <- !app_assoc.
      * rewrite Hsleeps. unfold after_calls. run_world.
        cbn [flat_map]. now rewrite <- !app_assoc.
Qed.

(** X18. [wrapAnthropic] against a provider that is down. When a call that
    is admitted (the binary64 estimate is not above the cost limit in
    force, no cache entry under its key) meets a provider that rejects
    every call with the same error object, [create] goes through the routed
    model and then every model of the fallback chain, and gives each of
    them one attempt for a client error (status 400 to 499) and
    [maxRetries] attempts (3 by default) otherwise, with waits of 1 s, 2 s,
    4 s, ... between the attempts on one model; then it rejects with that
    error. The number of provider calls is the attempts per model times the
    number of models. *)
Theorem anthropic_provider_down (env : Collaborators) (gen : Generation)
    (cfg : CostLensConfig) (params : Params) (options : WrapperOptions) (w : World)
    (e : JsError) (message : option string) :
  let routed :=
    if smartRouting cfg
    then set_model params (selectOptimalModel cfg (model params) (messages params))
    else params in
  let sent := runMiddleware_before cfg routed in
  let modelsToTry := model sent :: fallback_chain cfg sent options in
  let outcome := anthropic_create env gen cfg params options w in
  (forall log q, provider_create env log q = Throw e) ->
  error_message e = Ok message ->
  within_budget cfg options (model routed) (messages routed) ->
  enableCache cfg = false \/ absent (getCacheKey env "anthropic" routed) w ->
  fst outcome = Throw e /\
  providerLog (snd outcome) =
    (providerLog w ++
     flat_map (fun m => repeat (set_model sent m) (attempts_per_model cfg e))
       modelsToTry)%list /\
  sleeps (snd outcome) =
    (sleeps w ++
     flat_map (fun _ : string => backoff_delays (attempts_per_model cfg e - 1))
       modelsToTry)%list /\
  List.length (providerLog (snd outcome)) =
    (List.length (providerLog w) +
     attempts_per_model cfg e * List.length modelsToTry)%nat.
Proof.
  intros routed sent modelsToTry outcome Hprov Hmsg Hfits Hmiss.
  assert (outcome =
          anthropic_loop env gen cfg (model params) sent options
            (Date_now env (clockReads w)) modelsToTry 0 modelsToTry JsUndefined
            (with_clockReads w (S (clockReads w)))) as Houtcome.
  { subst outcome. unfold anthropic_create. fold routed. unfold bind at 1.
    rewrite costCheck_within_budget by exact Hfits.
    assert ((if enableCache cfg then getFromCache env (getCacheKey env "anthropic" routed)
             else ret None) w = (Ok None, w)) as Hlookup.
    { destruct (enableCache cfg); [|reflexivity].
      destruct Hmiss as [Hoff|Habsent]; [discriminate|].
      unfold absent in Habsent. unfold getFromCache. run. now rewrite Habsent. }
    unfold bind at 1. rewrite Hlookup. reflexivity. }
  destruct (anthropic_loop_provider_down env gen cfg (model params) sent options
              (Date_now env (clockReads w)) modelsToTry e message Hprov Hmsg modelsToTry
              0%nat JsUndefined (with_clockReads w (S (clockReads w))))
    as (Hfst & Hlog & Hsleeps); [subst modelsToTry; discriminate | reflexivity |].
  rewrite <- Houtcome in Hfst, Hlog, Hsleeps. revert Hlog Hsleeps. run_world.
  intros Hlog Hsleeps.
  refine (conj Hfst (conj Hlog (conj Hsleeps _))).
  rewrite Hlog, length_app. f_equal.
  generalize modelsToTry. intros l. induction l as [|m l IH]; [cbn; lia|].
  cbn [flat_map List.length]. rewrite length_app, repeat_length, IH. lia.
Qed.

Lemma anthropic_provider_down_witness :
  let down := JsErrorObject (Some 503%Z) (Some "Service Unavailable") in
  let env := Sample.collaborators (Sample.provider_rejects down) Sample.track_ok in
  let params := mkParams "claude-3-haiku" [mkMessage "user" "Hi"] None None in
  let capped := mkOptions None None None (Some (Double.of_Q (1 # 1000))) None None None in
  let outcome :=
    anthropic_create env FirstGeneration (defaultConfig "key") params capped
      initialWorld in
  fst outcome = Throw down /\
  List.length (providerLog (snd outcome)) = 12%nat /\
  sleeps (snd outcome) =
    [1000%Z; 2000%Z; 1000%Z; 2000%Z; 1000%Z; 2000%Z; 1000%Z; 2000%Z].
Proof.
  intros down env params capped outcome.
  destruct (anthropic_provider_down env FirstGeneration (defaultConfig "key") params
              capped initialWorld down (Some "Service Unavailable"))
    as (Hfst & _ & Hsleeps & Hcount).
  - intros log q. reflexivity.
  - reflexivity.
  - intros limit Hlimit. vm_compute in Hlimit. injection Hlimit as <-.
    vm_compute. reflexivity.
  - right. vm_compute. reflexivity.
  - fold outcome in Hfst, Hsleeps, Hcount.
    rewrite Hfst, Hsleeps, Hcount. vm_compute.
    split; [reflexivity | split; reflexivity].
Defined.

(** ** A successful call is stored *)

Lemma bind_ok {A B : Type} (m : M A) (k : A -> M B) (w : World) (a : A) (w1 : World) :
  m w = (Ok a, w1) -> bind m k w = k a w1.
Proof. intros H. unfold bind. now rewrite H. Qed.

Lemma quality_gate_passes env cfg originalModel usedModel params processed w :
  originalModel = usedModel \/
  (exists score,
     quality_score cfg (response_text processed) (Json.of_messages (messages params)) =
       Ok score /\ (score <? 0x1.6666666666666p-1)%float = false) ->
  quality_gate env cfg originalModel usedModel params processed w = (Ok None, w).
Proof.
  intros Hpass. unfold quality_gate.
  destruct (String.eqb_spec originalModel usedModel) as [Heq|Hne]; [reflexivity|].
  destruct Hpass as [Heq|(score & Hscore & Hhigh)]; [contradiction|].
  cbn [negb]. unfold bind, lift. rewrite Hscore. now rewrite Hhigh.
Qed.

Lemma openai_save_stores env cfg usedModel params options processed w :
  enableCache cfg || cacheTTL_truthy options = true ->
  exists w' entry,
    openai_save env cfg usedModel params options processed w = (Ok tt, w') /\
    map_get (getCacheKey env "openai" (mkParams usedModel (messages params) None None))
      (cache w') = Some entry /\
    result entry = processed /\
    ttl entry = match cacheTTL options with Some t => t | None => 3600000%Z end /\
    timestamp entry = Date_now env (clockReads w) /\
    providerLog w' = providerLog w.
Proof.
  intros Hcache. unfold openai_save. rewrite Hcache.
  destruct (setCache_result env
              (getCacheKey env "openai" (mkParams usedModel (messages params) None None))
              processed
              (Some match cacheTTL options with Some t => t | None => 3600000%Z end) w)
    as (c & Hset & _).
  rewrite (bind_ok _ _ _ _ _ Hset).
  destruct (enableCache cfg && runsOnNode env); run;
    (do 2 eexists; split; [reflexivity|]; run_world;
     split; [apply map_get_set_same | repeat split]).
Qed.

Lemma openai_track_frame env gen cfg originalModel usedModel params options processed
    start w :
  exists w',
    openai_track env gen cfg originalModel usedModel params options processed start w =
      (Ok tt, w') /\
    cache w' = cache w /\ providerLog w' = providerLog w.
Proof.
  unfold openai_track. unfold bind, now.
  match goal with
  | |- context [trackRun env gen cfg ?d ?w0] =>
      pose proof (trackRun_never_throws env gen cfg d w0) as Hok;
      pose proof (keeps_trackRun env gen cfg d w0) as Hlog;
      pose proof (preserves_trackRun (fun x => cache x = cache w)
                    (fun a b E H => eq_trans E H) env gen cfg d w0 eq_refl) as Hcache;
      destruct (trackRun env gen cfg d w0) as [[[]|e] w']
  end; cbn [fst snd] in *; [|discriminate].
  exists w'. split; [reflexivity | split; [exact Hcache | exact Hlog]].
Qed.

(** X19. A successful call is stored. When an admitted call of
    [wrapOpenAI] succeeds at its first attempt and the quality gate lets the
    response through (the model was not changed, or the score, a binary64
    number, is not below 0.7), [create] makes that one provider call,
    returns the response as the after-hooks leave it and, with caching on,
    stores it under the key of the model used and the messages sent, with
    the [cacheTTL] option as time to live, one hour without one. The next
    look-up under that key finds it as long as the clock stays within the
    time to live. *)
Theorem openai_success_is_stored (env : Collaborators) (gen : Generation)
    (cfg : CostLensConfig) (params : Params) (options : WrapperOptions) (w : World)
    (routed : Params) (w1 : World) (r : Response) :
  let sent := runMiddleware_before cfg routed in
  let processed := runMiddleware_after cfg r in
  let key := getCacheKey env "openai" (mkParams (model sent) (messages sent) None None) in
  let outcome := openai_create env gen cfg params options w in
  openai_admit env cfg params options w = (Ok (Proceed routed), w1) ->
  provider_create env (providerLog w1) sent = Ok r ->
  model params = model sent \/
  (exists score,
     quality_score cfg (response_text processed) (Json.of_messages (messages sent)) =
       Ok score /\ (score <? 0x1.6666666666666p-1)%float = false) ->
  enableCache cfg || cacheTTL_truthy options = true ->
  fst outcome = Ok processed /\
  providerLog (snd outcome) = (providerLog w ++ [sent])%list /\
  exists entry,
    map_get key (cache (snd outcome)) = Some entry /\
    result entry = processed /\
    ttl entry = match cacheTTL options with Some t => t | None => 3600000%Z end /\
    (fresh env (snd outcome) entry ->
     fst (getFromCache env key (snd outcome)) = Ok (Some processed)).
Proof.
  intros sent processed key outcome Hadmit Hfirst Hgate Hcache.
  pose proof (keeps_openai_admit env cfg params options w) as Hkeep.
  rewrite Hadmit in Hkeep. cbn [snd] in Hkeep.
  set (w2 := with_clockReads w1 (S (clockReads w1))).
  set (w3 := with_providerLog w2 (providerLog w2 ++ [sent])).
  destruct (openai_save_stores env cfg (model sent) sent options processed w3 Hcache)
    as (w4 & entry & Hsave & Hentry & Hresult & Httl & _ & Hlog4).
  destruct (openai_track_frame env gen cfg (model params) (model sent) sent options
              processed (Date_now env (clockReads w1)) w4)
    as (w5 & Htrack & Hcache5 & Hlog5).
  assert (outcome = (Ok processed, w5)) as ->.
  { subst outcome. unfold openai_create.
    rewrite (bind_ok _ _ _ _ _ Hadmit). cbv beta iota.
    unfold openai_dispatch. cbv zeta. fold sent.
    rewrite (bind_ok (now env) _ w1 (Date_now env (clockReads w1)) w2 eq_refl).
    rewrite (bind_ok _ _ _ _ _
               (openai_call_first_success env cfg sent (fallback_chain cfg sent options)
                  w2 r Hfirst)).
    cbn [call_result call_usedModel]. fold processed. fold w3.
    rewrite (bind_ok _ _ _ _ _
               (quality_gate_passes env cfg (model params) (model sent) sent processed w3
                  Hgate)).
    rewrite (bind_ok _ _ _ _ _ Hsave), (bind_ok _ _ _ _ _ Htrack). reflexivity. }
  cbn [fst snd]. refine (conj eq_refl (conj _ _)).
  - rewrite Hlog5, Hlog4. subst w3 w2. run_world. now rewrite Hkeep.
  - exists entry. rewrite Hcache5.
    refine (conj Hentry (conj Hresult (conj Httl _))).
    intros Hfresh. rewrite (getFromCache_hit env key w5 entry); [now rewrite Hresult | | exact Hfresh].
    now rewrite Hcache5.
Qed.

Lemma openai_success_is_stored_witness :
  let env := Sample.collaborators Sample.provider_echo Sample.track_ok in
  let params := mkParams "gpt-3.5-turbo" [mkMessage "user" "Hi"] None None in
  let outcome :=
    openai_create env FirstGeneration (defaultConfig "key") params noOptions initialWorld in
  let key := getCacheKey env "openai" params in
  let routed :=
    openai_create env FirstGeneration (defaultConfig "key")
      (mkParams "gpt-4" [mkMessage "user" "Hi"] None None) noOptions initialWorld in
  fst outcome = Ok (Sample.response "answer of gpt-3.5-turbo") /\
  providerLog (snd outcome) = [params] /\
  fst (getFromCache env key (snd outcome)) =
    Ok (Some (Sample.response "answer of gpt-3.5-turbo")) /\
  fst routed = Ok (Sample.response "answer of gpt-3.5-turbo") /\
  providerLog (snd routed) = [params].
Proof.
  intros env params outcome key routed. split; [|split; [|split]].
  - edestruct (openai_success_is_stored env FirstGeneration (defaultConfig "key") params
                 noOptions initialWorld) as (Hfst & _).
    + vm_compute. reflexivity.
    + reflexivity.
    + left. reflexivity.
    + reflexivity.
    + exact Hfst.
  - edestruct (openai_success_is_stored env FirstGeneration (defaultConfig "key") params
                 noOptions initialWorld) as (_ & Hlog & _).
    + vm_compute. reflexivity.
    + reflexivity.
    + left. reflexivity.
    + reflexivity.
    + exact Hlog.
  - edestruct (openai_success_is_stored env FirstGeneration (defaultConfig "key") params
                 noOptions initialWorld) as (_ & _ & entry & Hentry & _ & _ & Hread).
    + vm_compute. reflexivity.
    + reflexivity.
    + left. reflexivity.
    + reflexivity.
    + fold outcome in Hentry, Hread. apply Hread.
      vm_compute in Hentry. injection Hentry as <-. vm_compute. discriminate.
  - edestruct (openai_success_is_stored env FirstGeneration (defaultConfig "key")
                 (mkParams "gpt-4" [mkMessage "user" "Hi"] None None) noOptions
                 initialWorld) as (Hfst & Hlog & _).
    + vm_compute. reflexivity.
    + reflexivity.
    + right. eexists. split; [reflexivity | vm_compute; reflexivity].
    + reflexivity.
    + split; [exact Hfst | exact Hlog].
Defined.

(** ** Model consistency *)

Lemma validateModelConsistency_true (requested actual : string) :
  validateModelConsistency requested actual = Ok true <->
  requested = actual \/ In (requested, actual) downgrade_pairs.
Proof.
  unfold validateModelConsistency. split.
  - destruct (String.eqb_spec requested actual) as [->|Hne]; [now left|].
    intros H. right. revert H.
    unfold map_get, modelHierarchy. cbn [find fst snd].
    repeat match goal with
    | |- context [String.eqb ?k requested] =>
        destruct (String.eqb_spec k requested) as [<-|?]
    end;
    try (destruct (array_includes inherited_properties requested); cbn; discriminate);
    unfold array_includes; cbn [existsb snd];
    repeat match goal with
    | |- context [String.eqb actual ?k] =>
        destruct (String.eqb_spec actual k) as [->|?]
    end; cbn; intros H; try discriminate H; auto 20.
  - intros [->|Hin].
    + now rewrite String.eqb_refl.
    + cbn in Hin.
      repeat (destruct Hin as [Hin|Hin]; [injection Hin as <- <-; reflexivity|]).
      destruct Hin.
Qed.

(** X20. [validateModelConsistency] (second generation) accepts a pair
    exactly when the two models are the same or the hierarchy lists the
    actual model as a downgrade of the requested one. The accepted pairs
    form a partial order: every model is consistent with itself, two
    different models are never consistent both ways round, and a downgrade
    of a downgrade is a downgrade. An upgrade is rejected. For a requested
    model that no row names the method returns false on every other model,
    unless the name is one that objects inherit (such as "constructor"):
    then it throws. *)
Theorem validateModelConsistency_order (a b c : string) :
  validateModelConsistency a a = Ok true /\
  (validateModelConsistency a b = Ok true -> validateModelConsistency b a = Ok true ->
   a = b) /\
  (validateModelConsistency a b = Ok true -> validateModelConsistency b c = Ok true ->
   validateModelConsistency a c = Ok true) /\
  (validateModelConsistency a b = Ok true -> a <> b ->
   validateModelConsistency b a = Ok false) /\
  (map_get a modelHierarchy = None -> a <> b ->
   validateModelConsistency a b =
     if array_includes inherited_properties a
     then Throw (JsErrorObject None (Some "allowedDowngrades.includes is not a function"))
     else Ok false).
Proof.
  refine (conj _ (conj _ (conj _ (conj _ _)))).
  - apply validateModelConsistency_true. now left.
  - intros Hab Hba. apply validateModelConsistency_true in Hab, Hba.
    destruct Hab as [Hab|Hab]; [exact Hab|]. destruct Hba as [Hba|Hba]; [now symmetry|].
    exfalso. cbn in Hab.
    repeat (destruct Hab as [Hab|Hab];
            [injection Hab as <- <-; cbn in Hba;
             repeat (destruct Hba as [Hba|Hba]; [discriminate Hba|]); destruct Hba|]).
    destruct Hab.
  - intros Hab Hbc. apply validateModelConsistency_true in Hab, Hbc.
    apply validateModelConsistency_true.
    destruct Hab as [->|Hab]; [exact Hbc|]. destruct Hbc as [<-|Hbc]; [now right|].
    right. cbn in Hab.
    repeat (destruct Hab as [Hab|Hab];
            [injection Hab as <- <-; cbn in Hbc;
             repeat (destruct Hbc as [Hbc|Hbc];
                     [first [discriminate Hbc | injection Hbc as <-; cbn; tauto]|]);
             destruct Hbc|]).
    destruct Hab.
  - intros Hab Hne. apply validateModelConsistency_true in Hab.
    destruct Hab as [Hab|Hab]; [contradiction|]. cbn in Hab.
    repeat (destruct Hab as [Hab|Hab]; [injection Hab as <- <-; reflexivity|]).
    destruct Hab.
  - intros Hnone Hne. unfold validateModelConsistency. rewrite Hnone.
    destruct (String.eqb_spec a b) as [Heq|_]; [contradiction|].
    now destruct (array_includes inherited_properties a).
Qed.

Lemma validateModelConsistency_order_witness :
  validateModelConsistency "gpt-4" "gpt-3.5-turbo" = Ok true /\
  validateModelConsistency "gpt-3.5-turbo" "gpt-4" = Ok false /\
  validateModelConsistency "mistral-large" "gpt-4" = Ok false /\
  validateModelConsistency "constructor" "gpt-4" =
    Throw (JsErrorObject None (Some "allowedDowngrades.includes is not a function")).
Proof.
  refine (conj _ (conj _ (conj _ _))).
  - destruct (validateModelConsistency_order "gpt-4" "gpt-4o" "gpt-3.5-turbo")
      as (_ & _ & H & _).
    apply H; reflexivity.
  - destruct (validateModelConsistency_order "gpt-4" "gpt-3.5-turbo" "")
      as (_ & _ & _ & H & _).
    apply H; [reflexivity | discriminate].
  - destruct (validateModelConsistency_order "mistral-large" "gpt-4" "")
      as (_ & _ & _ & _ & H).
    apply H; [reflexivity | discriminate].
  - destruct (validateModelConsistency_order "constructor" "gpt-4" "")
      as (_ & _ & _ & _ & H).
    apply H; [reflexivity | discriminate].
Defined.
